(** * OpenApoc [TileView]: camera, selection and layered rendering

    A shallow embedding of [game/ui/tileview/tileview.cpp].  The C++ class
    [TileView] becomes a record, its member functions become functions that
    pass the view and the framework services (log, sound listener, renderer)
    explicitly.  [float] is IEEE-754 binary32, taken from the standard
    library's executable specification; [int] is modelled by [Z] (signed
    overflow is undefined in C++ and none of the modelled paths reaches it on
    a map whose sizes fit an [int]). *)

From Stdlib Require Import ZArith List String Bool Lia.
From Stdlib Require Import SpecFloat.
Import ListNotations.

Local Open Scope Z_scope.

(** ** binary32 floating point *)

Module F32.

Definition prec : Z := 24.
Definition emax : Z := 128.

Definition float : Type := spec_float.

Definition add : float -> float -> float := SFadd prec emax.
Definition sub : float -> float -> float := SFsub prec emax.
Definition mul : float -> float -> float := SFmul prec emax.
Definition div : float -> float -> float := SFdiv prec emax.
Definition ltb : float -> float -> bool := SFltb.
Definition leb : float -> float -> bool := SFleb.

(** [f1 > f2] in C++ is [f2 < f1]. *)
Definition gtb (f1 f2 : float) : bool := ltb f2 f1.

Definition zero : float := S754_zero false.

(** Conversion [(float)i] of an integer, round to nearest even. *)
Definition of_int (i : Z) : float := binary_normalize prec emax i 0 false.

(** The literals [0.5] and [2.0f]. *)
Definition half : float := div (of_int 1) (of_int 2).
Definition two : float := of_int 2.

Definition is_nan (f : float) : bool :=
  match f with S754_nan => true | _ => false end.

Definition is_finite (f : float) : bool :=
  match f with S754_zero _ | S754_finite _ _ _ => true | _ => false end.

Definition int_min : Z := - 2 ^ 31.
Definition int_max : Z := 2 ^ 31 - 1.

(** Conversion [(int)f]: truncation toward zero.  C++ leaves the result
    undefined for NaN, the infinities and values outside [int]; the model
    returns what the x86 conversion instruction gives there, [INT_MIN]. *)
Definition to_int (f : float) : Z :=
  match f with
  | S754_zero _ => 0
  | S754_finite s m e =>
      let t := match e with
               | Zneg p => Z.shiftr (Zpos m) (Zpos p)
               | _ => Z.shiftl (Zpos m) e
               end in
      let v := if s then - t else t in
      if (int_min <=? v) && (v <=? int_max) then v else int_min
  | _ => int_min
  end.

(** The sign of a rounded number is the sign it was given: rounding never
    produces NaN and never crosses zero. *)
Definition has_sign (s : bool) (f : float) : Prop :=
  match f with
  | S754_zero s' | S754_infinity s' | S754_finite s' _ _ => s' = s
  | S754_nan => False
  end.

End F32.

Abbreviation float := F32.float.

(** ** Vectors ([library/vec.h]: [Vec2<T>], [Vec3<T>]) *)

Module V2.
Record t (T : Type) : Type := mk { x : T; y : T }.
Arguments mk {T} _ _.
Arguments x {T} _.
Arguments y {T} _.
End V2.

Module V3.
Record t (T : Type) : Type := mk { x : T; y : T; z : T }.
Arguments mk {T} _ _ _.
Arguments x {T} _.
Arguments y {T} _.
Arguments z {T} _.
End V3.

Abbreviation Vec2 := V2.t.
Abbreviation Vec3 := V3.t.

(** Component-wise conversions and arithmetic used by the view. *)
Definition vec2_to_float (v : Vec2 Z) : Vec2 float :=
  V2.mk (F32.of_int (V2.x v)) (F32.of_int (V2.y v)).

Definition vec3_to_int (v : Vec3 float) : Vec3 Z :=
  V3.mk (F32.to_int (V3.x v)) (F32.to_int (V3.y v)) (F32.to_int (V3.z v)).

Definition vec2_sub_f (a b : Vec2 float) : Vec2 float :=
  V2.mk (F32.sub (V2.x a) (V2.x b)) (F32.sub (V2.y a) (V2.y b)).

Definition vec2_sub_i (a b : Vec2 Z) : Vec2 Z :=
  V2.mk (V2.x a - V2.x b) (V2.y a - V2.y b).

Definition vec3_sub_f (a b : Vec3 float) : Vec3 float :=
  V3.mk (F32.sub (V3.x a) (V3.x b)) (F32.sub (V3.y a) (V3.y b))
        (F32.sub (V3.z a) (V3.z b)).

(** ** Enumerations

    A C++ [enum class] can hold any value of its underlying type; the last
    constructor of each enumeration stands for the values outside the
    declared enumerators. *)

Inductive TileViewMode : Type :=
| Isometric
| Strategy
| UnknownViewMode (raw : Z).

(** [TileView::Mode] *)
Inductive Mode : Type :=
| City
| Battle
| UnknownMode (raw : Z).

Inductive LayerDrawingMode : Type :=
| UpToCurrentLevel
| AllLevels
| OnlyCurrentLevel
| UnknownLayerDrawingMode (raw : Z).

(** [TileObject::Type]; only [Ground] and [Unit] are told apart by the view. *)
Inductive TileObjectType : Type :=
| Ground
| Unit
| OtherObject (raw : Z).

Definition TileObjectType_eqb (a b : TileObjectType) : bool :=
  match a, b with
  | Ground, Ground => true
  | Unit, Unit => true
  | OtherObject m, OtherObject n => m =? n
  | _, _ => false
  end.

(** ** The tile map, as the view reads it *)

(** A [sp<TileObject>]: [objId] is the identity of the pointed-to object,
    which is what [==] on shared pointers compares. *)
Record TileObject : Type := mkTileObject {
  objId : Z;
  getType : TileObjectType;
  getPosition : Vec3 float
}.

Record Tile : Type := mkTile {
  drawnObjects : list (list TileObject);
  intersectingObjects : list TileObject
}.

(** [getTile] returns the cell at the given coordinates; a [Tile*] is
    therefore identified with the coordinates it was obtained from. *)
Record TileMap : Type := mkTileMap {
  size : Vec3 Z;
  getTile : Z -> Z -> Z -> Tile;
  getLayerCount : Z
}.

(** Images and palettes are identified by the path they were loaded from;
    [None] is the null pointer. *)
Definition Image : Type := string.
Definition Palette : Type := string.

Record Colour : Type := mkColour { cr : Z; cg : Z; cb : Z; ca : Z }.

(** ** The view *)
Record TileView : Type := mkTileView {
  map : TileMap;
  isoTileSize : Vec3 Z;
  stratTileSize : Vec2 Z;
  viewMode : TileViewMode;
  mode : Mode;
  scrollUp : bool;
  scrollDown : bool;
  scrollLeft : bool;
  scrollRight : bool;
  dpySize : Vec2 Z;
  strategyViewBoxColour : Colour;
  strategyViewBoxThickness : float;
  currentZLevel : Z;
  selectedTilePosition : Vec3 Z;
  selectedTileImageOffset : Vec2 Z;
  maxZDraw : Z;
  centerPos : Vec3 float;
  isoScrollSpeed : Vec2 float;
  stratScrollSpeed : Vec2 float;
  layerDrawingMode : LayerDrawingMode;
  selectedTileEmptyImageBack : option Image;
  selectedTileEmptyImageFront : option Image;
  selectedTileFilledImageBack : option Image;
  selectedTileFilledImageFront : option Image;
  selectedTileBackgroundImageBack : option Image;
  selectedTileBackgroundImageFront : option Image;
  pal : option Palette
}.

(** Assignments to single members. *)
Definition set_viewMode (v : TileViewMode) (t : TileView) : TileView :=
  mkTileView
    (map t) (isoTileSize t) (stratTileSize t) v (mode t) (scrollUp t)
    (scrollDown t) (scrollLeft t) (scrollRight t) (dpySize t)
    (strategyViewBoxColour t) (strategyViewBoxThickness t) (currentZLevel t)
    (selectedTilePosition t) (selectedTileImageOffset t) (maxZDraw t)
    (centerPos t) (isoScrollSpeed t) (stratScrollSpeed t) (layerDrawingMode t)
    (selectedTileEmptyImageBack t) (selectedTileEmptyImageFront t)
    (selectedTileFilledImageBack t) (selectedTileFilledImageFront t)
    (selectedTileBackgroundImageBack t) (selectedTileBackgroundImageFront t)
    (pal t).

Definition set_scrollUp (v : bool) (t : TileView) : TileView :=
  mkTileView
    (map t) (isoTileSize t) (stratTileSize t) (viewMode t) (mode t) v
    (scrollDown t) (scrollLeft t) (scrollRight t) (dpySize t)
    (strategyViewBoxColour t) (strategyViewBoxThickness t) (currentZLevel t)
    (selectedTilePosition t) (selectedTileImageOffset t) (maxZDraw t)
    (centerPos t) (isoScrollSpeed t) (stratScrollSpeed t) (layerDrawingMode t)
    (selectedTileEmptyImageBack t) (selectedTileEmptyImageFront t)
    (selectedTileFilledImageBack t) (selectedTileFilledImageFront t)
    (selectedTileBackgroundImageBack t) (selectedTileBackgroundImageFront t)
    (pal t).

Definition set_scrollDown (v : bool) (t : TileView) : TileView :=
  mkTileView
    (map t) (isoTileSize t) (stratTileSize t) (viewMode t) (mode t)
    (scrollUp t) v (scrollLeft t) (scrollRight t) (dpySize t)
    (strategyViewBoxColour t) (strategyViewBoxThickness t) (currentZLevel t)
    (selectedTilePosition t) (selectedTileImageOffset t) (maxZDraw t)
    (centerPos t) (isoScrollSpeed t) (stratScrollSpeed t) (layerDrawingMode t)
    (selectedTileEmptyImageBack t) (selectedTileEmptyImageFront t)
    (selectedTileFilledImageBack t) (selectedTileFilledImageFront t)
    (selectedTileBackgroundImageBack t) (selectedTileBackgroundImageFront t)
    (pal t).

Definition set_scrollLeft (v : bool) (t : TileView) : TileView :=
  mkTileView
    (map t) (isoTileSize t) (stratTileSize t) (viewMode t) (mode t)
    (scrollUp t) (scrollDown t) v (scrollRight t) (dpySize t)
    (strategyViewBoxColour t) (strategyViewBoxThickness t) (currentZLevel t)
    (selectedTilePosition t) (selectedTileImageOffset t) (maxZDraw t)
    (centerPos t) (isoScrollSpeed t) (stratScrollSpeed t) (layerDrawingMode t)
    (selectedTileEmptyImageBack t) (selectedTileEmptyImageFront t)
    (selectedTileFilledImageBack t) (selectedTileFilledImageFront t)
    (selectedTileBackgroundImageBack t) (selectedTileBackgroundImageFront t)
    (pal t).

Definition set_scrollRight (v : bool) (t : TileView) : TileView :=
  mkTileView
    (map t) (isoTileSize t) (stratTileSize t) (viewMode t) (mode t)
    (scrollUp t) (scrollDown t) (scrollLeft t) v (dpySize t)
    (strategyViewBoxColour t) (strategyViewBoxThickness t) (currentZLevel t)
    (selectedTilePosition t) (selectedTileImageOffset t) (maxZDraw t)
    (centerPos t) (isoScrollSpeed t) (stratScrollSpeed t) (layerDrawingMode t)
    (selectedTileEmptyImageBack t) (selectedTileEmptyImageFront t)
    (selectedTileFilledImageBack t) (selectedTileFilledImageFront t)
    (selectedTileBackgroundImageBack t) (selectedTileBackgroundImageFront t)
    (pal t).

Definition set_currentZLevel (v : Z) (t : TileView) : TileView :=
  mkTileView
    (map t) (isoTileSize t) (stratTileSize t) (viewMode t) (mode t)
    (scrollUp t) (scrollDown t) (scrollLeft t) (scrollRight t) (dpySize t)
    (strategyViewBoxColour t) (strategyViewBoxThickness t) v
    (selectedTilePosition t) (selectedTileImageOffset t) (maxZDraw t)
    (centerPos t) (isoScrollSpeed t) (stratScrollSpeed t) (layerDrawingMode t)
    (selectedTileEmptyImageBack t) (selectedTileEmptyImageFront t)
    (selectedTileFilledImageBack t) (selectedTileFilledImageFront t)
    (selectedTileBackgroundImageBack t) (selectedTileBackgroundImageFront t)
    (pal t).

Definition set_selectedTilePosition (v : Vec3 Z) (t : TileView) : TileView :=
  mkTileView
    (map t) (isoTileSize t) (stratTileSize t) (viewMode t) (mode t)
    (scrollUp t) (scrollDown t) (scrollLeft t) (scrollRight t) (dpySize t)
    (strategyViewBoxColour t) (strategyViewBoxThickness t) (currentZLevel t) v
    (selectedTileImageOffset t) (maxZDraw t) (centerPos t) (isoScrollSpeed t)
    (stratScrollSpeed t) (layerDrawingMode t) (selectedTileEmptyImageBack t)
    (selectedTileEmptyImageFront t) (selectedTileFilledImageBack t)
    (selectedTileFilledImageFront t) (selectedTileBackgroundImageBack t)
    (selectedTileBackgroundImageFront t) (pal t).

Definition set_centerPos (v : Vec3 float) (t : TileView) : TileView :=
  mkTileView
    (map t) (isoTileSize t) (stratTileSize t) (viewMode t) (mode t)
    (scrollUp t) (scrollDown t) (scrollLeft t) (scrollRight t) (dpySize t)
    (strategyViewBoxColour t) (strategyViewBoxThickness t) (currentZLevel t)
    (selectedTilePosition t) (selectedTileImageOffset t) (maxZDraw t) v
    (isoScrollSpeed t) (stratScrollSpeed t) (layerDrawingMode t)
    (selectedTileEmptyImageBack t) (selectedTileEmptyImageFront t)
    (selectedTileFilledImageBack t) (selectedTileFilledImageFront t)
    (selectedTileBackgroundImageBack t) (selectedTileBackgroundImageFront t)
    (pal t).

Definition set_layerDrawingMode (v : LayerDrawingMode) (t : TileView) : TileView :=
  mkTileView
    (map t) (isoTileSize t) (stratTileSize t) (viewMode t) (mode t)
    (scrollUp t) (scrollDown t) (scrollLeft t) (scrollRight t) (dpySize t)
    (strategyViewBoxColour t) (strategyViewBoxThickness t) (currentZLevel t)
    (selectedTilePosition t) (selectedTileImageOffset t) (maxZDraw t)
    (centerPos t) (isoScrollSpeed t) (stratScrollSpeed t) v
    (selectedTileEmptyImageBack t) (selectedTileEmptyImageFront t)
    (selectedTileFilledImageBack t) (selectedTileFilledImageFront t)
    (selectedTileBackgroundImageBack t) (selectedTileBackgroundImageFront t)
    (pal t).

Definition set_pal (v : option Palette) (t : TileView) : TileView :=
  mkTileView
    (map t) (isoTileSize t) (stratTileSize t) (viewMode t) (mode t)
    (scrollUp t) (scrollDown t) (scrollLeft t) (scrollRight t) (dpySize t)
    (strategyViewBoxColour t) (strategyViewBoxThickness t) (currentZLevel t)
    (selectedTilePosition t) (selectedTileImageOffset t) (maxZDraw t)
    (centerPos t) (isoScrollSpeed t) (stratScrollSpeed t) (layerDrawingMode t)
    (selectedTileEmptyImageBack t) (selectedTileEmptyImageFront t)
    (selectedTileFilledImageBack t) (selectedTileFilledImageFront t)
    (selectedTileBackgroundImageBack t) (selectedTileBackgroundImageFront t) v.

(** ** Framework services reached through [fw()] *)

Inductive LogLevel : Type := LogLevelInfo | LogLevelWarning | LogLevelError.

(** A logged message: its level and its format string (the arguments of the
    format are not recorded). *)
Record LogEntry : Type := mkLogEntry { logLevel : LogLevel; logText : string }.

(** What the renderer is asked to do, in call order. *)
Inductive RenderCall : Type :=
| RClear
| RSetPalette (p : option Palette)
| RDrawImage (img : option Image) (pos : Vec2 float)
| RDrawObject (obj : TileObject) (pos : Vec2 float) (v : TileViewMode)
              (currentLevel : Z)
| RDrawLine (a b : Vec2 float) (c : Colour) (thickness : float).

Record Framework : Type := mkFramework {
  displayWidth : Z;
  displayHeight : Z;
  log : list LogEntry;
  listenerPosition : Vec3 float;
  rendered : list RenderCall;
  writtenImages : list string
}.

Definition LogInfo (msg : string) (fw : Framework) : Framework :=
  mkFramework (displayWidth fw) (displayHeight fw)
    (log fw ++ [mkLogEntry LogLevelInfo msg])
    (listenerPosition fw) (rendered fw) (writtenImages fw).

Definition LogWarning (msg : string) (fw : Framework) : Framework :=
  mkFramework (displayWidth fw) (displayHeight fw)
    (log fw ++ [mkLogEntry LogLevelWarning msg])
    (listenerPosition fw) (rendered fw) (writtenImages fw).

Definition LogError (msg : string) (fw : Framework) : Framework :=
  mkFramework (displayWidth fw) (displayHeight fw)
    (log fw ++ [mkLogEntry LogLevelError msg])
    (listenerPosition fw) (rendered fw) (writtenImages fw).

Definition setListenerPosition (p : Vec3 float) (fw : Framework) : Framework :=
  mkFramework (displayWidth fw) (displayHeight fw) (log fw) p
    (rendered fw) (writtenImages fw).

Definition rcall (c : RenderCall) (fw : Framework) : Framework :=
  mkFramework (displayWidth fw) (displayHeight fw) (log fw)
    (listenerPosition fw) (rendered fw ++ [c]) (writtenImages fw).

Definition writeImage (path : string) (fw : Framework) : Framework :=
  mkFramework (displayWidth fw) (displayHeight fw) (log fw)
    (listenerPosition fw) (rendered fw) (writtenImages fw ++ [path]).

(** ** Input events ([framework/event.h]), as far as the view reads them *)

Inductive KeyCode : Type :=
| SDLK_UP | SDLK_DOWN | SDLK_LEFT | SDLK_RIGHT
| SDLK_s | SDLK_w | SDLK_a | SDLK_d | SDLK_r | SDLK_f
| SDLK_1 | SDLK_2 | SDLK_3 | SDLK_F6
| SDLK_other (code : Z).

Inductive Event : Type :=
| EVENT_KEY_DOWN (KeyCode : KeyCode)
| EVENT_KEY_UP (KeyCode : KeyCode)
| EVENT_MOUSE_MOVE (X Y : Z)
| EVENT_FINGER_MOVE (IsPrimary : bool) (DeltaX DeltaY : float)
| EVENT_OTHER (type : Z).

(** ** Members declared in [game/ui/tileview/tileview.h]

    The coordinate transforms and [clamp] are defined outside
    [tileview.cpp]; the functions of this file are stated over any
    implementation of them.  There is one method per overload or template
    instance that [tileview.cpp] calls: the methods named [In] are the
    overloads that take the view mode as an argument, and
    [tileToOffsetScreenCoords] is called at [float] and at [int].  They are
    [const] members, hence functions of the view. *)
Class TileViewHeader : Type := {
  clamp : Z -> Z -> Z -> Z;
  tileToScreenCoords : TileView -> Vec3 float -> Vec2 float;
  tileToScreenCoordsIn : TileView -> Vec3 float -> TileViewMode -> Vec2 float;
  screenToTileCoords : TileView -> Vec2 float -> float -> Vec3 float;
  screenToTileCoordsIn :
    TileView -> Vec2 float -> float -> TileViewMode -> Vec3 float;
  offsetScreenToTileCoords : TileView -> Vec2 Z -> Z -> Vec3 Z;
  tileToOffsetScreenCoords : TileView -> Vec3 float -> Vec2 float;
  tileToOffsetScreenCoordsInt : TileView -> Vec3 Z -> Vec2 Z
}.

(** [for (int i = lo; i < hi; i++) body], for a body that leaves [i] and
    [hi] alone. *)
Fixpoint for_loop {S : Type} (n : nat) (i : Z) (body : Z -> S -> S) (s : S) : S :=
  match n with
  | O => s
  | Datatypes.S n' => for_loop n' (i + 1) body (body i s)
  end.

Definition for_range {S : Type} (lo hi : Z) (body : Z -> S -> S) (s : S) : S :=
  for_loop (Z.to_nat (hi - lo)) lo body s.

(** ** The constructor (lines 10-54) *)

(** [indeterminate] is the value the uninitialised [layerDrawingMode] member
    happens to hold when [mode] is neither [City] nor [Battle]. *)
Definition TileView_new (map : TileMap) (isoTileSize : Vec3 Z)
    (stratTileSize : Vec2 Z) (initialMode : TileViewMode) (mode : Mode)
    (indeterminate : LayerDrawingMode) (fw : Framework)
  : TileView * Framework :=
  let init (selectedTileImageOffset : Vec2 Z) :=
    mkTileView map isoTileSize stratTileSize initialMode mode
      false false false false
      (V2.mk (displayWidth fw) (displayHeight fw))
      (mkColour 212 176 172 255) F32.two 1
      (V3.mk 0 0 0) selectedTileImageOffset (V3.z (size map))
      (V3.mk F32.zero F32.zero F32.zero)
      (V2.mk F32.half F32.half) (V2.mk F32.two F32.two) in
  let '(this, fw) :=
    match mode with
    | City =>
        (init (V2.mk 0 0) AllLevels
           (Some "city/selected-citytile-back.png"%string)
           (Some "city/selected-citytile-front.png"%string)
           (Some "city/selected-citytile-back.png"%string)
           (Some "city/selected-citytile-front.png"%string)
           (Some "city/selected-citytile-back.png"%string)
           (Some "city/selected-citytile-front.png"%string)
           (Some "xcom3/ufodata/pal_01.dat"%string),
         fw)
    | Battle =>
        (init (V2.mk 23 22) UpToCurrentLevel
           (Some "battle/selected-battletile-empty-back.png"%string)
           (Some "battle/selected-battletile-empty-front.png"%string)
           (Some "battle/selected-battletile-filled-back.png"%string)
           (Some "battle/selected-battletile-filled-front.png"%string)
           (Some "battle/selected-battletile-background-back.png"%string)
           (Some "battle/selected-battletile-background-front.png"%string)
           (Some "xcom3/tacdata/tactical.pal"%string),
         fw)
    | UnknownMode _ =>
        (init (V2.mk 0 0) indeterminate None None None None None None None,
         LogError "Unknown TileView::Mode %d" fw)
    end in
  (this, LogInfo "dpySize: {%d,%d}" fw).

Section TileViewCpp.

Context {hdr : TileViewHeader}.

(** *** [getScreenOffset] (lines 497-502) *)
Definition getScreenOffset (this : TileView) : Vec2 Z :=
  let screenOffset := tileToScreenCoords this (centerPos this) in
  V2.mk
    (F32.to_int (F32.sub (F32.of_int (Z.quot (V2.x (dpySize this)) 2))
                         (V2.x screenOffset)))
    (F32.to_int (F32.sub (F32.of_int (Z.quot (V2.y (dpySize this)) 2))
                         (V2.y screenOffset))).

(** *** [setScreenCenterTile(Vec3<float>)] (lines 504-528) *)
Definition setScreenCenterTile (center : Vec3 float) (this : TileView)
    (fw : Framework) : TileView * Framework :=
  let fw :=
    setListenerPosition
      (V3.mk (V3.x center) (V3.y center)
             (F32.of_int (Z.quot (V3.z (size (map this))) 2))) fw in
  let clampedCenter_x :=
    if F32.ltb (V3.x center) F32.zero then F32.zero
    else if F32.gtb (V3.x center) (F32.of_int (V3.x (size (map this))))
    then F32.of_int (V3.x (size (map this)))
    else V3.x center in
  let clampedCenter_y :=
    if F32.ltb (V3.y center) F32.zero then F32.zero
    else if F32.gtb (V3.y center) (F32.of_int (V3.y (size (map this))))
    then F32.of_int (V3.y (size (map this)))
    else V3.y center in
  let clampedCenter_z :=
    if F32.ltb (V3.z center) F32.zero then F32.zero
    else if F32.gtb (V3.z center) (F32.of_int (V3.z (size (map this))))
    then F32.of_int (V3.z (size (map this)))
    else V3.z center in
  (set_centerPos (V3.mk clampedCenter_x clampedCenter_y clampedCenter_z) this,
   fw).

(** *** [setScreenCenterTile(Vec2<float>)] (lines 530-533) *)
Definition setScreenCenterTile2 (center : Vec2 float) (this : TileView)
    (fw : Framework) : TileView * Framework :=
  setScreenCenterTile
    (V3.mk (V2.x center) (V2.y center) (F32.of_int (currentZLevel this)))
    this fw.

(** *** [getSelectedTilePosition], [setSelectedTilePosition] (lines 535-552) *)
Definition getSelectedTilePosition (this : TileView) : Vec3 Z :=
  selectedTilePosition this.

Definition setSelectedTilePosition (newPosition : Vec3 Z) (this : TileView)
  : TileView :=
  let p := newPosition in
  let p := if V3.x p <? 0 then V3.mk 0 (V3.y p) (V3.z p) else p in
  let p := if V3.y p <? 0 then V3.mk (V3.x p) 0 (V3.z p) else p in
  let p := if V3.z p <? 0 then V3.mk (V3.x p) (V3.y p) 0 else p in
  let p := if V3.x p >=? V3.x (size (map this))
           then V3.mk (V3.x (size (map this)) - 1) (V3.y p) (V3.z p) else p in
  let p := if V3.y p >=? V3.y (size (map this))
           then V3.mk (V3.x p) (V3.y (size (map this)) - 1) (V3.z p) else p in
  let p := if V3.z p >=? V3.z (size (map this))
           then V3.mk (V3.x p) (V3.y p) (V3.z (size (map this)) - 1) else p in
  set_selectedTilePosition p this.

(** *** [setZLevel], [getZLevel] (lines 477-483) *)
Definition setZLevel (zLevel : Z) (this : TileView) (fw : Framework)
  : TileView * Framework :=
  let this := set_currentZLevel (clamp zLevel 1 (maxZDraw this)) this in
  setScreenCenterTile
    (V3.mk (V3.x (centerPos this)) (V3.y (centerPos this))
           (F32.of_int (currentZLevel this - 1)))
    this fw.

Definition getZLevel (this : TileView) : Z := currentZLevel this.

(** *** [setLayerDrawingMode] (lines 485-489) *)
Definition setLayerDrawingMode (m : LayerDrawingMode) (this : TileView)
  : TileView :=
  match mode this with
  | Battle => set_layerDrawingMode m this
  | _ => this
  end.

(** *** [setViewMode], [getViewMode] (lines 493-495) *)
Definition setViewMode (newMode : TileViewMode) (this : TileView) : TileView :=
  set_viewMode newMode this.

Definition getViewMode (this : TileView) : TileViewMode := viewMode this.

(** *** [eventOccurred] (lines 66-177) *)
Definition eventOccurred (e : Event) (this : TileView) (fw : Framework)
  : TileView * Framework :=
  match e with
  | EVENT_KEY_DOWN k =>
      let sel := selectedTilePosition this in
      match k with
      | SDLK_UP => (set_scrollUp true this, fw)
      | SDLK_DOWN => (set_scrollDown true this, fw)
      | SDLK_LEFT => (set_scrollLeft true this, fw)
      | SDLK_RIGHT => (set_scrollRight true this, fw)
      | SDLK_s =>
          if V3.y sel <? V3.y (size (map this)) - 1
          then (set_selectedTilePosition
                  (V3.mk (V3.x sel) (V3.y sel + 1) (V3.z sel)) this, fw)
          else (this, fw)
      | SDLK_w =>
          if V3.y sel >? 0
          then (set_selectedTilePosition
                  (V3.mk (V3.x sel) (V3.y sel - 1) (V3.z sel)) this, fw)
          else (this, fw)
      | SDLK_a =>
          if V3.x sel >? 0
          then (set_selectedTilePosition
                  (V3.mk (V3.x sel - 1) (V3.y sel) (V3.z sel)) this, fw)
          else (this, fw)
      | SDLK_d =>
          if V3.x sel <? V3.x (size (map this)) - 1
          then (set_selectedTilePosition
                  (V3.mk (V3.x sel + 1) (V3.y sel) (V3.z sel)) this, fw)
          else (this, fw)
      | SDLK_r =>
          if V3.z sel <? V3.z (size (map this)) - 1
          then (set_selectedTilePosition
                  (V3.mk (V3.x sel) (V3.y sel) (V3.z sel + 1)) this, fw)
          else (this, fw)
      | SDLK_f =>
          if V3.z sel >? 0
          then (set_selectedTilePosition
                  (V3.mk (V3.x sel) (V3.y sel) (V3.z sel - 1)) this, fw)
          else (this, fw)
      | SDLK_1 => (set_pal (Some "xcom3/ufodata/pal_01.dat"%string) this, fw)
      | SDLK_2 => (set_pal (Some "xcom3/ufodata/pal_02.dat"%string) this, fw)
      | SDLK_3 => (set_pal (Some "xcom3/ufodata/pal_03.dat"%string) this, fw)
      | SDLK_F6 =>
          let fw := LogWarning "Writing voxel view to tileviewvoxels.png" fw in
          (this, writeImage "tileviewvoxels.png" fw)
      | SDLK_other _ => (this, fw)
      end
  | EVENT_KEY_UP k =>
      match k with
      | SDLK_UP => (set_scrollUp false this, fw)
      | SDLK_DOWN => (set_scrollDown false this, fw)
      | SDLK_LEFT => (set_scrollLeft false this, fw)
      | SDLK_RIGHT => (set_scrollRight false this, fw)
      | _ => (this, fw)
      end
  | EVENT_MOUSE_MOVE X Y =>
      let screenOffset :=
        V2.mk (F32.of_int (V2.x (getScreenOffset this)))
              (F32.of_int (V2.y (getScreenOffset this))) in
      (setSelectedTilePosition
         (vec3_to_int
            (screenToTileCoords this
               (vec2_sub_f
                  (V2.mk (F32.of_int X)
                         (F32.sub (F32.add (F32.of_int Y) (F32.of_int 4))
                                  (F32.of_int 20)))
                  screenOffset)
               (F32.of_int (currentZLevel this - 1))))
         this,
       fw)
  | EVENT_FINGER_MOVE IsPrimary DeltaX DeltaY =>
      if IsPrimary then
        let deltaPos := V3.mk DeltaX DeltaY F32.zero in
        let deltaPos :=
          match viewMode this with
          | Isometric =>
              let dx := F32.div (V3.x deltaPos)
                                (F32.of_int (V3.x (isoTileSize this))) in
              let dy := F32.div (V3.y deltaPos)
                                (F32.of_int (V3.y (isoTileSize this))) in
              V3.mk (F32.add dx dy) (F32.sub dy dx) F32.zero
          | _ =>
              V3.mk (F32.div (V3.x deltaPos)
                             (F32.of_int (V2.x (stratTileSize this))))
                    (F32.div (V3.y deltaPos)
                             (F32.of_int (V2.y (stratTileSize this))))
                    (V3.z deltaPos)
          end in
        let newPos := vec3_sub_f (centerPos this) deltaPos in
        setScreenCenterTile newPos this fw
      else (this, fw)
  | EVENT_OTHER _ => (this, fw)
  end.

(** *** [render] (lines 179-475) *)

(** Lines 186-224: the position the camera is asked to move to this tick. *)
Definition renderScroll (this : TileView) (fw : Framework)
  : Vec3 float * Framework :=
  let newPos := centerPos this in
  match viewMode this with
  | Isometric =>
      let newPos :=
        if scrollLeft this
        then V3.mk (F32.sub (V3.x newPos) (V2.x (isoScrollSpeed this)))
                   (F32.add (V3.y newPos) (V2.y (isoScrollSpeed this)))
                   (V3.z newPos)
        else newPos in
      let newPos :=
        if scrollRight this
        then V3.mk (F32.add (V3.x newPos) (V2.x (isoScrollSpeed this)))
                   (F32.sub (V3.y newPos) (V2.y (isoScrollSpeed this)))
                   (V3.z newPos)
        else newPos in
      let newPos :=
        if scrollUp this
        then V3.mk (F32.sub (V3.x newPos) (V2.x (isoScrollSpeed this)))
                   (F32.sub (V3.y newPos) (V2.y (isoScrollSpeed this)))
                   (V3.z newPos)
        else newPos in
      let newPos :=
        if scrollDown this
        then V3.mk (F32.add (V3.x newPos) (V2.x (isoScrollSpeed this)))
                   (F32.add (V3.y newPos) (V2.y (isoScrollSpeed this)))
                   (V3.z newPos)
        else newPos in
      (newPos, fw)
  | Strategy =>
      let newPos :=
        if scrollLeft this
        then V3.mk (F32.sub (V3.x newPos) (V2.x (stratScrollSpeed this)))
                   (V3.y newPos) (V3.z newPos)
        else newPos in
      let newPos :=
        if scrollRight this
        then V3.mk (F32.add (V3.x newPos) (V2.x (stratScrollSpeed this)))
                   (V3.y newPos) (V3.z newPos)
        else newPos in
      let newPos :=
        if scrollUp this
        then V3.mk (V3.x newPos)
                   (F32.sub (V3.y newPos) (V2.y (stratScrollSpeed this)))
                   (V3.z newPos)
        else newPos in
      let newPos :=
        if scrollDown this
        then V3.mk (V3.x newPos)
                   (F32.add (V3.y newPos) (V2.y (stratScrollSpeed this)))
                   (V3.z newPos)
        else newPos in
      (newPos, fw)
  | UnknownViewMode _ => (newPos, LogError "Unknown view mode" fw)
  end.

(** Lines 230-239: the visible tile rectangle [(minX, maxX, minY, maxY)]. *)
Definition renderBounds (this : TileView) : Z * Z * Z * Z :=
  let topLeft :=
    offsetScreenToTileCoords this
      (V2.mk (- V3.x (isoTileSize this)) (- V3.y (isoTileSize this))) 0 in
  let topRight :=
    offsetScreenToTileCoords this
      (V2.mk (V2.x (dpySize this)) (- V3.y (isoTileSize this))) 0 in
  let bottomLeft :=
    offsetScreenToTileCoords this
      (V2.mk (- V3.x (isoTileSize this)) (V2.y (dpySize this)))
      (V3.z (size (map this))) in
  let bottomRight :=
    offsetScreenToTileCoords this
      (V2.mk (V2.x (dpySize this)) (V2.y (dpySize this)))
      (V3.z (size (map this))) in
  let minX := Z.max 0 (V3.x topLeft) in
  let maxX := Z.min (V3.x (size (map this))) (V3.x bottomRight) in
  let minY := Z.max 0 (V3.y topRight) in
  let maxY := Z.min (V3.y (size (map this))) (V3.y bottomLeft) in
  (minX, maxX, minY, maxY).

(** Lines 241-258: the z range [(zFrom, zTo)]; the [switch] has no
    [default], so any other value keeps the initial range. *)
Definition renderZRange (this : TileView) : Z * Z :=
  let zFrom := 0 in
  let zTo := maxZDraw this in
  match layerDrawingMode this with
  | UpToCurrentLevel => (0, currentZLevel this)
  | AllLevels => (0, maxZDraw this)
  | OnlyCurrentLevel => (currentZLevel this - 1, currentZLevel this)
  | UnknownLayerDrawingMode _ => (zFrom, zTo)
  end.

(** The locals of one iteration of the z loop that describe the selection
    bracket (lines 330-334). *)
Record SelectionBracket : Type := mkSelectionBracket {
  selTileOnCurLevel : option (Vec3 Z);
  selTilePosOnCurLevel : Vec3 Z;
  drawBackBeforeThis : option TileObject;
  selectionImageBack : option Image;
  selectionImageFront : option Image
}.

(** Lines 330-378. *)
Definition renderSelection (this : TileView) (minX maxX minY maxY z : Z)
  : SelectionBracket :=
  let none := mkSelectionBracket None (V3.mk 0 0 0) None None None in
  match mode this, viewMode this with
  | Battle, Isometric =>
      let sel := selectedTilePosition this in
      if (V3.z sel >=? z)
         && (V3.x sel >=? minX) && (V3.x sel <? maxX)
         && (V3.y sel >=? minY) && (V3.y sel <? maxY)
      then
        let pos := V3.mk (V3.x sel) (V3.y sel) z in
        let tile := getTile (map this) (V3.x pos) (V3.y pos) (V3.z pos) in
        let before :=
          fold_left
            (fun (acc : option TileObject) (obj : TileObject) =>
               match acc with
               | None =>
                   if negb (TileObjectType_eqb (getType obj) Ground)
                   then Some obj else None
               | Some _ => acc
               end)
            (nth 0 (drawnObjects tile) []) None in
        if V3.z sel =? z then
          let foundUnit :=
            fold_left
              (fun (found : bool) (obj : TileObject) =>
                 if TileObjectType_eqb (getType obj) Unit then true else found)
              (intersectingObjects tile) false in
          if foundUnit
          then mkSelectionBracket (Some pos) pos before
                 (selectedTileFilledImageBack this)
                 (selectedTileFilledImageFront this)
          else mkSelectionBracket (Some pos) pos before
                 (selectedTileEmptyImageBack this)
                 (selectedTileEmptyImageFront this)
        else mkSelectionBracket (Some pos) pos before
               (selectedTileBackgroundImageBack this)
               (selectedTileBackgroundImageFront this)
      else none
  | _, _ => none
  end.

(** [tile == selTileOnCurLevel] for the tile at [(x, y, z)]. *)
Definition isSelTile (b : SelectionBracket) (x y z : Z) : bool :=
  match selTileOnCurLevel b with
  | Some p => (V3.x p =? x) && (V3.y p =? y) && (V3.z p =? z)
  | None => false
  end.

(** [obj == drawBackBeforeThis]. *)
Definition isDrawBackBeforeThis (b : SelectionBracket) (obj : TileObject)
  : bool :=
  match drawBackBeforeThis b with
  | Some o => objId obj =? objId o
  | None => false
  end.

Definition drawSelectionImage (this : TileView) (b : SelectionBracket)
    (img : option Image) (fw : Framework) : Framework :=
  rcall (RDrawImage img
           (vec2_to_float
              (vec2_sub_i
                 (tileToOffsetScreenCoordsInt this (selTilePosOnCurLevel b))
                 (selectedTileImageOffset this)))) fw.

Definition drawObject (this : TileView) (currentLevel : Z)
    (fw : Framework) (obj : TileObject) : Framework :=
  rcall (RDrawObject obj (tileToOffsetScreenCoords this (getPosition obj))
           (viewMode this) currentLevel) fw.

(** Lines 386-423: one tile of one layer. *)
Definition renderTile (this : TileView) (b : SelectionBracket)
    (currentLevel z layer y x : Z) (fw : Framework) : Framework :=
  let tile := getTile (map this) x y z in
  let objects := nth (Z.to_nat layer) (drawnObjects tile) [] in
  if isSelTile b x y z && (layer =? 0) then
    let fw :=
      fold_left
        (fun (fw : Framework) (obj : TileObject) =>
           let fw :=
             if isDrawBackBeforeThis b obj
             then drawSelectionImage this b (selectionImageBack b) fw
             else fw in
           drawObject this currentLevel fw obj)
        objects fw in
    let fw :=
      match drawBackBeforeThis b with
      | None => drawSelectionImage this b (selectionImageBack b) fw
      | Some _ => fw
      end in
    drawSelectionImage this b (selectionImageFront b) fw
  else
    fold_left (drawObject this currentLevel) objects fw.

(** Lines 325-427: one z level. *)
Definition renderLevel (this : TileView) (minX maxX minY maxY z : Z)
    (fw : Framework) : Framework :=
  let currentLevel := z - currentZLevel this in
  let b := renderSelection this minX maxX minY maxY z in
  for_range 0 (getLayerCount (map this))
    (fun layer =>
       for_range minY maxY
         (fun y =>
            for_range minX maxX
              (fun x => renderTile this b currentLevel z layer y x)))
    fw.

(** Lines 429-474: the outline of the isometric viewport. *)
Definition renderStrategyBox (this : TileView) (fw : Framework) : Framework :=
  match viewMode this with
  | Strategy =>
      let centerIsoScreenPos :=
        tileToScreenCoordsIn this
          (V3.mk (V3.x (centerPos this)) (V3.y (centerPos this)) F32.zero)
          Isometric in
      let halfW := F32.of_int (Z.quot (V2.x (dpySize this)) 2) in
      let halfH := F32.of_int (Z.quot (V2.y (dpySize this)) 2) in
      let topLeftIsoScreenPos :=
        V2.mk (F32.sub (V2.x centerIsoScreenPos) halfW)
              (F32.sub (V2.y centerIsoScreenPos) halfH) in
      let topRightIsoScreenPos :=
        V2.mk (F32.add (V2.x centerIsoScreenPos) halfW)
              (F32.sub (V2.y centerIsoScreenPos) halfH) in
      let bottomLeftIsoScreenPos :=
        V2.mk (F32.sub (V2.x centerIsoScreenPos) halfW)
              (F32.add (V2.y centerIsoScreenPos) halfH) in
      let bottomRightIsoScreenPos :=
        V2.mk (F32.add (V2.x centerIsoScreenPos) halfW)
              (F32.add (V2.y centerIsoScreenPos) halfH) in
      let toRect (p : Vec2 float) :=
        tileToOffsetScreenCoords this
          (screenToTileCoordsIn this p F32.zero Isometric) in
      let topLeftRectPos := toRect topLeftIsoScreenPos in
      let topRightRectPos := toRect topRightIsoScreenPos in
      let bottomLeftRectPos := toRect bottomLeftIsoScreenPos in
      let bottomRightRectPos := toRect bottomRightIsoScreenPos in
      let line (a c : Vec2 float) :=
        rcall (RDrawLine a c (strategyViewBoxColour this)
                 (strategyViewBoxThickness this)) in
      let fw := line topLeftRectPos topRightRectPos fw in
      let fw := line topRightRectPos bottomRightRectPos fw in
      let fw := line bottomRightRectPos bottomLeftRectPos fw in
      line bottomLeftRectPos topLeftRectPos fw
  | _ => fw
  end.

Definition render (this : TileView) (fw : Framework) : TileView * Framework :=
  let fw := rcall RClear fw in
  let fw := rcall (RSetPalette (pal this)) fw in
  let '(newPos, fw) := renderScroll this fw in
  let '(this, fw) := setScreenCenterTile newPos this fw in
  let '(minX, maxX, minY, maxY) := renderBounds this in
  let '(zFrom, zTo) := renderZRange this in
  let fw := for_range zFrom zTo (renderLevel this minX maxX minY maxY) fw in
  (this, renderStrategyBox this fw).

End TileViewCpp.

(** ** A reading of [tileview.h], for concrete runs

    The theorems below hold for every [TileViewHeader].  To run the view on
    concrete inputs the header's members are given the behaviour the
    specification describes. *)

Module SpecHeader.

(** Modelled from the spec: the body of [clamp] is not in [tileview.cpp];
    "z-level (clamped to [1, maxZ])". *)
Definition clamp (v lo hi : Z) : Z := Z.min hi (Z.max lo v).

(** Modelled from the spec: the body of [tileToScreenCoords] is in
    [tileview.h]; section 4.1, "screen.x = (tile.x - tile.y) *
    isoTileSize.x; screen.y = (tile.x + tile.y) * isoTileSize.y - tile.z *
    isoTileSize.z", "Strategy-mode transform is a simple axis-aligned
    scale", and for a mode outside the enumeration a "no-op default". *)
Definition tileToScreenCoordsIn (this : TileView) (c : Vec3 float)
    (v : TileViewMode) : Vec2 float :=
  match v with
  | Isometric =>
      V2.mk
        (F32.mul (F32.sub (V3.x c) (V3.y c))
                 (F32.of_int (V3.x (isoTileSize this))))
        (F32.sub
           (F32.mul (F32.add (V3.x c) (V3.y c))
                    (F32.of_int (V3.y (isoTileSize this))))
           (F32.mul (V3.z c) (F32.of_int (V3.z (isoTileSize this)))))
  | Strategy =>
      V2.mk (F32.mul (V3.x c) (F32.of_int (V2.x (stratTileSize this))))
            (F32.mul (V3.y c) (F32.of_int (V2.y (stratTileSize this))))
  | UnknownViewMode _ => V2.mk F32.zero F32.zero
  end.

(** Modelled from the spec: the body of [screenToTileCoords] is in
    [tileview.h]; section 4.1, "Inverse transform solves the 2x2 linear
    system for (tile.x, tile.y) given a target z-plane". *)
Definition screenToTileCoordsIn (this : TileView) (p : Vec2 float)
    (z : float) (v : TileViewMode) : Vec3 float :=
  match v with
  | Isometric =>
      let diff := F32.div (V2.x p) (F32.of_int (V3.x (isoTileSize this))) in
      let sum :=
        F32.div
          (F32.add (V2.y p)
                   (F32.mul z (F32.of_int (V3.z (isoTileSize this)))))
          (F32.of_int (V3.y (isoTileSize this))) in
      V3.mk (F32.div (F32.add sum diff) F32.two)
            (F32.div (F32.sub sum diff) F32.two) z
  | Strategy =>
      V3.mk (F32.div (V2.x p) (F32.of_int (V2.x (stratTileSize this))))
            (F32.div (V2.y p) (F32.of_int (V2.y (stratTileSize this)))) z
  | UnknownViewMode _ => V3.mk F32.zero F32.zero z
  end.

(** Modelled from the spec: section 4.2, "screenOffset = dpySize/2 -
    tileToScreen(center)". *)
Definition screenOffset (this : TileView) : Vec2 float :=
  let c := tileToScreenCoordsIn this (centerPos this) (viewMode this) in
  V2.mk (F32.sub (F32.of_int (Z.quot (V2.x (dpySize this)) 2)) (V2.x c))
        (F32.sub (F32.of_int (Z.quot (V2.y (dpySize this)) 2)) (V2.y c)).

(** Modelled from the spec: the body of [tileToOffsetScreenCoords] is in
    [tileview.h]; section 4.2, the screen offset is "used to translate
    world tiles into device pixel positions". *)
Definition tileToOffsetScreenCoords (this : TileView) (c : Vec3 float)
  : Vec2 float :=
  let p := tileToScreenCoordsIn this c (viewMode this) in
  V2.mk (F32.add (V2.x p) (V2.x (screenOffset this)))
        (F32.add (V2.y p) (V2.y (screenOffset this))).

(** Modelled from the spec: the body of [offsetScreenToTileCoords] is in
    [tileview.h]; section 4.4, the visible rectangle is found "by
    inverse-transforming the four screen corners". *)
Definition offsetScreenToTileCoords (this : TileView) (p : Vec2 Z) (z : Z)
  : Vec3 Z :=
  vec3_to_int
    (screenToTileCoordsIn this
       (vec2_sub_f (vec2_to_float p) (screenOffset this))
       (F32.of_int z) (viewMode this)).

(** The overloads without a mode argument use the view's current mode;
    the [int] instance of [tileToOffsetScreenCoords] converts to and from
    [float]. *)
Definition header : TileViewHeader :=
  Build_TileViewHeader
    clamp
    (fun this c => tileToScreenCoordsIn this c (viewMode this))
    tileToScreenCoordsIn
    (fun this p z => screenToTileCoordsIn this p z (viewMode this))
    screenToTileCoordsIn
    offsetScreenToTileCoords
    tileToOffsetScreenCoords
    (fun this c =>
       let p :=
         tileToOffsetScreenCoords this
           (V3.mk (F32.of_int (V3.x c)) (F32.of_int (V3.y c))
                  (F32.of_int (V3.z c))) in
       V2.mk (F32.to_int (V2.x p)) (F32.to_int (V2.y p))).

End SpecHeader.

(** ** A small battle and a small city, for concrete runs *)

Module Sample.

Definition soldier : TileObject :=
  mkTileObject 1 Unit (V3.mk (F32.of_int 1) (F32.of_int 1) (F32.of_int 2)).
Definition floor (i : Z) : TileObject :=
  mkTileObject (100 + i) Ground (V3.mk F32.zero F32.zero F32.zero).
Definition wall (i : Z) : TileObject :=
  mkTileObject (200 + i) (OtherObject 2)
    (V3.mk F32.zero F32.zero F32.zero).

(** Every cell has a floor and a wall on layer 0; the cell (1,1,2) also
    holds the soldier, on layer 1. *)
Definition tiles (x y z : Z) : Tile :=
  let i := x + 10 * y + 100 * z in
  if (x =? 1) && (y =? 1) && (z =? 2)
  then mkTile [[floor i; wall i]; [soldier]] [soldier]
  else mkTile [[floor i; wall i]; []] [].

Definition map : TileMap := mkTileMap (V3.mk 10 10 5) tiles 2.

Definition fw : Framework :=
  mkFramework 640 480 [] (V3.mk F32.zero F32.zero F32.zero) [] [].

Definition battle : TileView :=
  fst (TileView_new map (V3.mk 32 16 8) (V2.mk 4 4) Isometric Battle
         AllLevels fw).

Definition city : TileView :=
  fst (TileView_new map (V3.mk 32 16 8) (V2.mk 4 4) Isometric City
         AllLevels fw).

Definition nan_center : Vec3 float := V3.mk S754_nan F32.zero F32.zero.

(** A 2 x 2 corner of the same battle. *)
Definition corner : TileView :=
  fst (TileView_new (mkTileMap (V3.mk 2 2 5) tiles 2) (V3.mk 32 16 8)
         (V2.mk 4 4) Isometric Battle AllLevels fw).

(** A 100 x 100 battle on the same display, the camera over its middle:
    the display shows a part of it only. *)
Definition wide : TileView :=
  fst (setScreenCenterTile
         (V3.mk (F32.of_int 50) (F32.of_int 50) (F32.of_int 1))
         (fst (TileView_new (mkTileMap (V3.mk 100 100 5) tiles 2)
                 (V3.mk 32 16 8) (V2.mk 4 4) Isometric Battle AllLevels fw))
         fw).

(** The battle with tiles of no extent. *)
Definition flat : TileView :=
  fst (TileView_new map (V3.mk 0 0 0) (V2.mk 0 0) Isometric Battle
         AllLevels fw).

End Sample.

(** ** Stated properties: predicates *)

(** [0 <= c <= m], as C++ evaluates it on a [float] and an [int]. *)
Definition axis_in_bounds (c : float) (m : Z) : Prop :=
  F32.leb F32.zero c = true /\ F32.leb c (F32.of_int m) = true.

Definition center_in_bounds (this : TileView) : Prop :=
  axis_in_bounds (V3.x (centerPos this)) (V3.x (size (map this)))
  /\ axis_in_bounds (V3.y (centerPos this)) (V3.y (size (map this)))
  /\ axis_in_bounds (V3.z (centerPos this)) (V3.z (size (map this))).

Definition no_nan (p : Vec3 float) : Prop :=
  F32.is_nan (V3.x p) = false
  /\ F32.is_nan (V3.y p) = false
  /\ F32.is_nan (V3.z p) = false.

Definition scroll_speeds_finite (this : TileView) : Prop :=
  F32.is_finite (V2.x (isoScrollSpeed this)) = true
  /\ F32.is_finite (V2.y (isoScrollSpeed this)) = true
  /\ F32.is_finite (V2.x (stratScrollSpeed this)) = true
  /\ F32.is_finite (V2.y (stratScrollSpeed this)) = true.

(** The map has room for a camera: no negative size. *)
Definition map_sizes_nonneg (m : TileMap) : Prop :=
  0 <= V3.x (size m) /\ 0 <= V3.y (size m) /\ 0 <= V3.z (size m).

(** The map has at least one tile. *)
Definition map_nonempty (m : TileMap) : Prop :=
  1 <= V3.x (size m) /\ 1 <= V3.y (size m) /\ 1 <= V3.z (size m).

Definition selected_in_bounds (this : TileView) : Prop :=
  0 <= V3.x (selectedTilePosition this) <= V3.x (size (map this)) - 1
  /\ 0 <= V3.y (selectedTilePosition this) <= V3.y (size (map this)) - 1
  /\ 0 <= V3.z (selectedTilePosition this) <= V3.z (size (map this)) - 1.

(** [maxZDraw] is the depth of the map, as the constructor sets it. *)
Definition maxZDraw_is_depth (this : TileView) : Prop :=
  maxZDraw this = V3.z (size (map this)).

(** One axis of [setScreenCenterTile]. *)
Definition clampedAxis (c : float) (m : Z) : float :=
  if F32.ltb c F32.zero then F32.zero
  else if F32.gtb c (F32.of_int m) then F32.of_int m
  else c.

(** [min (m - 1) (max 0 v)], per axis. *)
Definition clampToMap (m : TileMap) (p : Vec3 Z) : Vec3 Z :=
  V3.mk (Z.min (V3.x (size m) - 1) (Z.max 0 (V3.x p)))
        (Z.min (V3.y (size m) - 1) (Z.max 0 (V3.y p)))
        (Z.min (V3.z (size m) - 1) (Z.max 0 (V3.z p))).

(** ** Stated properties: the renderer's call sequence *)

(** The integers [lo], [lo + 1], ..., [hi - 1]. *)
Definition zrange (lo hi : Z) : list Z :=
  List.map (fun k => lo + Z.of_nat k) (seq 0 (Z.to_nat (hi - lo))).

(** A tile coordinate taken to the screen and back, at its own z. *)
Definition roundTrip {hdr : TileViewHeader} (this : TileView)
    (t : Vec3 float) (v : TileViewMode) : Vec3 float :=
  screenToTileCoordsIn this (tileToScreenCoordsIn this t v) (V3.z t) v.

(** The tiles of a map of the given size, as [float] coordinates. *)
Definition tileCoords (size : Vec3 Z) : list (Vec3 float) :=
  flat_map
    (fun z =>
       flat_map
         (fun y =>
            List.map
              (fun x => V3.mk (F32.of_int x) (F32.of_int y) (F32.of_int z))
              (zrange 0 (V3.x size)))
         (zrange 0 (V3.y size)))
    (zrange 0 (V3.z size)).

Definition add_calls (cs : list RenderCall) (fw : Framework) : Framework :=
  mkFramework (displayWidth fw) (displayHeight fw) (log fw)
    (listenerPosition fw) (rendered fw ++ cs) (writtenImages fw).

Definition isObjectDraw (c : RenderCall) : bool :=
  match c with RDrawObject _ _ _ _ => true | _ => false end.

(** The [obj->draw] calls among the renderer's calls, in order. *)
Definition objectDraws (cs : list RenderCall) : list RenderCall :=
  filter isObjectDraw cs.

Definition isUnit (obj : TileObject) : bool :=
  TileObjectType_eqb (getType obj) Unit.

Section RenderCalls.

Context {hdr : TileViewHeader}.

Definition objectCall (this : TileView) (currentLevel : Z)
    (obj : TileObject) : RenderCall :=
  RDrawObject obj (tileToOffsetScreenCoords this (getPosition obj))
    (viewMode this) currentLevel.

Definition selectionCall (this : TileView) (b : SelectionBracket)
    (img : option Image) : RenderCall :=
  RDrawImage img
    (vec2_to_float
       (vec2_sub_i
          (tileToOffsetScreenCoordsInt this (selTilePosOnCurLevel b))
          (selectedTileImageOffset this))).

(** What [renderTile] asks of the renderer. *)
Definition tileCalls (this : TileView) (b : SelectionBracket)
    (currentLevel z layer y x : Z) : list RenderCall :=
  let objects :=
    nth (Z.to_nat layer) (drawnObjects (getTile (map this) x y z)) [] in
  if isSelTile b x y z && (layer =? 0) then
    flat_map
      (fun obj =>
         (if isDrawBackBeforeThis b obj
          then [selectionCall this b (selectionImageBack b)] else [])
         ++ [objectCall this currentLevel obj])
      objects
    ++ match drawBackBeforeThis b with
       | None => [selectionCall this b (selectionImageBack b)]
       | Some _ => []
       end
    ++ [selectionCall this b (selectionImageFront b)]
  else List.map (objectCall this currentLevel) objects.

(** What [renderLevel] asks of the renderer. *)
Definition levelCalls (this : TileView) (minX maxX minY maxY z : Z)
  : list RenderCall :=
  let b := renderSelection this minX maxX minY maxY z in
  flat_map
    (fun layer =>
       flat_map
         (fun y =>
            flat_map
              (fun x => tileCalls this b (z - currentZLevel this) z layer y x)
              (zrange minX maxX))
         (zrange minY maxY))
    (zrange 0 (getLayerCount (map this))).

End RenderCalls.

(** ** Sequences of calls on a view *)

(** The public entry points of [TileView], as a caller can invoke them. *)
Inductive Action : Type :=
| AEvent (e : Event)
| ARender
| ASetZLevel (zLevel : Z)
| ASetLayerDrawingMode (m : LayerDrawingMode)
| ASetViewMode (m : TileViewMode)
| ASetScreenCenterTile (center : Vec3 float)
| ASetScreenCenterTile2 (center : Vec2 float)
| ASetSelectedTilePosition (p : Vec3 Z).

(** The action feeds no NaN to the camera.  A primary finger drag divides
    the pointer deltas it is given and is left out. *)
Definition numeric (a : Action) : Prop :=
  match a with
  | AEvent (EVENT_FINGER_MOVE true _ _) => False
  | ASetScreenCenterTile center => no_nan center
  | ASetScreenCenterTile2 center =>
      F32.is_nan (V2.x center) = false /\ F32.is_nan (V2.y center) = false
  | _ => True
  end.

(** What every call sequence keeps true of a view made over the map [m]. *)
Definition view_invariant (m : TileMap) (this : TileView) : Prop :=
  map this = m
  /\ center_in_bounds this
  /\ selected_in_bounds this
  /\ scroll_speeds_finite this
  /\ maxZDraw_is_depth this.

(** The z level is one of the map's levels, counted from 1. *)
Definition z_level_in_range (this : TileView) : Prop :=
  1 <= currentZLevel this <= maxZDraw this.

Definition isImageDraw (c : RenderCall) : bool :=
  match c with RDrawImage _ _ => true | _ => false end.

Definition isLineDraw (c : RenderCall) : bool :=
  match c with RDrawLine _ _ _ _ => true | _ => false end.

Definition isFrameSetup (c : RenderCall) : bool :=
  match c with RClear | RSetPalette _ => true | _ => false end.

Definition isGround (obj : TileObject) : bool :=
  TileObjectType_eqb (getType obj) Ground.

(** The ground objects a tile lists first, and the objects from the first
    one that is not ground. *)
Fixpoint groundPrefix (l : list TileObject) : list TileObject :=
  match l with
  | [] => []
  | obj :: l' => if isGround obj then obj :: groundPrefix l' else []
  end.

Fixpoint afterGround (l : list TileObject) : list TileObject :=
  match l with
  | [] => []
  | obj :: l' => if isGround obj then afterGround l' else l
  end.

(** The step a selection key asks for, and the key that undoes it. *)
Definition selectionStep (k : KeyCode) : option (Vec3 Z) :=
  match k with
  | SDLK_s => Some (V3.mk 0 1 0)
  | SDLK_w => Some (V3.mk 0 (-1) 0)
  | SDLK_d => Some (V3.mk 1 0 0)
  | SDLK_a => Some (V3.mk (-1) 0 0)
  | SDLK_r => Some (V3.mk 0 0 1)
  | SDLK_f => Some (V3.mk 0 0 (-1))
  | _ => None
  end.

Definition oppositeKey (k : KeyCode) : KeyCode :=
  match k with
  | SDLK_s => SDLK_w
  | SDLK_w => SDLK_s
  | SDLK_d => SDLK_a
  | SDLK_a => SDLK_d
  | SDLK_r => SDLK_f
  | SDLK_f => SDLK_r
  | SDLK_UP => SDLK_DOWN
  | SDLK_DOWN => SDLK_UP
  | SDLK_LEFT => SDLK_RIGHT
  | SDLK_RIGHT => SDLK_LEFT
  | other => other
  end.

Definition isScrollKey (k : KeyCode) : bool :=
  match k with
  | SDLK_UP | SDLK_DOWN | SDLK_LEFT | SDLK_RIGHT => true
  | _ => false
  end.

Definition vec3_add_i (a b : Vec3 Z) : Vec3 Z :=
  V3.mk (V3.x a + V3.x b) (V3.y a + V3.y b) (V3.z a + V3.z b).

(** A tile position inside the map. *)
Definition tile_in_map (m : TileMap) (p : Vec3 Z) : Prop :=
  0 <= V3.x p <= V3.x (size m) - 1
  /\ 0 <= V3.y p <= V3.y (size m) - 1
  /\ 0 <= V3.z p <= V3.z (size m) - 1.

(** No scroll key is held. *)
Definition idle (this : TileView) : Prop :=
  scrollLeft this = false /\ scrollRight this = false
  /\ scrollUp this = false /\ scrollDown this = false.

Section Calls.

Context {hdr : TileViewHeader}.

Definition perform (a : Action) (s : TileView * Framework)
  : TileView * Framework :=
  match a with
  | AEvent e => eventOccurred e (fst s) (snd s)
  | ARender => render (fst s) (snd s)
  | ASetZLevel zLevel => setZLevel zLevel (fst s) (snd s)
  | ASetLayerDrawingMode m => (setLayerDrawingMode m (fst s), snd s)
  | ASetViewMode m => (setViewMode m (fst s), snd s)
  | ASetScreenCenterTile center => setScreenCenterTile center (fst s) (snd s)
  | ASetScreenCenterTile2 center =>
      setScreenCenterTile2 center (fst s) (snd s)
  | ASetSelectedTilePosition p => (setSelectedTilePosition p (fst s), snd s)
  end.

Definition run (l : list Action) (s : TileView * Framework)
  : TileView * Framework :=
  fold_left (fun s a => perform a s) l s.

(** The header's [clamp] returns a value between its bounds. *)
Definition clamp_within : Prop :=
  forall v lo hi : Z, lo <= hi -> lo <= clamp v lo hi <= hi.

(** The visible rectangle and the z levels of a frame. *)
Definition frameMinX (view : TileView) : Z :=
  let '(minX, _, _, _) := renderBounds view in minX.
Definition frameMaxX (view : TileView) : Z :=
  let '(_, maxX, _, _) := renderBounds view in maxX.
Definition frameMinY (view : TileView) : Z :=
  let '(_, _, minY, _) := renderBounds view in minY.
Definition frameMaxY (view : TileView) : Z :=
  let '(_, _, _, maxY) := renderBounds view in maxY.
Definition frameLevels (view : TileView) : list Z :=
  zrange (fst (renderZRange view)) (snd (renderZRange view)).

(** What [renderStrategyBox] asks of the renderer. *)
Definition strategyBoxCalls (this : TileView) : list RenderCall :=
  rendered
    (renderStrategyBox this
       (mkFramework 0 0 [] (V3.mk F32.zero F32.zero F32.zero) [] [])).

(** The calls one [render] adds to those the renderer already has. *)
Definition frameCalls (this : TileView) (fw : Framework) : list RenderCall :=
  skipn (List.length (rendered fw)) (rendered (snd (render this fw))).

End Calls.

(** ** Facts about binary32 comparison and rounding *)

Module F32Facts.

Import F32.

Lemma SFcompare_antisym (a b : float) (c : comparison) :
  SFcompare a b = Some c -> SFcompare b a = Some (CompOpp c).
Proof.
  destruct a as [sa|sa| |sa ma ea], b as [sb|sb| |sb mb eb];
    simpl; try discriminate;
    try (intros H; injection H as <-;
         repeat match goal with s : bool |- _ => destruct s end;
         reflexivity).
  intros H; injection H as <-.
  rewrite (Z.compare_antisym ea eb).
  change (PosDef.Pos.compare_cont Eq mb ma)
    with (Pos.compare_cont (CompOpp Eq) mb ma).
  rewrite <- (Pos.compare_cont_antisym ma mb Eq).
  destruct sa, sb; simpl; try reflexivity;
    destruct (Z.compare ea eb); simpl; try reflexivity;
    destruct (Pos.compare_cont Eq ma mb); reflexivity.
Qed.

Lemma SFcompare_defined (a b : float) :
  is_nan a = false -> is_nan b = false -> exists c, SFcompare a b = Some c.
Proof.
  destruct a, b; simpl; intros; try discriminate; eexists; reflexivity.
Qed.

(** On numbers, [not (b < a)] is [a <= b]. *)
Lemma not_ltb_leb (a b : float) :
  is_nan a = false -> is_nan b = false -> ltb b a = false -> leb a b = true.
Proof.
  intros Ha Hb. unfold ltb, leb, SFltb, SFleb.
  destruct (SFcompare_defined b a Hb Ha) as [c Hc].
  rewrite Hc, (SFcompare_antisym _ _ _ Hc).
  destruct c; simpl; congruence.
Qed.

Lemma ltb_leb (a b : float) : ltb a b = true -> leb a b = true.
Proof.
  unfold ltb, leb, SFltb, SFleb.
  destruct (SFcompare a b) as [[]|]; congruence.
Qed.

Lemma leb_refl (a : float) : is_nan a = false -> leb a a = true.
Proof.
  intros Ha. apply not_ltb_leb; trivial.
  unfold ltb, SFltb.
  destruct (SFcompare a a) as [c|] eqn:Hc; trivial.
  pose proof (SFcompare_antisym _ _ _ Hc) as Hc'.
  rewrite Hc in Hc'. destruct c; simpl in Hc'; congruence.
Qed.

Lemma ltb_not_nan_l (a b : float) : ltb a b = true -> is_nan a = false.
Proof. destruct a, b; simpl; trivial; discriminate. Qed.

Lemma leb_not_nan_l (a b : float) : leb a b = true -> is_nan a = false.
Proof. destruct a, b; simpl; trivial; discriminate. Qed.

Lemma leb_not_nan_r (a b : float) : leb a b = true -> is_nan b = false.
Proof. destruct a, b; simpl; trivial; discriminate. Qed.

Lemma iter_pos_invariant {A : Type} (P : A -> Prop) (f : A -> A) :
  (forall a, P a -> P (f a)) ->
  forall n a, P a -> P (iter_pos f n a).
Proof.
  intros Hf. induction n as [n IH|n IH|]; simpl; intros a Ha; auto.
Qed.

Lemma shr_1_nonneg (mrs : shr_record) : 0 <= shr_m mrs -> 0 <= shr_m (shr_1 mrs).
Proof.
  destruct mrs as [m r s]. simpl.
  destruct m as [|[p|p|]|p]; simpl; lia.
Qed.

Lemma shr_nonneg (mrs : shr_record) (e n : Z) :
  0 <= shr_m mrs -> 0 <= shr_m (fst (shr mrs e n)).
Proof.
  intros H. destruct n; simpl; trivial.
  apply (iter_pos_invariant (fun r => 0 <= shr_m r)); trivial.
  apply shr_1_nonneg.
Qed.

Lemma shr_record_of_loc_m (m : Z) (l : location) :
  shr_m (shr_record_of_loc m l) = m.
Proof. destruct l as [|[]]; reflexivity. Qed.

Lemma shr_fexp_nonneg (m e : Z) (l : location) :
  0 <= m -> 0 <= shr_m (fst (shr_fexp prec emax m e l)).
Proof.
  intros H. unfold shr_fexp. apply shr_nonneg.
  now rewrite shr_record_of_loc_m.
Qed.

Lemma round_nearest_even_nonneg (m : Z) (l : location) :
  0 <= m -> 0 <= round_nearest_even m l.
Proof.
  intros H. destruct l as [|[]]; simpl; try lia.
  destruct (Z.even m); lia.
Qed.

Lemma binary_round_aux_sign (s : bool) (m e : Z) (l : location) :
  0 <= m -> has_sign s (binary_round_aux prec emax s m e l).
Proof.
  intros H. unfold binary_round_aux.
  pose proof (shr_fexp_nonneg m e l H) as H1.
  destruct (shr_fexp prec emax m e l) as [mrs' e'] eqn:E1. simpl in H1.
  pose proof (shr_fexp_nonneg _ e' loc_Exact
                (round_nearest_even_nonneg _ (loc_of_shr_record mrs') H1)) as H2.
  destruct (shr_fexp prec emax (round_nearest_even _ _) e' loc_Exact)
    as [mrs'' e''] eqn:E2.
  simpl in H2.
  destruct (shr_m mrs'') as [|p|p]; [reflexivity| |lia].
  destruct (e'' <=? emax - prec); reflexivity.
Qed.

Lemma binary_round_sign (s : bool) (m : positive) (e : Z) :
  has_sign s (binary_round prec emax s m e).
Proof.
  unfold binary_round.
  destruct (shl_align m e _) as [mz ez].
  apply binary_round_aux_sign. lia.
Qed.

Lemma binary_normalize_not_nan (m e : Z) (sz : bool) :
  is_nan (binary_normalize prec emax m e sz) = false.
Proof.
  destruct m as [|p|p]; simpl; trivial.
  - pose proof (binary_round_sign false p e) as H.
    destruct (binary_round prec emax false p e); simpl in *; tauto.
  - pose proof (binary_round_sign true p e) as H.
    destruct (binary_round prec emax true p e); simpl in *; tauto.
Qed.

Lemma of_int_not_nan (i : Z) : is_nan (of_int i) = false.
Proof. apply binary_normalize_not_nan. Qed.

Lemma of_int_nonneg (i : Z) : 0 <= i -> leb zero (of_int i) = true.
Proof.
  intros H. unfold of_int. destruct i as [|p|p]; try lia; simpl.
  - reflexivity.
  - pose proof (binary_round_sign false p 0) as Hs.
    destruct (binary_round prec emax false p 0) as [s|s| |s m e];
      simpl in Hs; try tauto; subst; reflexivity.
Qed.

(** Adding or subtracting a finite number never turns a number into NaN. *)
Lemma add_not_nan (a b : float) :
  is_nan a = false -> is_finite b = true -> is_nan (add a b) = false.
Proof.
  unfold add.
  destruct a as [sa|sa| |sa ma ea], b as [sb|sb| |sb mb eb];
    simpl; try discriminate; intros _ _; trivial.
  - destruct sa, sb; reflexivity.
  - apply binary_normalize_not_nan.
Qed.

Lemma sub_not_nan (a b : float) :
  is_nan a = false -> is_finite b = true -> is_nan (sub a b) = false.
Proof.
  unfold sub.
  destruct a as [sa|sa| |sa ma ea], b as [sb|sb| |sb mb eb];
    simpl; try discriminate; intros _ _; trivial.
  - destruct sa, sb; reflexivity.
  - apply binary_normalize_not_nan.
Qed.

End F32Facts.

(** ** The camera center *)

Section Camera.

Context {hdr : TileViewHeader}.

Lemma setScreenCenterTile_view (center : Vec3 float) (this : TileView)
    (fw : Framework) :
  fst (setScreenCenterTile center this fw)
  = set_centerPos
      (V3.mk (clampedAxis (V3.x center) (V3.x (size (map this))))
             (clampedAxis (V3.y center) (V3.y (size (map this))))
             (clampedAxis (V3.z center) (V3.z (size (map this)))))
      this.
Proof. reflexivity. Qed.

Lemma clampedAxis_nan (c : float) (m : Z) :
  F32.is_nan (clampedAxis c m) = false -> F32.is_nan c = false.
Proof.
  destruct c; try (intros _; reflexivity).
  unfold clampedAxis, F32.gtb, F32.ltb, SFltb.
  destruct (F32.of_int m); simpl; trivial.
Qed.

Lemma clampedAxis_in_bounds (c : float) (m : Z) :
  0 <= m -> F32.is_nan c = false -> axis_in_bounds (clampedAxis c m) m.
Proof.
  intros Hm Hc. unfold clampedAxis, axis_in_bounds.
  destruct (F32.ltb c F32.zero) eqn:Hlo.
  - split; [reflexivity | now apply F32Facts.of_int_nonneg].
  - destruct (F32.gtb c (F32.of_int m)) eqn:Hhi.
    + split; [now apply F32Facts.of_int_nonneg |].
      apply F32Facts.leb_refl, F32Facts.of_int_not_nan.
    + split.
      * now apply F32Facts.not_ltb_leb.
      * apply F32Facts.not_ltb_leb; trivial.
        apply F32Facts.of_int_not_nan.
Qed.

(** The stored center is in bounds on every axis where it is a number. *)
Lemma setScreenCenterTile_bounds (center : Vec3 float) (this : TileView)
    (fw : Framework) :
  map_sizes_nonneg (map this) ->
  no_nan (centerPos (fst (setScreenCenterTile center this fw))) ->
  center_in_bounds (fst (setScreenCenterTile center this fw)).
Proof.
  intros (Hx & Hy & Hz). rewrite setScreenCenterTile_view.
  intros (Nx & Ny & Nz). simpl in Nx, Ny, Nz.
  repeat split; simpl;
    apply clampedAxis_in_bounds; trivial;
    eapply clampedAxis_nan; eassumption.
Qed.

Lemma clampedAxis_keeps_numbers (c : float) (m : Z) :
  F32.is_nan c = false -> F32.is_nan (clampedAxis c m) = false.
Proof.
  intros Hc. unfold clampedAxis.
  destruct (F32.ltb c F32.zero); [reflexivity|].
  destruct (F32.gtb c (F32.of_int m)); trivial.
  apply F32Facts.of_int_not_nan.
Qed.

Lemma setScreenCenterTile_no_nan (center : Vec3 float) (this : TileView)
    (fw : Framework) :
  no_nan center ->
  no_nan (centerPos (fst (setScreenCenterTile center this fw))).
Proof.
  intros (Nx & Ny & Nz). rewrite setScreenCenterTile_view.
  repeat split; simpl; now apply clampedAxis_keeps_numbers.
Qed.

Lemma render_view (this : TileView) (fw : Framework) :
  fst (render this fw)
  = fst (setScreenCenterTile (fst (renderScroll this fw)) this fw).
Proof.
  unfold render.
  destruct (renderScroll this _) as [newPos fw1] eqn:E1.
  assert (Hn : fst (renderScroll this fw) = newPos).
  { unfold renderScroll in *. destruct (viewMode this); inversion E1; reflexivity. }
  rewrite Hn.
  destruct (setScreenCenterTile newPos this fw1) as [this1 fw2] eqn:E2.
  assert (Ht : fst (setScreenCenterTile newPos this fw) = this1).
  { change this1 with (fst (this1, fw2)). rewrite <- E2. reflexivity. }
  rewrite Ht.
  destruct (renderBounds this1) as [[[minX maxX] minY] maxY].
  destruct (renderZRange this1) as [zFrom zTo].
  reflexivity.
Qed.

Lemma renderScroll_no_nan (this : TileView) (fw : Framework) :
  no_nan (centerPos this) -> scroll_speeds_finite this ->
  no_nan (fst (renderScroll this fw)).
Proof.
  intros (Nx & Ny & Nz) (Fix & Fiy & Fsx & Fsy).
  unfold renderScroll.
  destruct (viewMode this);
    destruct (scrollLeft this), (scrollRight this),
             (scrollUp this), (scrollDown this);
    simpl; repeat split; trivial;
    repeat (first [ apply F32Facts.add_not_nan | apply F32Facts.sub_not_nan ];
            trivial).
Qed.

(** C2, as amended: for every input center position without a NaN
    coordinate, on a map without negative sizes, the center stored by
    [setScreenCenterTile] satisfies [0 <= center.axis <= mapSize.axis] on
    x, y and z.  The per-tick scroll update in [render] keeps the bound
    when it starts from a center without NaN and the scroll speeds are
    finite; a finger-drag pan keeps it whenever the center it stores has no
    NaN coordinate.  On a (10,10,5) map the center (-5,-5,0) is stored as
    (0,0,0). *)
Theorem camera_center_clamped (this : TileView) :
  map_sizes_nonneg (map this) ->
  (forall center fw,
      no_nan center ->
      center_in_bounds (fst (setScreenCenterTile center this fw)))
  /\ (forall fw,
         no_nan (centerPos this) -> scroll_speeds_finite this ->
         center_in_bounds (fst (render this fw)))
  /\ (forall DeltaX DeltaY fw,
         no_nan (centerPos
                   (fst (eventOccurred (EVENT_FINGER_MOVE true DeltaX DeltaY)
                           this fw))) ->
         center_in_bounds
           (fst (eventOccurred (EVENT_FINGER_MOVE true DeltaX DeltaY)
                   this fw)))
  /\ (size (map this) = V3.mk 10 10 5 ->
      forall fw,
        centerPos
          (fst (setScreenCenterTile
                  (V3.mk (F32.of_int (-5)) (F32.of_int (-5)) F32.zero)
                  this fw))
        = V3.mk F32.zero F32.zero F32.zero).
Proof.
  intros Hmap. split; [|split; [|split]].
  - intros center fw Hc.
    apply setScreenCenterTile_bounds; trivial.
    now apply setScreenCenterTile_no_nan.
  - intros fw Hc Hs. rewrite render_view.
    apply setScreenCenterTile_bounds; trivial.
    apply setScreenCenterTile_no_nan.
    now apply renderScroll_no_nan.
  - intros dx dy fw. cbn [eventOccurred].
    apply setScreenCenterTile_bounds; trivial.
  - intros Hsize fw. rewrite setScreenCenterTile_view, Hsize. reflexivity.
Qed.

End Camera.

(** The view the constructor makes starts within these bounds, with finite
    scroll speeds. *)
Lemma TileView_new_center_in_bounds (m : TileMap) (iso : Vec3 Z)
    (strat : Vec2 Z) (v : TileViewMode) (md : Mode) (ind : LayerDrawingMode)
    (fw : Framework) :
  map_sizes_nonneg m ->
  center_in_bounds (fst (TileView_new m iso strat v md ind fw))
  /\ scroll_speeds_finite (fst (TileView_new m iso strat v md ind fw)).
Proof.
  intros (Hx & Hy & Hz).
  destruct md; (split; [|repeat split; reflexivity]);
    repeat split; cbn; trivial; now apply F32Facts.of_int_nonneg.
Qed.

Lemma center_in_bounds_no_nan (this : TileView) :
  center_in_bounds this -> no_nan (centerPos this).
Proof.
  intros ((Hx & _) & (Hy & _) & (Hz & _)).
  repeat split; eapply F32Facts.leb_not_nan_r; eassumption.
Qed.

(** Every tick keeps both. *)
Lemma render_keeps_center_in_bounds {hdr : TileViewHeader} (this : TileView)
    (fw : Framework) :
  map_sizes_nonneg (map this) ->
  center_in_bounds this -> scroll_speeds_finite this ->
  center_in_bounds (fst (render this fw))
  /\ scroll_speeds_finite (fst (render this fw)).
Proof.
  intros Hmap Hc Hs. rewrite render_view. split.
  - apply setScreenCenterTile_bounds; trivial.
    apply setScreenCenterTile_no_nan, renderScroll_no_nan; trivial.
    now apply center_in_bounds_no_nan.
  - exact Hs.
Qed.

(** A NaN coordinate passes both comparisons of [setScreenCenterTile] and is
    stored as it is: the stored center is then not within [0, mapSize]. *)
Lemma nan_center_escapes_clamp :
  ~ center_in_bounds
      (fst (setScreenCenterTile Sample.nan_center Sample.battle Sample.fw)).
Proof.
  intros ((H & _) & _). vm_compute in H. discriminate H.
Qed.

Lemma camera_center_clamped_witness :
  center_in_bounds
    (fst (setScreenCenterTile
            (V3.mk (F32.of_int 3) (F32.of_int 20) (F32.of_int (-1)))
            Sample.battle Sample.fw))
  /\ center_in_bounds
       (fst (render (hdr := SpecHeader.header)
               (set_scrollLeft true Sample.battle) Sample.fw))
  /\ center_in_bounds
       (fst (eventOccurred (hdr := SpecHeader.header)
               (EVENT_FINGER_MOVE true (F32.of_int (-64)) (F32.of_int (-32)))
               Sample.battle Sample.fw))
  /\ centerPos
       (fst (setScreenCenterTile
               (V3.mk (F32.of_int (-5)) (F32.of_int (-5)) F32.zero)
               Sample.battle Sample.fw))
     = V3.mk F32.zero F32.zero F32.zero.
Proof.
  assert (Hmap : map_sizes_nonneg (map Sample.battle)).
  { vm_compute. repeat split; discriminate. }
  destruct (camera_center_clamped (hdr := SpecHeader.header)
              Sample.battle Hmap) as (Hset & _ & Hdrag & Hscenario).
  destruct (camera_center_clamped (hdr := SpecHeader.header)
              (set_scrollLeft true Sample.battle) Hmap)
    as (_ & Hrender & _ & _).
  split; [|split; [|split]].
  - apply Hset. vm_compute. repeat split; reflexivity.
  - apply Hrender; vm_compute; repeat split; reflexivity.
  - apply Hdrag. vm_compute. repeat split; reflexivity.
  - apply Hscenario. vm_compute. reflexivity.
Defined.

(** ** The selected tile *)

Section Selection.

Context {hdr : TileViewHeader}.

Lemma setSelectedTilePosition_view (p : Vec3 Z) (this : TileView) :
  setSelectedTilePosition p this
  = set_selectedTilePosition (clampToMap (map this) p) this.
Proof.
  unfold setSelectedTilePosition, clampToMap.
  destruct p as [px py pz]. cbn [V3.x V3.y V3.z].
  destruct (px <? 0) eqn:X0; cbn [V3.x V3.y V3.z];
    destruct (py <? 0) eqn:Y0; cbn [V3.x V3.y V3.z];
    destruct (pz <? 0) eqn:Z0; cbn [V3.x V3.y V3.z];
    match goal with
    | |- context [?a >=? V3.x ?s] => destruct (a >=? V3.x s) eqn:X1
    end; cbn [V3.x V3.y V3.z];
    match goal with
    | |- context [?a >=? V3.y ?s] => destruct (a >=? V3.y s) eqn:Y1
    end; cbn [V3.x V3.y V3.z];
    match goal with
    | |- context [?a >=? V3.z ?s] => destruct (a >=? V3.z s) eqn:Z1
    end; cbn [V3.x V3.y V3.z];
    do 2 f_equal; lia.
Qed.

Lemma clampToMap_in_bounds (m : TileMap) (p : Vec3 Z) (this : TileView) :
  map_nonempty m -> map this = m ->
  selected_in_bounds (set_selectedTilePosition (clampToMap m p) this).
Proof.
  intros (Hx & Hy & Hz) <-. unfold selected_in_bounds, clampToMap.
  simpl. lia.
Qed.

Lemma key_down_keeps_selection (k : KeyCode) (this : TileView)
    (fw : Framework) :
  selected_in_bounds this ->
  selected_in_bounds (fst (eventOccurred (EVENT_KEY_DOWN k) this fw)).
Proof.
  intros Hsel. unfold selected_in_bounds in *.
  destruct k; cbn [eventOccurred]; trivial;
    match goal with
    | |- context [if ?c then _ else _] => destruct c eqn:Hc
    end; simpl; trivial; lia.
Qed.

(** C3: on a map with at least one tile, the selected tile is within
    [0, mapSize - 1] on each axis after [setSelectedTilePosition] of any
    position, after any pointer-move event, and stays there under every
    other event, the selection keys included; selecting (20,20,1) on a
    10 x 10 x 5 map gives (9,9,1). *)
Theorem selected_tile_clamped (this : TileView) :
  map_nonempty (map this) ->
  (forall p, selected_in_bounds (setSelectedTilePosition p this))
  /\ (forall X Y fw,
         selected_in_bounds
           (fst (eventOccurred (EVENT_MOUSE_MOVE X Y) this fw)))
  /\ (selected_in_bounds this ->
      forall e fw, selected_in_bounds (fst (eventOccurred e this fw)))
  /\ (size (map this) = V3.mk 10 10 5 ->
      selectedTilePosition (setSelectedTilePosition (V3.mk 20 20 1) this)
      = V3.mk 9 9 1).
Proof.
  intros Hmap.
  assert (Hset : forall p, selected_in_bounds (setSelectedTilePosition p this)).
  { intros p. rewrite setSelectedTilePosition_view.
    now apply clampToMap_in_bounds. }
  split; [exact Hset|]. split; [|split].
  - intros X Y fw. cbn [eventOccurred fst]. apply Hset.
  - intros Hsel e fw. destruct e as [k|k|X Y|prim dx dy|ty].
    + now apply key_down_keeps_selection.
    + destruct k; exact Hsel.
    + cbn [eventOccurred fst]. apply Hset.
    + cbn [eventOccurred]. destruct prim; exact Hsel.
    + exact Hsel.
  - intros Hsize. rewrite setSelectedTilePosition_view.
    unfold clampToMap. rewrite Hsize. reflexivity.
Qed.

End Selection.

Lemma selected_tile_clamped_witness :
  selected_in_bounds (setSelectedTilePosition (V3.mk (-3) 4 77) Sample.battle)
  /\ selected_in_bounds
       (fst (eventOccurred (hdr := SpecHeader.header)
               (EVENT_MOUSE_MOVE 5000 (-5000)) Sample.battle Sample.fw))
  /\ selected_in_bounds
       (fst (eventOccurred (hdr := SpecHeader.header)
               (EVENT_KEY_DOWN SDLK_w) Sample.battle Sample.fw))
  /\ selectedTilePosition
       (setSelectedTilePosition (V3.mk 20 20 1) Sample.battle)
     = V3.mk 9 9 1.
Proof.
  assert (Hmap : map_nonempty (map Sample.battle)).
  { vm_compute. repeat split; discriminate. }
  destruct (selected_tile_clamped (hdr := SpecHeader.header)
              Sample.battle Hmap) as (Hset & Hmove & Hevent & Hscenario).
  split; [apply Hset|]. split; [apply Hmove|].
  split; [|apply Hscenario; vm_compute; reflexivity].
  apply Hevent. vm_compute. repeat split; discriminate.
Defined.

(** ** The z level and the drawing modes *)

Section Modes.

Context {hdr : TileViewHeader}.

(** C4: for every integer [v], after [setZLevel v] the current z level is
    [clamp v 1 maxZDraw], and [maxZDraw], which the call leaves alone, is
    the z size of the map. *)
Theorem setZLevel_clamps (v : Z) (this : TileView) (fw : Framework) :
  maxZDraw_is_depth this ->
  getZLevel (fst (setZLevel v this fw)) = clamp v 1 (maxZDraw this)
  /\ getZLevel (fst (setZLevel v this fw))
     = clamp v 1 (V3.z (size (map this)))
  /\ maxZDraw_is_depth (fst (setZLevel v this fw)).
Proof.
  intros Hd. unfold setZLevel. rewrite setScreenCenterTile_view.
  unfold getZLevel, maxZDraw_is_depth in *. simpl.
  rewrite <- Hd. repeat split.
Qed.

Lemma TileView_new_depth (m : TileMap) (iso : Vec3 Z) (strat : Vec2 Z)
    (v : TileViewMode) (md : Mode) (ind : LayerDrawingMode)
    (fw : Framework) :
  maxZDraw_is_depth (fst (TileView_new m iso strat v md ind fw)).
Proof. destruct md; reflexivity. Qed.

Lemma eventOccurred_depth (e : Event) (this : TileView) (fw : Framework) :
  maxZDraw_is_depth this ->
  maxZDraw_is_depth (fst (eventOccurred e this fw)).
Proof.
  intros Hd. destruct e as [k|k|X Y|prim dx dy|ty]; cbn [eventOccurred].
  - destruct k; trivial;
      match goal with
      | |- context [if ?c then _ else _] => destruct c
      end; exact Hd.
  - destruct k; exact Hd.
  - exact Hd.
  - destruct prim; exact Hd.
  - exact Hd.
Qed.

Lemma render_depth (this : TileView) (fw : Framework) :
  maxZDraw_is_depth this -> maxZDraw_is_depth (fst (render this fw)).
Proof. intros Hd. rewrite render_view. exact Hd. Qed.

(** With the header's [clamp] read as the specification has it, the level
    stays within [1, maxZDraw]. *)
Lemma SpecHeader_clamp_range (v lo hi : Z) :
  lo <= hi -> lo <= SpecHeader.clamp v lo hi <= hi.
Proof. unfold SpecHeader.clamp. lia. Qed.

(** C10: [setLayerDrawingMode] stores the new mode, and changes nothing
    else, when the view was made in [Battle] mode; in [City] mode, and in
    any other, it leaves the view as it was. *)
Theorem setLayerDrawingMode_battle_only (m : LayerDrawingMode)
    (this : TileView) :
  (mode this = Battle ->
   setLayerDrawingMode m this = set_layerDrawingMode m this
   /\ layerDrawingMode (setLayerDrawingMode m this) = m)
  /\ (mode this <> Battle -> setLayerDrawingMode m this = this).
Proof.
  unfold setLayerDrawingMode. split.
  - intros ->. split; reflexivity.
  - intros Hm. destruct (mode this); congruence.
Qed.

End Modes.

Lemma setZLevel_clamps_witness :
  getZLevel (fst (setZLevel (hdr := SpecHeader.header) 9
                    Sample.battle Sample.fw)) = 5
  /\ getZLevel (fst (setZLevel (hdr := SpecHeader.header) (-4)
                       Sample.battle Sample.fw)) = 1.
Proof.
  assert (Hd : maxZDraw_is_depth Sample.battle) by (vm_compute; reflexivity).
  destruct (setZLevel_clamps (hdr := SpecHeader.header) 9
              Sample.battle Sample.fw Hd) as (_ & H9 & _).
  destruct (setZLevel_clamps (hdr := SpecHeader.header) (-4)
              Sample.battle Sample.fw Hd) as (_ & H4 & _).
  split.
  - rewrite H9. vm_compute. reflexivity.
  - rewrite H4. vm_compute. reflexivity.
Defined.

Lemma setLayerDrawingMode_battle_only_witness :
  layerDrawingMode (setLayerDrawingMode OnlyCurrentLevel Sample.battle)
  = OnlyCurrentLevel
  /\ setLayerDrawingMode OnlyCurrentLevel Sample.city = Sample.city.
Proof.
  destruct (setLayerDrawingMode_battle_only OnlyCurrentLevel Sample.battle)
    as (Hbattle & _).
  destruct (setLayerDrawingMode_battle_only OnlyCurrentLevel Sample.city)
    as (_ & Hcity).
  split.
  - apply Hbattle. vm_compute. reflexivity.
  - apply Hcity. vm_compute. discriminate.
Defined.

(** ** Pointer input and the view mode *)

Section Input.

Context {hdr : TileViewHeader}.

(** C7: a pointer-move event takes the device coordinates, lowers y by the
    fixed offset [+ 4 - 20], subtracts the screen offset, inverse-transforms
    at the z plane [currentZLevel - 1], clamps the tile to the map and
    stores it as the selected tile; the camera center, the rest of the view
    and the framework are left as they were. *)
Theorem pointer_move_selects_tile (X Y : Z) (this : TileView)
    (fw : Framework) :
  let device :=
    V2.mk (F32.of_int X)
          (F32.sub (F32.add (F32.of_int Y) (F32.of_int 4)) (F32.of_int 20)) in
  let onScreen := vec2_sub_f device (vec2_to_float (getScreenOffset this)) in
  let tile :=
    vec3_to_int
      (screenToTileCoords this onScreen
         (F32.of_int (currentZLevel this - 1))) in
  eventOccurred (EVENT_MOUSE_MOVE X Y) this fw
  = (set_selectedTilePosition (clampToMap (map this) tile) this, fw)
  /\ centerPos (fst (eventOccurred (EVENT_MOUSE_MOVE X Y) this fw))
     = centerPos this.
Proof.
  cbn zeta. cbn [eventOccurred].
  rewrite setSelectedTilePosition_view. split; reflexivity.
Qed.

(** C8: [setViewMode Strategy] leaves the camera center unchanged, and
    from then on every scroll update of [render] moves the center by the
    strategy scroll speed along the axes (left and right on x, up and down
    on y) before it is clamped; the view stays in [Strategy] mode, so this
    holds for every later tick. *)
Theorem strategy_view_scrolls_by_strategy_speed (this : TileView) :
  centerPos (setViewMode Strategy this) = centerPos this
  /\ getViewMode (setViewMode Strategy this) = Strategy
  /\ forall (t : TileView) (fw : Framework),
      getViewMode t = Strategy ->
      let c := centerPos t in
      let s := stratScrollSpeed t in
      let x1 := if scrollLeft t then F32.sub (V3.x c) (V2.x s) else V3.x c in
      let x2 := if scrollRight t then F32.add x1 (V2.x s) else x1 in
      let y1 := if scrollUp t then F32.sub (V3.y c) (V2.y s) else V3.y c in
      let y2 := if scrollDown t then F32.add y1 (V2.y s) else y1 in
      fst (render t fw)
      = fst (setScreenCenterTile (V3.mk x2 y2 (V3.z c)) t fw)
      /\ getViewMode (fst (render t fw)) = Strategy.
Proof.
  split; [reflexivity|]. split; [reflexivity|].
  intros t fw Hv. cbn zeta. rewrite render_view.
  unfold getViewMode in *. unfold renderScroll. rewrite Hv.
  split.
  - destruct (scrollLeft t), (scrollRight t), (scrollUp t), (scrollDown t);
      destruct (centerPos t); reflexivity.
  - rewrite setScreenCenterTile_view. exact Hv.
Qed.

End Input.

Lemma strategy_view_scrolls_by_strategy_speed_witness :
  centerPos
    (fst (render (hdr := SpecHeader.header)
            (set_scrollRight true (setViewMode Strategy Sample.battle))
            Sample.fw))
  = V3.mk F32.two F32.zero F32.zero.
Proof.
  destruct (strategy_view_scrolls_by_strategy_speed
              (hdr := SpecHeader.header) Sample.battle) as (_ & _ & Htick).
  destruct (Htick (set_scrollRight true (setViewMode Strategy Sample.battle))
              Sample.fw) as (Hcenter & _).
  - vm_compute. reflexivity.
  - rewrite Hcenter. vm_compute. reflexivity.
Defined.

(** ** The render pass *)

Section RenderPass.

Context {hdr : TileViewHeader}.

Lemma add_calls_nil (fw : Framework) : add_calls [] fw = fw.
Proof. destruct fw. unfold add_calls. simpl. now rewrite app_nil_r. Qed.

Lemma add_calls_app (a b : list RenderCall) (fw : Framework) :
  add_calls b (add_calls a fw) = add_calls (a ++ b) fw.
Proof. unfold add_calls. simpl. now rewrite app_assoc. Qed.

Lemma rcall_add_calls (c : RenderCall) (fw : Framework) :
  rcall c fw = add_calls [c] fw.
Proof. reflexivity. Qed.

Lemma for_loop_calls (g : Z -> list RenderCall)
    (body : Z -> Framework -> Framework) :
  (forall i fw, body i fw = add_calls (g i) fw) ->
  forall n lo fw,
    for_loop n lo body fw
    = add_calls
        (flat_map g (List.map (fun k => lo + Z.of_nat k) (seq 0 n))) fw.
Proof.
  intros Hbody. induction n as [|n IH]; intros lo fw.
  - simpl. now rewrite add_calls_nil.
  - cbn [for_loop seq List.map flat_map].
    rewrite IH, Hbody, add_calls_app.
    rewrite <- seq_shift, List.map_map.
    replace (lo + Z.of_nat 0) with lo by lia.
    do 3 f_equal. apply List.map_ext. intros k. lia.
Qed.

Lemma for_range_calls (g : Z -> list RenderCall)
    (body : Z -> Framework -> Framework) (lo hi : Z) (fw : Framework) :
  (forall i fw, body i fw = add_calls (g i) fw) ->
  for_range lo hi body fw = add_calls (flat_map g (zrange lo hi)) fw.
Proof. intros Hbody. unfold for_range, zrange. now apply for_loop_calls. Qed.

Lemma fold_left_calls {A : Type} (g : A -> list RenderCall)
    (body : Framework -> A -> Framework) :
  (forall fw a, body fw a = add_calls (g a) fw) ->
  forall l fw, fold_left body l fw = add_calls (flat_map g l) fw.
Proof.
  intros Hbody. induction l as [|a l IH]; intros fw.
  - simpl. now rewrite add_calls_nil.
  - simpl. now rewrite IH, Hbody, add_calls_app.
Qed.

Lemma flat_map_singleton {A B : Type} (f : A -> B) (l : list A) :
  flat_map (fun a => [f a]) l = List.map f l.
Proof. induction l; simpl; congruence. Qed.

Lemma renderTile_calls (this : TileView) (b : SelectionBracket)
    (currentLevel z layer y x : Z) (fw : Framework) :
  renderTile this b currentLevel z layer y x fw
  = add_calls (tileCalls this b currentLevel z layer y x) fw.
Proof.
  unfold renderTile, tileCalls.
  destruct (isSelTile b x y z && (layer =? 0)).
  - rewrite (fold_left_calls
               (fun obj =>
                  (if isDrawBackBeforeThis b obj
                   then [selectionCall this b (selectionImageBack b)]
                   else [])
                  ++ [objectCall this currentLevel obj])).
    + unfold drawSelectionImage.
      destruct (drawBackBeforeThis b);
        rewrite !rcall_add_calls, !add_calls_app; reflexivity.
    + intros fw' obj. unfold drawSelectionImage, drawObject.
      destruct (isDrawBackBeforeThis b obj);
        rewrite !rcall_add_calls, ?add_calls_app; reflexivity.
  - rewrite (fold_left_calls (fun obj => [objectCall this currentLevel obj])).
    + now rewrite flat_map_singleton.
    + reflexivity.
Qed.

Lemma renderLevel_calls (this : TileView) (minX maxX minY maxY z : Z)
    (fw : Framework) :
  renderLevel this minX maxX minY maxY z fw
  = add_calls (levelCalls this minX maxX minY maxY z) fw.
Proof.
  unfold renderLevel, levelCalls.
  apply for_range_calls. intros layer fw1.
  apply for_range_calls. intros y fw2.
  apply for_range_calls. intros x fw3.
  apply renderTile_calls.
Qed.

Lemma renderStrategyBox_log (this : TileView) (fw : Framework) :
  log (renderStrategyBox this fw) = log fw
  /\ objectDraws (rendered (renderStrategyBox this fw))
     = objectDraws (rendered fw).
Proof.
  unfold renderStrategyBox, objectDraws.
  destruct (viewMode this); simpl; split; trivial.
  rewrite !filter_app. simpl. now rewrite !app_nil_r.
Qed.

Lemma renderScroll_rendered (this : TileView) (fw : Framework) :
  rendered (snd (renderScroll this fw)) = rendered fw.
Proof. unfold renderScroll. destruct (viewMode this); reflexivity. Qed.

Lemma renderScroll_target (this : TileView) (fw fw' : Framework) :
  fst (renderScroll this fw) = fst (renderScroll this fw').
Proof. unfold renderScroll. destruct (viewMode this); reflexivity. Qed.

(** The framework after [render]: the log is that of the scroll step, and
    the renderer has received [clear], [setPalette], the calls of each z
    level in turn, and the strategy box. *)
Lemma render_framework (this : TileView) (fw : Framework) :
  let view := fst (render this fw) in
  let '(minX, maxX, minY, maxY) := renderBounds view in
  let '(zFrom, zTo) := renderZRange view in
  snd (render this fw)
  = renderStrategyBox view
      (add_calls
         (flat_map (levelCalls view minX maxX minY maxY) (zrange zFrom zTo))
         (snd (setScreenCenterTile (fst (renderScroll this fw)) this
                 (snd (renderScroll this
                         (rcall (RSetPalette (pal this))
                            (rcall RClear fw))))))).
Proof.
  cbn zeta. rewrite render_view. unfold render.
  rewrite (renderScroll_target this fw
             (rcall (RSetPalette (pal this)) (rcall RClear fw))).
  destruct (renderScroll this _) as [newPos fw1].
  cbn [fst snd].
  rewrite setScreenCenterTile_view.
  unfold setScreenCenterTile at 1.
  fold (clampedAxis (V3.x newPos) (V3.x (size (map this)))).
  fold (clampedAxis (V3.y newPos) (V3.y (size (map this)))).
  fold (clampedAxis (V3.z newPos) (V3.z (size (map this)))).
  set (view := set_centerPos _ this).
  destruct (renderBounds view) as [[[minX maxX] minY] maxY].
  destruct (renderZRange view) as [zFrom zTo].
  cbn [snd]. f_equal.
  apply for_range_calls. intros z fw2. apply renderLevel_calls.
Qed.

End RenderPass.

Section RenderOrder.

Context {hdr : TileViewHeader}.

Lemma filter_flat_map {A B : Type} (p : B -> bool) (f : A -> list B)
    (l : list A) :
  filter p (flat_map f l) = flat_map (fun a => filter p (f a)) l.
Proof.
  induction l as [|a l IH]; simpl; trivial.
  now rewrite filter_app, IH.
Qed.

Lemma objectDraws_objectCalls (this : TileView) (currentLevel : Z)
    (objects : list TileObject) :
  objectDraws (List.map (objectCall this currentLevel) objects)
  = List.map (objectCall this currentLevel) objects.
Proof.
  unfold objectDraws. induction objects as [|o l IH]; simpl; congruence.
Qed.

(** The selection images are the only calls a tile adds to its objects. *)
Lemma objectDraws_tileCalls (this : TileView) (b : SelectionBracket)
    (currentLevel z layer y x : Z) :
  objectDraws (tileCalls this b currentLevel z layer y x)
  = List.map (objectCall this currentLevel)
      (nth (Z.to_nat layer) (drawnObjects (getTile (map this) x y z)) []).
Proof.
  unfold tileCalls.
  destruct (isSelTile b x y z && (layer =? 0)).
  - unfold objectDraws. rewrite !filter_app.
    replace (filter isObjectDraw
               match drawBackBeforeThis b with
               | Some _ => []
               | None => [selectionCall this b (selectionImageBack b)]
               end) with (@nil RenderCall)
      by (destruct (drawBackBeforeThis b); reflexivity).
    simpl. rewrite app_nil_r.
    induction (nth (Z.to_nat layer) _ []) as [|o l IH]; simpl; trivial.
    rewrite filter_app, IH.
    destruct (isDrawBackBeforeThis b o); reflexivity.
  - apply objectDraws_objectCalls.
Qed.

Lemma objectDraws_levelCalls (this : TileView) (minX maxX minY maxY z : Z) :
  objectDraws (levelCalls this minX maxX minY maxY z)
  = flat_map
      (fun layer =>
         flat_map
           (fun y =>
              flat_map
                (fun x =>
                   List.map (objectCall this (z - currentZLevel this))
                     (nth (Z.to_nat layer)
                        (drawnObjects (getTile (map this) x y z)) []))
                (zrange minX maxX))
           (zrange minY maxY))
      (zrange 0 (getLayerCount (map this))).
Proof.
  unfold levelCalls, objectDraws.
  rewrite filter_flat_map. apply flat_map_ext. intros layer.
  rewrite filter_flat_map. apply flat_map_ext. intros y.
  rewrite filter_flat_map. apply flat_map_ext. intros x.
  apply objectDraws_tileCalls.
Qed.

Lemma zrange_single (n : Z) : zrange (n - 1) n = [n - 1].
Proof.
  unfold zrange. replace (n - (n - 1)) with 1 by lia.
  simpl. f_equal. lia.
Qed.

Lemma renderBounds_clamped (this : TileView) :
  let '(minX, maxX, minY, maxY) := renderBounds this in
  0 <= minX /\ maxX <= V3.x (size (map this))
  /\ 0 <= minY /\ maxY <= V3.y (size (map this)).
Proof. unfold renderBounds. cbn zeta. lia. Qed.

(** C9: the render pass draws the z levels the layer-drawing mode selects:
    0 up to but excluding [currentZLevel] for [UpToCurrentLevel], 0 up to
    but excluding [maxZDraw] for [AllLevels], and [currentZLevel - 1] alone
    for [OnlyCurrentLevel].  Within a level it goes through the layers,
    within a layer through the rows [y] and then the columns [x] of the
    visible rectangle, and it draws the objects of each tile in the order
    of the tile's list.  The visible rectangle is the one the four screen
    corners give: [minX] from the top left corner and [minY] from the top
    right one, both taken one isometric tile outside the display and at
    z = 0, [maxX] from the bottom right corner and [maxY] from the bottom
    left one, both at the depth of the map; the lower ends are raised to 0
    and the upper ends cut at the size of the map, so the rectangle lies
    within the map. *)
Theorem render_draw_order (this : TileView) (fw : Framework) :
  let view := fst (render this fw) in
  let levels :=
    match layerDrawingMode this with
    | UpToCurrentLevel => zrange 0 (currentZLevel this)
    | AllLevels => zrange 0 (maxZDraw this)
    | OnlyCurrentLevel => [currentZLevel this - 1]
    | UnknownLayerDrawingMode _ => zrange 0 (maxZDraw this)
    end in
  let topLeft :=
    offsetScreenToTileCoords view
      (V2.mk (- V3.x (isoTileSize this)) (- V3.y (isoTileSize this))) 0 in
  let topRight :=
    offsetScreenToTileCoords view
      (V2.mk (V2.x (dpySize this)) (- V3.y (isoTileSize this))) 0 in
  let bottomLeft :=
    offsetScreenToTileCoords view
      (V2.mk (- V3.x (isoTileSize this)) (V2.y (dpySize this)))
      (V3.z (size (map this))) in
  let bottomRight :=
    offsetScreenToTileCoords view
      (V2.mk (V2.x (dpySize this)) (V2.y (dpySize this)))
      (V3.z (size (map this))) in
  let minX := Z.max 0 (V3.x topLeft) in
  let maxX := Z.min (V3.x (size (map this))) (V3.x bottomRight) in
  let minY := Z.max 0 (V3.y topRight) in
  let maxY := Z.min (V3.y (size (map this))) (V3.y bottomLeft) in
  (0 <= minX /\ maxX <= V3.x (size (map this))
   /\ 0 <= minY /\ maxY <= V3.y (size (map this)))
  /\ objectDraws (rendered (snd (render this fw)))
     = objectDraws (rendered fw)
       ++ flat_map
            (fun z =>
               flat_map
                 (fun layer =>
                    flat_map
                      (fun y =>
                         flat_map
                           (fun x =>
                              List.map
                                (fun obj =>
                                   RDrawObject obj
                                     (tileToOffsetScreenCoords view
                                        (getPosition obj))
                                     (viewMode this)
                                     (z - currentZLevel this))
                                (nth (Z.to_nat layer)
                                   (drawnObjects (getTile (map this) x y z))
                                   []))
                           (zrange minX maxX))
                      (zrange minY maxY))
                 (zrange 0 (getLayerCount (map this))))
            levels.
Proof.
  cbn zeta.
  pose proof (render_framework this fw) as Hfw. cbn zeta in Hfw.
  destruct (renderZRange (fst (render this fw))) as [zFrom zTo] eqn:Hz.
  assert (Hrect :
            renderBounds (fst (render this fw))
            = (Z.max 0
                 (V3.x (offsetScreenToTileCoords (fst (render this fw))
                          (V2.mk (- V3.x (isoTileSize this))
                                 (- V3.y (isoTileSize this))) 0)),
               Z.min (V3.x (size (map this)))
                 (V3.x (offsetScreenToTileCoords (fst (render this fw))
                          (V2.mk (V2.x (dpySize this)) (V2.y (dpySize this)))
                          (V3.z (size (map this))))),
               Z.max 0
                 (V3.y (offsetScreenToTileCoords (fst (render this fw))
                          (V2.mk (V2.x (dpySize this))
                                 (- V3.y (isoTileSize this))) 0)),
               Z.min (V3.y (size (map this)))
                 (V3.y (offsetScreenToTileCoords (fst (render this fw))
                          (V2.mk (- V3.x (isoTileSize this))
                                 (V2.y (dpySize this)))
                          (V3.z (size (map this))))))).
  { unfold renderBounds. cbn zeta.
    rewrite render_view, setScreenCenterTile_view. reflexivity. }
  rewrite Hrect in Hfw. clear Hrect.
  split; [lia|].
  rewrite Hfw. clear Hfw.
  rewrite render_view, setScreenCenterTile_view in *.
  set (view := set_centerPos _ this) in *.
  set (minX := Z.max 0 _). set (maxX := Z.min (V3.x _) _).
  set (minY := Z.max 0 _). set (maxY := Z.min (V3.y _) _).
  rewrite (proj2 (renderStrategyBox_log view _)).
  cbn [add_calls rendered setScreenCenterTile snd setListenerPosition].
  rewrite renderScroll_rendered. cbn [rcall rendered].
  unfold objectDraws at 1. rewrite !filter_app. cbn [filter isObjectDraw].
  rewrite !app_nil_r. fold (objectDraws (rendered fw)). f_equal.
  fold (objectDraws
          (flat_map (levelCalls view minX maxX minY maxY) (zrange zFrom zTo))).
  unfold objectDraws at 1. rewrite filter_flat_map.
  assert (Hlevels :
            zrange zFrom zTo
            = match layerDrawingMode this with
              | UpToCurrentLevel => zrange 0 (currentZLevel this)
              | AllLevels => zrange 0 (maxZDraw this)
              | OnlyCurrentLevel => [currentZLevel this - 1]
              | UnknownLayerDrawingMode _ => zrange 0 (maxZDraw this)
              end).
  { unfold renderZRange in Hz. subst view. cbn in Hz.
    destruct (layerDrawingMode this); inversion Hz; subst; trivial.
    apply zrange_single. }
  rewrite Hlevels. apply flat_map_ext. intros z.
  apply (objectDraws_levelCalls view).
Qed.

End RenderOrder.

(** ** Values outside the enumerations *)

Section UnknownModes.

Context {hdr : TileViewHeader}.

Lemma leb_not_gtb (a b : float) :
  F32.leb a b = true -> F32.ltb b a = false.
Proof.
  unfold F32.leb, F32.ltb, SFleb, SFltb.
  destruct (SFcompare a b) as [c|] eqn:Hc; [|discriminate].
  rewrite (F32Facts.SFcompare_antisym _ _ _ Hc).
  destruct c; simpl; congruence.
Qed.

Lemma clampedAxis_fixes_bounds (c : float) (m : Z) :
  axis_in_bounds c m -> clampedAxis c m = c.
Proof.
  intros [Hlo Hhi]. unfold clampedAxis, F32.gtb.
  now rewrite (leb_not_gtb _ _ Hlo), (leb_not_gtb _ _ Hhi).
Qed.

(** The only thing [render] ever logs is the unknown view mode. *)
Lemma render_log (this : TileView) (fw : Framework) :
  log (snd (render this fw))
  = log fw
    ++ match viewMode this with
       | UnknownViewMode _ => [mkLogEntry LogLevelError "Unknown view mode"]
       | _ => []
       end.
Proof.
  pose proof (render_framework this fw) as Hfw. cbn zeta in Hfw.
  destruct (renderBounds (fst (render this fw))) as [[[minX maxX] minY] maxY].
  destruct (renderZRange (fst (render this fw))) as [zFrom zTo].
  rewrite Hfw. rewrite (proj1 (renderStrategyBox_log _ _)).
  cbn [add_calls log setScreenCenterTile snd setListenerPosition].
  unfold renderScroll.
  destruct (viewMode this); cbn [snd log rcall LogError];
    now rewrite ?app_nil_r.
Qed.

(** C6, as amended: a view mode outside the enumeration makes [render] log
    one error, "Unknown view mode", apply no scroll delta (the center is
    re-clamped as it stands, so a center within bounds is unchanged) and
    carry on; a [TileView::Mode] outside the enumeration makes the
    constructor log one error and carry on; a layer-drawing mode outside
    the enumeration is not logged at all, and [render] then draws the
    levels 0 up to [maxZDraw]. *)
Theorem unknown_modes_continue :
  (forall (this : TileView) (fw : Framework) (raw : Z),
      viewMode this = UnknownViewMode raw ->
      log (snd (render this fw))
      = log fw ++ [mkLogEntry LogLevelError "Unknown view mode"]
      /\ fst (render this fw)
         = fst (setScreenCenterTile (centerPos this) this fw)
      /\ (center_in_bounds this ->
          centerPos (fst (render this fw)) = centerPos this))
  /\ (forall (this : TileView) (fw : Framework) (raw : Z),
         layerDrawingMode this = UnknownLayerDrawingMode raw ->
         renderZRange this = (0, maxZDraw this)
         /\ ((forall raw', viewMode this <> UnknownViewMode raw') ->
             log (snd (render this fw)) = log fw))
  /\ (forall (m : TileMap) (iso : Vec3 Z) (strat : Vec2 Z)
             (v : TileViewMode) (raw : Z) (ind : LayerDrawingMode)
             (fw : Framework),
         log (snd (TileView_new m iso strat v (UnknownMode raw) ind fw))
         = log fw
           ++ [mkLogEntry LogLevelError "Unknown TileView::Mode %d";
               mkLogEntry LogLevelInfo "dpySize: {%d,%d}"]).
Proof.
  split; [|split].
  - intros this fw raw Hv. split; [|split].
    + rewrite render_log, Hv. reflexivity.
    + rewrite render_view. unfold renderScroll. rewrite Hv. reflexivity.
    + intros (Hx & Hy & Hz).
      rewrite render_view, setScreenCenterTile_view.
      unfold renderScroll. rewrite Hv. cbn [fst centerPos set_centerPos].
      rewrite !clampedAxis_fixes_bounds by assumption.
      now destruct (centerPos this).
  - intros this fw raw Hl. split.
    + unfold renderZRange. rewrite Hl. reflexivity.
    + intros Hknown. rewrite render_log.
      destruct (viewMode this) as [| |raw']; rewrite ?app_nil_r; trivial.
      now destruct (Hknown raw').
  - intros m iso strat v raw ind fw. cbn [TileView_new snd].
    unfold LogInfo, LogError. cbn [log]. now rewrite <- app_assoc.
Qed.

End UnknownModes.

(** A layer-drawing mode outside the enumeration, set through
    [setLayerDrawingMode], goes through [render] without a single log
    entry. *)
Lemma unknown_layer_mode_not_logged :
  let view := setLayerDrawingMode (UnknownLayerDrawingMode 7) Sample.battle in
  layerDrawingMode view = UnknownLayerDrawingMode 7
  /\ log (snd (render (hdr := SpecHeader.header) view Sample.fw)) = [].
Proof. vm_compute. split; reflexivity. Qed.

Lemma unknown_modes_continue_witness :
  log (snd (render (hdr := SpecHeader.header)
              (setViewMode (UnknownViewMode 9) Sample.battle) Sample.fw))
  = [mkLogEntry LogLevelError "Unknown view mode"]
  /\ centerPos
       (fst (render (hdr := SpecHeader.header)
               (set_scrollLeft true
                  (setViewMode (UnknownViewMode 9) Sample.battle))
               Sample.fw))
     = V3.mk F32.zero F32.zero F32.zero
  /\ log (snd (render (hdr := SpecHeader.header)
                 (setLayerDrawingMode (UnknownLayerDrawingMode 7)
                    Sample.battle) Sample.fw))
     = [].
Proof.
  destruct (unknown_modes_continue (hdr := SpecHeader.header))
    as (Hview & Hlayer & _).
  destruct (Hview (setViewMode (UnknownViewMode 9) Sample.battle)
              Sample.fw 9) as (Hlog & _ & _).
  { vm_compute. reflexivity. }
  destruct (Hview (set_scrollLeft true
                     (setViewMode (UnknownViewMode 9) Sample.battle))
              Sample.fw 9) as (_ & _ & Hcenter).
  { vm_compute. reflexivity. }
  destruct (Hlayer (setLayerDrawingMode (UnknownLayerDrawingMode 7)
                      Sample.battle) Sample.fw 7) as (_ & Hquiet).
  { vm_compute. reflexivity. }
  split; [|split].
  - rewrite Hlog. vm_compute. reflexivity.
  - rewrite Hcenter.
    + vm_compute. reflexivity.
    + vm_compute. repeat split; reflexivity.
  - rewrite Hquiet.
    + vm_compute. reflexivity.
    + intros raw'. vm_compute. discriminate.
Defined.

(** ** The selection bracket *)

Section Bracket.

Lemma foundUnit_existsb (objs : list TileObject) (found : bool) :
  fold_left
    (fun (found : bool) (obj : TileObject) =>
       if TileObjectType_eqb (getType obj) Unit then true else found)
    objs found
  = found || existsb isUnit objs.
Proof.
  revert found. induction objs as [|o l IH]; intros found; simpl.
  - now rewrite orb_false_r.
  - rewrite IH. unfold isUnit.
    destruct (TileObjectType_eqb (getType o) Unit), found; reflexivity.
Qed.

(** C5, as amended: in a battle drawn in isometric view, with the selected
    tile inside the visible rectangle, the level [z] being drawn gets the
    filled images when [z] is the selected tile's level and a unit is among
    the tile's intersecting objects, the empty images when [z] is that
    level and no unit is, and the background images when [z] is any level
    below the selected one, however far; above it no bracket is chosen. *)
Theorem selection_bracket_images (this : TileView)
    (minX maxX minY maxY z : Z) :
  mode this = Battle -> viewMode this = Isometric ->
  minX <= V3.x (selectedTilePosition this) < maxX ->
  minY <= V3.y (selectedTilePosition this) < maxY ->
  let sel := selectedTilePosition this in
  let b := renderSelection this minX maxX minY maxY z in
  let tile := getTile (map this) (V3.x sel) (V3.y sel) z in
  (z = V3.z sel -> existsb isUnit (intersectingObjects tile) = true ->
   selectionImageBack b = selectedTileFilledImageBack this
   /\ selectionImageFront b = selectedTileFilledImageFront this)
  /\ (z = V3.z sel -> existsb isUnit (intersectingObjects tile) = false ->
      selectionImageBack b = selectedTileEmptyImageBack this
      /\ selectionImageFront b = selectedTileEmptyImageFront this)
  /\ (z < V3.z sel ->
      selectionImageBack b = selectedTileBackgroundImageBack this
      /\ selectionImageFront b = selectedTileBackgroundImageFront this)
  /\ (z <= V3.z sel ->
      selTileOnCurLevel b = Some (V3.mk (V3.x sel) (V3.y sel) z))
  /\ (V3.z sel < z -> selTileOnCurLevel b = None).
Proof.
  intros Hm Hv Hx Hy. cbn zeta. unfold renderSelection. rewrite Hm, Hv.
  cbn [V3.x V3.y V3.z].
  replace (V3.x (selectedTilePosition this) >=? minX) with true by lia.
  replace (V3.x (selectedTilePosition this) <? maxX) with true by lia.
  replace (V3.y (selectedTilePosition this) >=? minY) with true by lia.
  replace (V3.y (selectedTilePosition this) <? maxY) with true by lia.
  rewrite !andb_true_r, foundUnit_existsb. cbn [orb].
  split; [|split; [|split; [|split]]].
  - intros Hz Hu. rewrite Hu.
    replace (V3.z (selectedTilePosition this) >=? z) with true by lia.
    replace (V3.z (selectedTilePosition this) =? z) with true by lia.
    split; reflexivity.
  - intros Hz Hu. rewrite Hu.
    replace (V3.z (selectedTilePosition this) >=? z) with true by lia.
    replace (V3.z (selectedTilePosition this) =? z) with true by lia.
    split; reflexivity.
  - intros Hz.
    replace (V3.z (selectedTilePosition this) >=? z) with true by lia.
    replace (V3.z (selectedTilePosition this) =? z) with false by lia.
    split; reflexivity.
  - intros Hz.
    replace (V3.z (selectedTilePosition this) >=? z) with true by lia.
    destruct (V3.z (selectedTilePosition this) =? z);
      [destruct (existsb isUnit _)|]; reflexivity.
  - intros Hz.
    replace (V3.z (selectedTilePosition this) >=? z) with false by lia.
    reflexivity.
Qed.

End Bracket.

(** With the tile (1,1,2) selected and the view on z level 1, the level
    z = 0 is drawn two levels behind the selected one and still gets the
    background images: they are the two images the render pass draws. *)
Lemma background_bracket_two_levels_behind :
  let view := setSelectedTilePosition (V3.mk 1 1 2) Sample.battle in
  let b := renderSelection view 0 10 0 10 0 in
  0 <> V3.z (selectedTilePosition view) - 1
  /\ renderBounds (hdr := SpecHeader.header) view = (0, 10, 0, 10)
  /\ renderZRange view = (0, 1)
  /\ selTileOnCurLevel b = Some (V3.mk 1 1 0)
  /\ selectionImageBack b = selectedTileBackgroundImageBack view
  /\ selectionImageFront b = selectedTileBackgroundImageFront view
  /\ flat_map
       (fun c => match c with RDrawImage img _ => [img] | _ => [] end)
       (rendered (snd (render (hdr := SpecHeader.header) view Sample.fw)))
     = [Some "battle/selected-battletile-background-back.png"%string;
        Some "battle/selected-battletile-background-front.png"%string].
Proof.
  vm_compute. split; [intros H; discriminate H | repeat split].
Qed.

Lemma selection_bracket_images_witness :
  let view := setSelectedTilePosition (V3.mk 1 1 2) Sample.battle in
  let empty := setSelectedTilePosition (V3.mk 2 2 2) Sample.battle in
  selectionImageBack (renderSelection view 0 10 0 10 2)
  = Some "battle/selected-battletile-filled-back.png"%string
  /\ selectionImageFront (renderSelection empty 0 10 0 10 2)
     = Some "battle/selected-battletile-empty-front.png"%string
  /\ selectionImageBack (renderSelection view 0 10 0 10 1)
     = Some "battle/selected-battletile-background-back.png"%string
  /\ selectionImageFront (renderSelection view 0 10 0 10 0)
     = Some "battle/selected-battletile-background-front.png"%string
  /\ selTileOnCurLevel (renderSelection view 0 10 0 10 0)
     = Some (V3.mk 1 1 0)
  /\ selTileOnCurLevel (renderSelection view 0 10 0 10 3) = None.
Proof.
  cbn zeta.
  set (view := setSelectedTilePosition (V3.mk 1 1 2) Sample.battle).
  set (empty := setSelectedTilePosition (V3.mk 2 2 2) Sample.battle).
  assert (Hm : mode view = Battle) by (vm_compute; reflexivity).
  assert (Hv : viewMode view = Isometric) by (vm_compute; reflexivity).
  assert (Hx : 0 <= V3.x (selectedTilePosition view) < 10).
  { vm_compute. split; [discriminate | reflexivity]. }
  assert (Hy : 0 <= V3.y (selectedTilePosition view) < 10).
  { vm_compute. split; [discriminate | reflexivity]. }
  assert (Hm' : mode empty = Battle) by (vm_compute; reflexivity).
  assert (Hv' : viewMode empty = Isometric) by (vm_compute; reflexivity).
  assert (Hx' : 0 <= V3.x (selectedTilePosition empty) < 10).
  { vm_compute. split; [discriminate | reflexivity]. }
  assert (Hy' : 0 <= V3.y (selectedTilePosition empty) < 10).
  { vm_compute. split; [discriminate | reflexivity]. }
  destruct (selection_bracket_images view 0 10 0 10 2 Hm Hv Hx Hy)
    as (Hfilled & _ & _ & _ & _).
  destruct (selection_bracket_images empty 0 10 0 10 2 Hm' Hv' Hx' Hy')
    as (_ & Hempty & _ & _ & _).
  destruct (selection_bracket_images view 0 10 0 10 1 Hm Hv Hx Hy)
    as (_ & _ & Hbehind1 & _ & _).
  destruct (selection_bracket_images view 0 10 0 10 0 Hm Hv Hx Hy)
    as (_ & _ & Hbehind2 & Htile & _).
  destruct (selection_bracket_images view 0 10 0 10 3 Hm Hv Hx Hy)
    as (_ & _ & _ & _ & Habove).
  split; [|split; [|split; [|split; [|split]]]].
  - destruct Hfilled as [Hback _]; [vm_compute; reflexivity ..|].
    rewrite Hback. vm_compute. reflexivity.
  - destruct Hempty as [_ Hfront]; [vm_compute; reflexivity ..|].
    rewrite Hfront. vm_compute. reflexivity.
  - destruct Hbehind1 as [Hback _]; [vm_compute; reflexivity|].
    rewrite Hback. vm_compute. reflexivity.
  - destruct Hbehind2 as [_ Hfront]; [vm_compute; reflexivity|].
    rewrite Hfront. vm_compute. reflexivity.
  - rewrite Htile; [vm_compute; reflexivity|].
    vm_compute. discriminate.
  - apply Habove. vm_compute. reflexivity.
Defined.

(** ** Concrete runs *)

(** The pointer at (400, 300) on a 640 x 480 display, camera at the origin:
    the screen offset is (320, 240) and the tile under the pointer is
    (2, 0, 0). *)
Example pointer_move_run :
  getScreenOffset (hdr := SpecHeader.header) Sample.battle = V2.mk 320 240
  /\ selectedTilePosition
       (fst (eventOccurred (hdr := SpecHeader.header)
               (EVENT_MOUSE_MOVE 400 300) Sample.battle Sample.fw))
     = V3.mk 2 0 0.
Proof. vm_compute. split; reflexivity. Qed.

(** The corner of the battle on z level 3, drawing only that level: the
    objects of z = 2, layer 0 row by row, then the soldier on layer 1, all
    one level below the current one. *)
Example only_current_level_run :
  let view :=
    setLayerDrawingMode OnlyCurrentLevel
      (fst (setZLevel (hdr := SpecHeader.header) 3 Sample.corner Sample.fw)) in
  List.map
    (fun c =>
       match c with
       | RDrawObject obj _ _ currentLevel => (objId obj, currentLevel)
       | _ => (0, 0)
       end)
    (objectDraws
       (rendered (snd (render (hdr := SpecHeader.header) view Sample.fw))))
  = [(300, -1); (400, -1); (301, -1); (401, -1);
     (310, -1); (410, -1); (311, -1); (411, -1); (1, -1)].
Proof. vm_compute. reflexivity. Qed.

(** A finger drag by (-64, -32) pixels in isometric view moves the camera
    from the origin to (4, 0, 0). *)
Example finger_drag_run :
  centerPos
    (fst (eventOccurred (hdr := SpecHeader.header)
            (EVENT_FINGER_MOVE true (F32.of_int (-64)) (F32.of_int (-32)))
            Sample.battle Sample.fw))
  = V3.mk (F32.of_int 4) F32.zero F32.zero.
Proof. vm_compute. reflexivity. Qed.

(** The 100 x 100 battle with the camera at (50, 50, 1): the four corners
    of the display give the columns 36 to 62 and the rows 36 to 63, and
    the frame draws the floor and the wall of those tiles of level 0, row
    by row, and of no other tile. *)
Example visible_rectangle_run :
  let view := fst (render (hdr := SpecHeader.header) Sample.wide Sample.fw) in
  renderBounds (hdr := SpecHeader.header) view = (36, 63, 36, 64)
  /\ List.map
       (fun c =>
          match c with
          | RDrawObject obj _ _ _ => objId obj
          | _ => 0
          end)
       (objectDraws
          (rendered
             (snd (render (hdr := SpecHeader.header) Sample.wide Sample.fw))))
     = flat_map
         (fun y =>
            flat_map (fun x => [100 + (x + 10 * y); 200 + (x + 10 * y)])
              (zrange 36 63))
         (zrange 36 64).
Proof. vm_compute. split; reflexivity. Qed.

(** Each of the 500 tiles of the sample map comes back unchanged from the
    screen, in both view modes, with tiles of 32 x 16 x 8 and 4 x 4
    pixels. *)
Example round_trip_run :
  let tiles := tileCoords (size Sample.map) in
  List.map
    (fun t => roundTrip (hdr := SpecHeader.header) Sample.battle t Isometric)
    tiles
  = tiles
  /\ List.map
       (fun t => roundTrip (hdr := SpecHeader.header) Sample.battle t Strategy)
       tiles
     = tiles.
Proof. vm_compute. split; reflexivity. Qed.

(** With tiles of no extent the tiles (1, 1, 0) and (2, 2, 0) fall on the
    same point of the screen, in both view modes, and the way back divides
    by zero: neither comes back. *)
Example round_trip_flat_run :
  let t1 := V3.mk (F32.of_int 1) (F32.of_int 1) F32.zero in
  let t2 := V3.mk (F32.of_int 2) (F32.of_int 2) F32.zero in
  (forall v,
     tileToScreenCoordsIn (TileViewHeader := SpecHeader.header) Sample.flat t1 v
     = tileToScreenCoordsIn (TileViewHeader := SpecHeader.header)
         Sample.flat t2 v)
  /\ roundTrip (hdr := SpecHeader.header) Sample.flat t1 Isometric
     = V3.mk S754_nan S754_nan F32.zero
  /\ roundTrip (hdr := SpecHeader.header) Sample.flat t1 Strategy
     = V3.mk S754_nan S754_nan F32.zero.
Proof.
  cbn zeta. split; [|vm_compute; split; reflexivity].
  intros [| |raw]; vm_compute; reflexivity.
Qed.

(** ** The calls of one frame *)

Section Frame.

Context {hdr : TileViewHeader}.

Lemma renderStrategyBox_calls (this : TileView) (fw : Framework) :
  renderStrategyBox this fw = add_calls (strategyBoxCalls this) fw.
Proof.
  unfold strategyBoxCalls, renderStrategyBox.
  destruct (viewMode this); cbn [rendered].
  - now rewrite add_calls_nil.
  - rewrite !rcall_add_calls, !add_calls_app. reflexivity.
  - now rewrite add_calls_nil.
Qed.

Lemma frame_rect (view : TileView) :
  renderBounds view
  = (frameMinX view, frameMaxX view, frameMinY view, frameMaxY view).
Proof.
  unfold frameMinX, frameMaxX, frameMinY, frameMaxY.
  now destruct (renderBounds view) as [[[a b] c] d].
Qed.

(** The renderer's calls after [render]: those it had, then [clear],
    [setPalette], the levels in turn, and the strategy box. *)
Lemma render_rendered (this : TileView) (fw : Framework) :
  let view := fst (render this fw) in
  rendered (snd (render this fw))
  = rendered fw
    ++ RClear :: RSetPalette (pal this)
       :: flat_map
            (levelCalls view (frameMinX view) (frameMaxX view)
               (frameMinY view) (frameMaxY view))
            (frameLevels view)
       ++ strategyBoxCalls view.
Proof.
  cbn zeta.
  pose proof (render_framework this fw) as Hfw. cbn zeta in Hfw.
  unfold frameLevels. rewrite frame_rect in Hfw.
  destruct (renderZRange (fst (render this fw))) as [zFrom zTo].
  rewrite Hfw, renderStrategyBox_calls.
  cbn [add_calls rendered setScreenCenterTile snd setListenerPosition fst].
  rewrite renderScroll_rendered. cbn [rcall rendered].
  rewrite <- !app_assoc. reflexivity.
Qed.

Lemma frameCalls_spec (this : TileView) (fw : Framework) :
  rendered (snd (render this fw)) = rendered fw ++ frameCalls this fw.
Proof.
  unfold frameCalls. rewrite render_rendered.
  now rewrite skipn_app, skipn_all, Nat.sub_diag.
Qed.

Lemma frameCalls_view (this : TileView) (fw : Framework) :
  let view := fst (render this fw) in
  frameCalls this fw
  = RClear :: RSetPalette (pal this)
    :: flat_map
         (levelCalls view (frameMinX view) (frameMaxX view)
            (frameMinY view) (frameMaxY view))
         (frameLevels view)
    ++ strategyBoxCalls view.
Proof.
  cbn zeta. unfold frameCalls. rewrite render_rendered.
  now rewrite skipn_app, skipn_all, Nat.sub_diag.
Qed.

End Frame.

(** ** What call sequences keep *)

Section Runs.

Context {hdr : TileViewHeader}.

(** A view that differs from one satisfying the invariant in none of the
    members the invariant reads satisfies it too. *)
Lemma view_invariant_frame (m : TileMap) (this this' : TileView) :
  view_invariant m this ->
  map this' = map this ->
  centerPos this' = centerPos this ->
  selectedTilePosition this' = selectedTilePosition this ->
  isoScrollSpeed this' = isoScrollSpeed this ->
  stratScrollSpeed this' = stratScrollSpeed this ->
  maxZDraw this' = maxZDraw this ->
  view_invariant m this'.
Proof.
  intros (Hm & Hc & Hs & Hf & Hd) E1 E2 E3 E4 E5 E6.
  unfold view_invariant, center_in_bounds, selected_in_bounds,
    scroll_speeds_finite, maxZDraw_is_depth in *.
  rewrite E1, E2, E3, E4, E5, E6. auto.
Qed.

Lemma view_invariant_center (m : TileMap) (center : Vec3 float)
    (this : TileView) (fw : Framework) :
  map_sizes_nonneg m -> view_invariant m this -> no_nan center ->
  view_invariant m (fst (setScreenCenterTile center this fw)).
Proof.
  intros Hmap (Hm & Hc & Hs & Hf & Hd) Hn. subst m.
  split; [reflexivity|]. split; [|split; [exact Hs|split; [exact Hf|exact Hd]]].
  apply setScreenCenterTile_bounds; trivial.
  now apply setScreenCenterTile_no_nan.
Qed.

Lemma view_invariant_selected (m : TileMap) (p : Vec3 Z) (this : TileView) :
  map_nonempty m -> view_invariant m this ->
  view_invariant m (setSelectedTilePosition p this).
Proof.
  intros Hmap (Hm & Hc & Hs & Hf & Hd). subst m.
  rewrite setSelectedTilePosition_view.
  split; [reflexivity|]. split; [exact Hc|]. split; [|split; [exact Hf|exact Hd]].
  now apply clampToMap_in_bounds.
Qed.

Lemma map_nonempty_nonneg (m : TileMap) : map_nonempty m -> map_sizes_nonneg m.
Proof. unfold map_nonempty, map_sizes_nonneg. lia. Qed.

Lemma view_invariant_event (m : TileMap) (e : Event) (this : TileView)
    (fw : Framework) :
  map_nonempty m -> numeric (AEvent e) -> view_invariant m this ->
  view_invariant m (fst (eventOccurred e this fw)).
Proof.
  intros Hmap Hnum Hinv.
  destruct e as [k|k|X Y|prim dx dy|ty]; cbn [eventOccurred].
  - pose proof Hinv as (Hm & Hc & Hs & Hf & Hd).
    pose proof (key_down_keeps_selection k this fw Hs) as Hs'.
    split; [|split; [|split; [exact Hs'|split]]];
      destruct k; cbn [eventOccurred fst]; trivial;
      match goal with
      | |- context [if ?c then _ else _] => destruct c
      end; trivial.
  - destruct k; cbn [fst]; trivial;
      (eapply view_invariant_frame; [exact Hinv|reflexivity ..]).
  - cbn [fst]. now apply view_invariant_selected.
  - destruct prim; [destruct Hnum|exact Hinv].
  - exact Hinv.
Qed.

Lemma view_invariant_perform (m : TileMap) (a : Action)
    (s : TileView * Framework) :
  map_nonempty m -> numeric a -> view_invariant m (fst s) ->
  view_invariant m (fst (perform a s)).
Proof.
  intros Hmap Hnum Hinv. destruct s as [this fw]. cbn [fst snd] in *.
  pose proof (map_nonempty_nonneg m Hmap) as Hnn.
  pose proof Hinv as (Hm & Hc & Hs & Hf & Hd).
  pose proof (center_in_bounds_no_nan this Hc) as (Nx & Ny & Nz).
  destruct a as [e| |zLevel|lm|vm|center|center|p]; cbn [perform fst snd].
  - now apply view_invariant_event.
  - rewrite render_view. apply view_invariant_center; trivial.
    apply renderScroll_no_nan; trivial. now repeat split.
  - unfold setZLevel. apply view_invariant_center; trivial.
    repeat split; cbn; trivial. apply F32Facts.of_int_not_nan.
  - unfold setLayerDrawingMode. destruct (mode this); exact Hinv.
  - exact Hinv.
  - now apply view_invariant_center.
  - unfold setScreenCenterTile2. apply view_invariant_center; trivial.
    destruct Hnum as [Hx Hy]. repeat split; cbn; trivial.
    apply F32Facts.of_int_not_nan.
  - now apply view_invariant_selected.
Qed.

Lemma view_invariant_new (m : TileMap) (iso : Vec3 Z) (strat : Vec2 Z)
    (v : TileViewMode) (md : Mode) (ind : LayerDrawingMode)
    (fw : Framework) :
  map_nonempty m ->
  view_invariant m (fst (TileView_new m iso strat v md ind fw)).
Proof.
  intros Hmap.
  destruct (TileView_new_center_in_bounds m iso strat v md ind fw
              (map_nonempty_nonneg m Hmap)) as [Hc Hf].
  split; [destruct md; reflexivity|]. split; [exact Hc|].
  split; [|split; [exact Hf|apply TileView_new_depth]].
  destruct Hmap as (Hx & Hy & Hz).
  unfold selected_in_bounds. destruct md; cbn; lia.
Qed.

(** X1: a view constructed over a map with at least one tile, and then
    driven by any sequence of events, render ticks and setter calls that
    feeds no NaN to the camera (primary finger drags are left out), always
    has its camera center within [0, mapSize], its selected tile within
    [0, mapSize - 1], finite scroll speeds, the map it was given and
    [maxZDraw] equal to the map's depth. *)
Theorem view_invariant_along_runs (m : TileMap) (iso : Vec3 Z)
    (strat : Vec2 Z) (v : TileViewMode) (md : Mode) (ind : LayerDrawingMode)
    (fw : Framework) (l : list Action) :
  map_nonempty m -> Forall numeric l ->
  view_invariant m (fst (run l (TileView_new m iso strat v md ind fw))).
Proof.
  intros Hmap Hl.
  pose proof (view_invariant_new m iso strat v md ind fw Hmap) as Hinv.
  revert Hinv. generalize (TileView_new m iso strat v md ind fw).
  induction Hl as [|a l Ha Hl IH]; intros s Hinv; [exact Hinv|].
  cbn [run fold_left]. apply IH. now apply view_invariant_perform.
Qed.

Lemma z_level_perform (a : Action) (s : TileView * Framework) :
  clamp_within -> 1 <= maxZDraw (fst s) ->
  z_level_in_range (fst s) ->
  z_level_in_range (fst (perform a s))
  /\ maxZDraw (fst (perform a s)) = maxZDraw (fst s).
Proof.
  intros Hclamp Hmax Hz. destruct s as [this fw]. cbn [fst snd] in *.
  unfold z_level_in_range in *.
  destruct a as [e| |zLevel|lm|vm|center|center|p]; cbn [perform fst snd].
  - destruct e as [k|k|X Y|prim dx dy|ty]; cbn [eventOccurred].
    + destruct k; cbn [fst]; auto;
        match goal with
        | |- context [if ?c then _ else _] => destruct c
        end; auto.
    + destruct k; cbn [fst]; auto.
    + auto.
    + destruct prim; auto.
    + auto.
  - rewrite render_view. auto.
  - unfold setZLevel. cbn. split; [|reflexivity].
    now apply Hclamp.
  - unfold setLayerDrawingMode. destruct (mode this); auto.
  - auto.
  - auto.
  - auto.
  - auto.
Qed.

(** X2: when the header's [clamp] returns a value between its bounds, a
    view constructed over a map at least one level deep keeps its z level
    within [1, maxZDraw] under every sequence of calls, whatever they are
    given. *)
Theorem z_level_in_range_along_runs (m : TileMap) (iso : Vec3 Z)
    (strat : Vec2 Z) (v : TileViewMode) (md : Mode) (ind : LayerDrawingMode)
    (fw : Framework) (l : list Action) :
  clamp_within -> 1 <= V3.z (size m) ->
  let view := fst (run l (TileView_new m iso strat v md ind fw)) in
  1 <= getZLevel view <= maxZDraw view /\ maxZDraw view = V3.z (size m).
Proof.
  intros Hclamp Hdepth. cbn zeta. unfold getZLevel.
  assert (H0 : z_level_in_range (fst (TileView_new m iso strat v md ind fw))
               /\ maxZDraw (fst (TileView_new m iso strat v md ind fw))
                  = V3.z (size m)).
  { unfold z_level_in_range. destruct md; cbn; lia. }
  revert H0. generalize (TileView_new m iso strat v md ind fw).
  induction l as [|a l IH]; intros s [Hz Hm]; [exact (conj Hz Hm)|].
  cbn [run fold_left]. apply IH.
  destruct (z_level_perform a s Hclamp) as [Hz' Hm']; trivial; [lia|].
  split; [exact Hz'|congruence].
Qed.

End Runs.

Lemma view_invariant_along_runs_witness :
  view_invariant Sample.map
    (fst (run (hdr := SpecHeader.header)
            [AEvent (EVENT_KEY_DOWN SDLK_LEFT); ARender; ASetZLevel 9;
             AEvent (EVENT_MOUSE_MOVE 5000 (-5000)); ASetViewMode Strategy;
             ARender;
             ASetScreenCenterTile
               (V3.mk (F32.of_int 99) (F32.of_int (-3)) (F32.of_int 2))]
            (TileView_new Sample.map (V3.mk 32 16 8) (V2.mk 4 4) Isometric
               Battle AllLevels Sample.fw))).
Proof.
  apply (view_invariant_along_runs (hdr := SpecHeader.header)).
  - vm_compute. repeat split; discriminate.
  - repeat constructor; vm_compute; trivial.
Defined.

Lemma z_level_in_range_along_runs_witness :
  let view :=
    fst (run (hdr := SpecHeader.header)
           [ASetZLevel 9; ARender; ASetZLevel (-2); ASetZLevel 3]
           (TileView_new Sample.map (V3.mk 32 16 8) (V2.mk 4 4) Isometric
              Battle AllLevels Sample.fw)) in
  1 <= getZLevel view <= maxZDraw view /\ maxZDraw view = 5.
Proof.
  apply (z_level_in_range_along_runs (hdr := SpecHeader.header) Sample.map).
  - intros v lo hi Hle. apply SpecHeader_clamp_range. exact Hle.
  - vm_compute. discriminate.
Defined.

(** ** What a frame draws *)

Section FrameDraws.

Context {hdr : TileViewHeader}.

Lemma in_zrange (lo hi z : Z) : In z (zrange lo hi) <-> lo <= z < hi.
Proof.
  unfold zrange. rewrite in_map_iff. split.
  - intros (k & <- & Hk). apply in_seq in Hk. lia.
  - intros Hz. exists (Z.to_nat (z - lo)). split; [lia|].
    apply in_seq. lia.
Qed.

Lemma render_keeps_members (this : TileView) (fw : Framework) :
  let view := fst (render this fw) in
  map view = map this /\ viewMode view = viewMode this
  /\ mode view = mode this /\ currentZLevel view = currentZLevel this
  /\ maxZDraw view = maxZDraw this
  /\ layerDrawingMode view = layerDrawingMode this
  /\ selectedTilePosition view = selectedTilePosition this
  /\ pal view = pal this.
Proof. cbn zeta. rewrite render_view. repeat split. Qed.

Lemma frameLevels_render (this : TileView) (fw : Framework) :
  frameLevels (fst (render this fw)) = frameLevels this.
Proof. rewrite render_view. reflexivity. Qed.

Lemma in_frameLevels (this : TileView) (z : Z) :
  In z (frameLevels this) ->
  match layerDrawingMode this with
  | UpToCurrentLevel => 0 <= z < currentZLevel this
  | OnlyCurrentLevel => z = currentZLevel this - 1
  | _ => 0 <= z < maxZDraw this
  end.
Proof.
  unfold frameLevels, renderZRange. intros Hz.
  destruct (layerDrawingMode this); cbn [fst snd] in Hz;
    apply in_zrange in Hz; lia.
Qed.

Lemma filter_flat_map_nil {A B : Type} (p : B -> bool) (f : A -> list B)
    (l : list A) :
  (forall a, filter p (f a) = []) -> filter p (flat_map f l) = [].
Proof.
  intros Hf. rewrite filter_flat_map.
  induction l as [|a l IH]; [reflexivity|].
  cbn [flat_map]. now rewrite Hf, IH.
Qed.

Lemma flat_map_nil_on {A B : Type} (f : A -> list B) (l : list A) :
  (forall a, In a l -> f a = []) -> flat_map f l = [].
Proof.
  induction l as [|a l IH]; [reflexivity|]. intros Hf.
  cbn [flat_map]. rewrite (Hf a) by now left.
  apply IH. intros b Hb. apply Hf. now right.
Qed.

Lemma filter_objectCalls_nil (p : RenderCall -> bool) (this : TileView)
    (currentLevel : Z) (objects : list TileObject) :
  (forall obj pos v l, p (RDrawObject obj pos v l) = false) ->
  filter p (List.map (objectCall this currentLevel) objects) = [].
Proof.
  intros Hp. induction objects as [|o l IH]; [reflexivity|].
  cbn [List.map filter]. unfold objectCall at 1. now rewrite Hp.
Qed.

(** Inside the loops only objects and selection images are drawn. *)
Lemma filter_levelCalls_nil (p : RenderCall -> bool) (this : TileView)
    (minX maxX minY maxY z : Z) :
  (forall obj pos v l, p (RDrawObject obj pos v l) = false) ->
  (forall img pos, p (RDrawImage img pos) = false) ->
  filter p (levelCalls this minX maxX minY maxY z) = [].
Proof.
  intros Hobj Himg. unfold levelCalls.
  apply filter_flat_map_nil. intros layer.
  apply filter_flat_map_nil. intros y.
  apply filter_flat_map_nil. intros x.
  unfold tileCalls, selectionCall, objectCall.
  destruct (isSelTile _ x y z && (layer =? 0)).
  - rewrite !filter_app.
    assert (Hflat :
              forall objects : list TileObject,
                filter p
                  (flat_map
                     (fun obj =>
                        (if isDrawBackBeforeThis
                              (renderSelection this minX maxX minY maxY z) obj
                         then [RDrawImage
                                 (selectionImageBack
                                    (renderSelection this minX maxX minY maxY z))
                                 (vec2_to_float
                                    (vec2_sub_i
                                       (tileToOffsetScreenCoordsInt this
                                          (selTilePosOnCurLevel
                                             (renderSelection this minX maxX
                                                minY maxY z)))
                                       (selectedTileImageOffset this)))]
                         else [])
                        ++ [RDrawObject obj
                              (tileToOffsetScreenCoords this (getPosition obj))
                              (viewMode this) (z - currentZLevel this)])
                     objects) = []).
    { intros objects. apply filter_flat_map_nil. intros o.
      rewrite filter_app. cbn [filter]. rewrite Hobj.
      destruct (isDrawBackBeforeThis _ o); cbn [filter];
        now rewrite ?Himg. }
    rewrite Hflat.
    destruct (drawBackBeforeThis _); cbn [filter app]; now rewrite ?Himg.
  - now apply (filter_objectCalls_nil p this).
Qed.

Lemma strategyBoxCalls_lines (this : TileView) :
  filter isLineDraw (strategyBoxCalls this) = strategyBoxCalls this
  /\ filter isObjectDraw (strategyBoxCalls this) = []
  /\ filter isImageDraw (strategyBoxCalls this) = []
  /\ filter isFrameSetup (strategyBoxCalls this) = [].
Proof.
  unfold strategyBoxCalls, renderStrategyBox.
  destruct (viewMode this); repeat split.
Qed.

(** Where each object draw of a frame comes from. *)
Lemma frame_object_draw_origin (this : TileView) (fw : Framework)
    (c : RenderCall) :
  let view := fst (render this fw) in
  In c (objectDraws (frameCalls this fw)) ->
  exists x y z layer obj,
    c = RDrawObject obj (tileToOffsetScreenCoords view (getPosition obj))
          (viewMode this) (z - currentZLevel this)
    /\ In z (frameLevels this)
    /\ 0 <= layer < getLayerCount (map this)
    /\ frameMinY view <= y < frameMaxY view
    /\ frameMinX view <= x < frameMaxX view
    /\ In obj (nth (Z.to_nat layer)
                 (drawnObjects (getTile (map this) x y z)) []).
Proof.
  cbn zeta. rewrite frameCalls_view. cbn zeta.
  destruct (render_keeps_members this fw)
    as (Hmap & Hvm & _ & Hcz & _ & _ & _ & _). cbn zeta in *.
  rewrite frameLevels_render.
  set (view := fst (render this fw)) in *.
  unfold objectDraws. cbn [filter isObjectDraw].
  rewrite filter_app.
  rewrite (proj1 (proj2 (strategyBoxCalls_lines view))), app_nil_r.
  rewrite filter_flat_map. intros Hin.
  apply in_flat_map in Hin. destruct Hin as (z & Hz & Hin).
  fold (objectDraws (levelCalls view (frameMinX view) (frameMaxX view)
                       (frameMinY view) (frameMaxY view) z)) in Hin.
  rewrite objectDraws_levelCalls in Hin.
  apply in_flat_map in Hin. destruct Hin as (layer & Hl & Hin).
  apply in_flat_map in Hin. destruct Hin as (y & Hy & Hin).
  apply in_flat_map in Hin. destruct Hin as (x & Hx & Hin).
  apply in_map_iff in Hin. destruct Hin as (obj & <- & Hobj).
  apply in_zrange in Hl, Hy, Hx.
  exists x, y, z, layer, obj. unfold objectCall.
  rewrite Hmap, Hvm, Hcz in *. auto 10.
Qed.

(** X3: every object a frame draws is listed, on a layer the map has, by a
    tile inside the map: x and y lie within the map because the visible
    rectangle is clamped to it, and z does when the z level is within
    [1, maxZDraw] and [maxZDraw] is the map's depth. *)
Theorem render_draws_map_tiles_only (this : TileView) (fw : Framework)
    (c : RenderCall) :
  maxZDraw_is_depth this -> z_level_in_range this ->
  In c (objectDraws (frameCalls this fw)) ->
  exists x y z layer obj pos relativeLevel,
    c = RDrawObject obj pos (viewMode this) relativeLevel
    /\ 0 <= x < V3.x (size (map this))
    /\ 0 <= y < V3.y (size (map this))
    /\ 0 <= z < V3.z (size (map this))
    /\ 0 <= layer < getLayerCount (map this)
    /\ In obj (nth (Z.to_nat layer)
                 (drawnObjects (getTile (map this) x y z)) []).
Proof.
  intros Hd Hz Hin.
  destruct (frame_object_draw_origin this fw c Hin)
    as (x & y & z & layer & obj & -> & Hlev & Hlayer & Hy & Hx & Hobj).
  exists x, y, z, layer, obj. do 2 eexists. split; [reflexivity|].
  pose proof (renderBounds_clamped (fst (render this fw))) as Hb.
  rewrite frame_rect in Hb.
  destruct (render_keeps_members this fw)
    as (Hmap & _ & _ & _ & _ & _ & _ & _). cbn zeta in Hmap.
  rewrite Hmap in Hb.
  apply in_frameLevels in Hlev.
  unfold maxZDraw_is_depth, z_level_in_range in *.
  repeat split; trivial; try lia;
    destruct (layerDrawingMode this); lia.
Qed.

(** X4: the relative level handed to [draw] is the drawn level minus the
    current z level; when drawing up to the current level it is negative
    and not below [- currentZLevel], and when drawing only the current
    level it is always -1. *)
Theorem relative_level_below_current (this : TileView) (fw : Framework)
    (obj : TileObject) (pos : Vec2 float) (v : TileViewMode)
    (relativeLevel : Z) :
  In (RDrawObject obj pos v relativeLevel) (frameCalls this fw) ->
  (layerDrawingMode this = UpToCurrentLevel ->
   - currentZLevel this <= relativeLevel < 0)
  /\ (layerDrawingMode this = OnlyCurrentLevel -> relativeLevel = -1)
  /\ (layerDrawingMode this = AllLevels ->
      - currentZLevel this <= relativeLevel
                           < maxZDraw this - currentZLevel this).
Proof.
  intros Hin.
  assert (Hin' : In (RDrawObject obj pos v relativeLevel)
                    (objectDraws (frameCalls this fw))).
  { unfold objectDraws. apply filter_In. split; [exact Hin|reflexivity]. }
  destruct (frame_object_draw_origin this fw _ Hin')
    as (x & y & z & layer & obj' & Heq & Hlev & _).
  injection Heq as _ _ _ ->.
  apply in_frameLevels in Hlev.
  split; [|split]; intros Hm; rewrite Hm in Hlev; lia.
Qed.

(** Without the battle-isometric guard a level draws objects only. *)
Lemma level_without_bracket (view : TileView) (minX maxX minY maxY z : Z) :
  mode view <> Battle \/ viewMode view <> Isometric ->
  filter isImageDraw (levelCalls view minX maxX minY maxY z) = [].
Proof.
  intros Hguard.
  assert (Hnone : renderSelection view minX maxX minY maxY z
                  = mkSelectionBracket None (V3.mk 0 0 0) None None None).
  { unfold renderSelection.
    destruct (mode view), (viewMode view); trivial.
    destruct Hguard as [H|H]; now destruct H. }
  unfold levelCalls. rewrite Hnone.
  apply filter_flat_map_nil. intros layer.
  apply filter_flat_map_nil. intros y.
  apply filter_flat_map_nil. intros x.
  unfold tileCalls, isSelTile. cbn [selTileOnCurLevel andb].
  now apply filter_objectCalls_nil.
Qed.

(** The images of a frame are those of its levels. *)
Lemma frame_images (this : TileView) (fw : Framework) :
  let view := fst (render this fw) in
  filter isImageDraw (frameCalls this fw)
  = flat_map
      (fun z =>
         filter isImageDraw
           (levelCalls view (frameMinX view) (frameMaxX view)
              (frameMinY view) (frameMaxY view) z))
      (frameLevels view).
Proof.
  cbn zeta. rewrite frameCalls_view. cbn zeta.
  cbn [filter isImageDraw]. rewrite filter_app.
  rewrite (proj1 (proj2 (proj2 (strategyBoxCalls_lines _)))), app_nil_r.
  apply filter_flat_map.
Qed.

(** X5: outside a battle drawn in isometric view the frame contains no
    image draw at all: no selection bracket is ever shown in the city or in
    strategy view. *)
Theorem no_bracket_outside_battle_isometric (this : TileView)
    (fw : Framework) :
  mode this <> Battle \/ viewMode this <> Isometric ->
  filter isImageDraw (frameCalls this fw) = [].
Proof.
  intros Hguard. rewrite frame_images. cbn zeta.
  destruct (render_keeps_members this fw) as (_ & Hvm & Hmd & _).
  cbn zeta in Hvm, Hmd.
  apply flat_map_nil_on. intros z _.
  apply level_without_bracket. now rewrite Hmd, Hvm.
Qed.

(** X6: a frame draws lines only in strategy view, and then exactly four,
    as its last calls: with the view's box colour and thickness they join
    four points into a closed outline, each line starting where the one
    before it ended. *)
Theorem strategy_box_closes (this : TileView) (fw : Framework) :
  (viewMode this <> Strategy -> filter isLineDraw (frameCalls this fw) = [])
  /\ (viewMode this = Strategy ->
      exists before p1 p2 p3 p4,
        let line a b :=
          RDrawLine a b (strategyViewBoxColour this)
            (strategyViewBoxThickness this) in
        frameCalls this fw
        = before ++ [line p1 p2; line p2 p3; line p3 p4; line p4 p1]
        /\ filter isLineDraw before = []).
Proof.
  rewrite frameCalls_view. cbn zeta.
  destruct (render_keeps_members this fw) as (_ & Hvm & _). cbn zeta in *.
  assert (Hcol : strategyViewBoxColour (fst (render this fw))
                 = strategyViewBoxColour this
                 /\ strategyViewBoxThickness (fst (render this fw))
                    = strategyViewBoxThickness this).
  { rewrite render_view. split; reflexivity. }
  destruct Hcol as [Hcol Hth].
  set (view := fst (render this fw)) in *.
  assert (Hlevels :
            filter isLineDraw
              (flat_map
                 (levelCalls view (frameMinX view) (frameMaxX view)
                    (frameMinY view) (frameMaxY view))
                 (frameLevels view)) = []).
  { apply filter_flat_map_nil. intros z.
    now apply filter_levelCalls_nil. }
  split.
  - intros Hv. cbn [filter isLineDraw]. rewrite filter_app, Hlevels.
    unfold strategyBoxCalls, renderStrategyBox. rewrite Hvm.
    destruct (viewMode this); trivial. now destruct Hv.
  - intros Hv. unfold strategyBoxCalls at 1, renderStrategyBox.
    rewrite Hvm, Hv, Hcol, Hth. cbn [rendered rcall app].
    eexists (RClear :: RSetPalette (pal this) :: flat_map _ _).
    do 4 eexists. cbn zeta. split; [reflexivity|].
    cbn [filter isLineDraw]. exact Hlevels.
Qed.

(** X7: every frame begins by clearing the renderer and giving it the
    view's palette, and does neither again before it ends. *)
Theorem frame_starts_with_clear_and_palette (this : TileView)
    (fw : Framework) :
  exists rest,
    frameCalls this fw = RClear :: RSetPalette (pal this) :: rest
    /\ filter isFrameSetup rest = [].
Proof.
  rewrite frameCalls_view. cbn zeta. eexists. split; [reflexivity|].
  set (view := fst (render this fw)).
  rewrite filter_app.
  rewrite (proj2 (proj2 (proj2 (strategyBoxCalls_lines view)))), app_nil_r.
  apply filter_flat_map_nil. intros z.
  now apply filter_levelCalls_nil.
Qed.

End FrameDraws.

(** ** The selection bracket around a tile's objects *)

Section BracketOrder.

Context {hdr : TileViewHeader}.

Lemma firstNonGround_found (l : list TileObject) (obj : TileObject) :
  fold_left
    (fun (acc : option TileObject) (obj : TileObject) =>
       match acc with
       | None =>
           if negb (TileObjectType_eqb (getType obj) Ground)
           then Some obj else None
       | Some _ => acc
       end) l (Some obj) = Some obj.
Proof. induction l as [|o l IH]; [reflexivity|exact IH]. Qed.

Lemma firstNonGround_afterGround (l : list TileObject) :
  fold_left
    (fun (acc : option TileObject) (obj : TileObject) =>
       match acc with
       | None =>
           if negb (TileObjectType_eqb (getType obj) Ground)
           then Some obj else None
       | Some _ => acc
       end) l None = hd_error (afterGround l).
Proof.
  induction l as [|o l IH]; [reflexivity|].
  cbn [fold_left afterGround]. unfold isGround.
  destruct (TileObjectType_eqb (getType o) Ground); cbn [negb].
  - exact IH.
  - apply firstNonGround_found.
Qed.

(** The bracket of a level at or below a visible selected tile. *)
Lemma renderSelection_visible (this : TileView) (minX maxX minY maxY z : Z) :
  mode this = Battle -> viewMode this = Isometric ->
  minX <= V3.x (selectedTilePosition this) < maxX ->
  minY <= V3.y (selectedTilePosition this) < maxY ->
  z <= V3.z (selectedTilePosition this) ->
  let sel := selectedTilePosition this in
  let b := renderSelection this minX maxX minY maxY z in
  selTileOnCurLevel b = Some (V3.mk (V3.x sel) (V3.y sel) z)
  /\ selTilePosOnCurLevel b = V3.mk (V3.x sel) (V3.y sel) z
  /\ drawBackBeforeThis b
     = hd_error
         (afterGround
            (nth 0 (drawnObjects (getTile (map this) (V3.x sel) (V3.y sel) z))
               [])).
Proof.
  intros Hm Hv Hx Hy Hz. cbn zeta. unfold renderSelection. rewrite Hm, Hv.
  cbn [V3.x V3.y V3.z].
  replace (V3.z (selectedTilePosition this) >=? z) with true by lia.
  replace (V3.x (selectedTilePosition this) >=? minX) with true by lia.
  replace (V3.x (selectedTilePosition this) <? maxX) with true by lia.
  replace (V3.y (selectedTilePosition this) >=? minY) with true by lia.
  replace (V3.y (selectedTilePosition this) <? maxY) with true by lia.
  cbn [andb]. rewrite firstNonGround_afterGround.
  destruct (V3.z (selectedTilePosition this) =? z);
    [destruct (fold_left _ _ false)|]; repeat split.
Qed.

Lemma renderSelection_above (this : TileView) (minX maxX minY maxY z : Z) :
  V3.z (selectedTilePosition this) < z ->
  selTileOnCurLevel (renderSelection this minX maxX minY maxY z) = None.
Proof.
  intros Hz. unfold renderSelection.
  destruct (mode this), (viewMode this); trivial.
  replace (V3.z (selectedTilePosition this) >=? z) with false by lia.
  reflexivity.
Qed.

(** Objects other than the one the back image waits for are drawn alone. *)
Lemma bracket_other_objects (back : RenderCall) (draw : TileObject -> RenderCall)
    (first : TileObject) (l : list TileObject) :
  ~ In (objId first) (List.map objId l) ->
  flat_map
    (fun obj => (if objId obj =? objId first then [back] else []) ++ [draw obj])
    l
  = List.map draw l.
Proof.
  induction l as [|o l IH]; [reflexivity|].
  cbn [List.map In flat_map]. intros Hnot.
  rewrite IH by tauto.
  replace (objId o =? objId first) with false by lia.
  reflexivity.
Qed.

(** The back image goes between the ground objects and the rest. *)
Lemma bracket_back_position (back : RenderCall)
    (draw : TileObject -> RenderCall) (l : list TileObject) :
  NoDup (List.map objId l) ->
  flat_map
    (fun obj =>
       (if match hd_error (afterGround l) with
           | Some first => objId obj =? objId first
           | None => false
           end
        then [back] else []) ++ [draw obj])
    l
  ++ match hd_error (afterGround l) with
     | Some _ => []
     | None => [back]
     end
  = List.map draw (groundPrefix l) ++ back :: List.map draw (afterGround l).
Proof.
  induction l as [|o l IH]; [reflexivity|].
  cbn [List.map]. intros Hnd. inversion Hnd as [|? ? Hnot Hnd']; subst.
  cbn [groundPrefix afterGround].
  destruct (isGround o) eqn:Hg.
  - cbn [flat_map List.map]. specialize (IH Hnd').
    destruct (hd_error (afterGround l)) as [first|] eqn:Hfirst.
    + assert (Hin : In (objId first) (List.map objId l)).
      { apply in_map. clear - Hfirst.
        induction l as [|a l IHl]; [discriminate|].
        cbn [afterGround] in Hfirst.
        destruct (isGround a).
        - right. now apply IHl.
        - left. cbn in Hfirst. congruence. }
      replace (objId o =? objId first) with false
        by (symmetry; apply Z.eqb_neq; intros E; rewrite E in Hnot; tauto).
      cbn [app]. f_equal. exact IH.
    + cbn [app]. f_equal. exact IH.
  - cbn [hd_error flat_map List.map app].
    rewrite Z.eqb_refl. cbn [app].
    rewrite (bracket_other_objects back draw o l Hnot), app_nil_r.
    reflexivity.
Qed.

(** The calls of the selected tile's layer 0. *)
Lemma tileCalls_selected (this : TileView) (minX maxX minY maxY z : Z) :
  let sel := selectedTilePosition this in
  let b := renderSelection this minX maxX minY maxY z in
  let objects :=
    nth 0 (drawnObjects (getTile (map this) (V3.x sel) (V3.y sel) z)) [] in
  mode this = Battle -> viewMode this = Isometric ->
  minX <= V3.x sel < maxX -> minY <= V3.y sel < maxY -> z <= V3.z sel ->
  NoDup (List.map objId objects) ->
  tileCalls this b (z - currentZLevel this) z 0 (V3.y sel) (V3.x sel)
  = List.map (objectCall this (z - currentZLevel this)) (groundPrefix objects)
    ++ selectionCall this b (selectionImageBack b)
       :: List.map (objectCall this (z - currentZLevel this))
            (afterGround objects)
    ++ [selectionCall this b (selectionImageFront b)].
Proof.
  cbn zeta. intros Hm Hv Hx Hy Hz Hnd.
  destruct (renderSelection_visible this minX maxX minY maxY z Hm Hv Hx Hy Hz)
    as (Htile & Hpos & Hfirst). cbn zeta in *.
  unfold tileCalls, isSelTile, isDrawBackBeforeThis.
  rewrite Htile, Hfirst. cbn [V3.x V3.y V3.z].
  rewrite !Z.eqb_refl. cbn [andb Z.to_nat].
  change (Pos.to_nat 1) with 1%nat.
  set (objects := nth 0 _ []) in *.
  set (back := selectionCall this _ (selectionImageBack _)).
  rewrite app_assoc.
  rewrite (bracket_back_position back
             (objectCall this (z - currentZLevel this)) objects Hnd).
  rewrite <- app_assoc. reflexivity.
Qed.

(** X8: on the selected tile of a level at or below the selected one, when
    the tile lists no object twice, layer 0 is drawn as: the ground objects
    the list starts with, the back image of the bracket, the remaining
    objects from the first that is not ground, and the front image.  When
    every object is ground the back image comes after all of them. *)
Theorem bracket_wraps_tile_objects (this : TileView)
    (minX maxX minY maxY z : Z) (fw : Framework) :
  let sel := selectedTilePosition this in
  let b := renderSelection this minX maxX minY maxY z in
  let objects :=
    nth 0 (drawnObjects (getTile (map this) (V3.x sel) (V3.y sel) z)) [] in
  let draw obj :=
    RDrawObject obj (tileToOffsetScreenCoords this (getPosition obj))
      (viewMode this) (z - currentZLevel this) in
  let at_tile :=
    vec2_to_float
      (vec2_sub_i
         (tileToOffsetScreenCoordsInt this (V3.mk (V3.x sel) (V3.y sel) z))
         (selectedTileImageOffset this)) in
  mode this = Battle -> viewMode this = Isometric ->
  minX <= V3.x sel < maxX -> minY <= V3.y sel < maxY -> z <= V3.z sel ->
  NoDup (List.map objId objects) ->
  rendered
    (renderTile this b (z - currentZLevel this) z 0 (V3.y sel) (V3.x sel) fw)
  = rendered fw
    ++ List.map draw (groundPrefix objects)
    ++ RDrawImage (selectionImageBack b) at_tile
       :: List.map draw (afterGround objects)
    ++ [RDrawImage (selectionImageFront b) at_tile].
Proof.
  cbn zeta. intros Hm Hv Hx Hy Hz Hnd.
  rewrite renderTile_calls. cbn [add_calls rendered]. f_equal.
  rewrite (tileCalls_selected this minX maxX minY maxY z Hm Hv Hx Hy Hz Hnd).
  destruct (renderSelection_visible this minX maxX minY maxY z Hm Hv Hx Hy Hz)
    as (_ & Hpos & _). cbn zeta in Hpos.
  unfold selectionCall, objectCall. rewrite Hpos. reflexivity.
Qed.

(** A function that is empty everywhere but at one point of a range. *)
Lemma flat_map_zrange_only {B : Type} (f : Z -> list B) (lo hi a : Z) :
  lo <= a < hi -> (forall z, z <> a -> f z = []) ->
  flat_map f (zrange lo hi) = f a.
Proof.
  intros Ha Hf. unfold zrange.
  remember (Z.to_nat (hi - lo)) as n eqn:Hn.
  assert (Hhi : hi = lo + Z.of_nat n) by lia. clear Hn. subst hi.
  revert lo Ha. induction n as [|n IH]; intros lo Ha; [lia|].
  cbn [seq List.map flat_map]. rewrite <- seq_shift, List.map_map.
  replace (lo + Z.of_nat 0) with lo by lia.
  rewrite (List.map_ext (fun k => lo + Z.of_nat (S k))
             (fun k => (lo + 1) + Z.of_nat k)) by (intros; lia).
  destruct (Z.eq_dec lo a) as [->|Hne].
  - rewrite flat_map_nil_on; [now rewrite app_nil_r|].
    intros z Hz. apply Hf. apply in_map_iff in Hz.
    destruct Hz as (k & <- & _). lia.
  - rewrite (Hf lo Hne). cbn [app]. apply IH. lia.
Qed.

Lemma filter_selected_tile (this : TileView) (minX maxX minY maxY z : Z) :
  let sel := selectedTilePosition this in
  let b := renderSelection this minX maxX minY maxY z in
  mode this = Battle -> viewMode this = Isometric ->
  minX <= V3.x sel < maxX -> minY <= V3.y sel < maxY -> z <= V3.z sel ->
  NoDup
    (List.map objId
       (nth 0 (drawnObjects (getTile (map this) (V3.x sel) (V3.y sel) z)) [])) ->
  filter isImageDraw
    (tileCalls this b (z - currentZLevel this) z 0 (V3.y sel) (V3.x sel))
  = [selectionCall this b (selectionImageBack b);
     selectionCall this b (selectionImageFront b)].
Proof.
  cbn zeta. intros Hm Hv Hx Hy Hz Hnd.
  rewrite (tileCalls_selected this minX maxX minY maxY z Hm Hv Hx Hy Hz Hnd).
  rewrite filter_app. cbn [filter selectionCall isImageDraw].
  rewrite filter_app. cbn [filter isImageDraw].
  now rewrite !filter_objectCalls_nil.
Qed.

(** The images of one level: the bracket, once, or nothing. *)
Lemma filter_level_images (this : TileView) (minX maxX minY maxY z : Z) :
  let sel := selectedTilePosition this in
  let b := renderSelection this minX maxX minY maxY z in
  mode this = Battle -> viewMode this = Isometric ->
  minX <= V3.x sel < maxX -> minY <= V3.y sel < maxY ->
  1 <= getLayerCount (map this) ->
  NoDup
    (List.map objId
       (nth 0 (drawnObjects (getTile (map this) (V3.x sel) (V3.y sel) z)) [])) ->
  filter isImageDraw (levelCalls this minX maxX minY maxY z)
  = if z <=? V3.z sel
    then [selectionCall this b (selectionImageBack b);
          selectionCall this b (selectionImageFront b)]
    else [].
Proof.
  cbn zeta. intros Hm Hv Hx Hy Hl Hnd.
  destruct (z <=? V3.z (selectedTilePosition this)) eqn:Hz.
  - apply Z.leb_le in Hz.
    destruct (renderSelection_visible this minX maxX minY maxY z
                Hm Hv Hx Hy Hz) as (Htile & _ & _). cbn zeta in Htile.
    pose proof (filter_selected_tile this minX maxX minY maxY z
                  Hm Hv Hx Hy Hz Hnd) as Hsel. cbn zeta in Hsel.
    unfold levelCalls. rewrite filter_flat_map.
    rewrite (flat_map_zrange_only _ 0 _ 0); [|lia|].
    + rewrite filter_flat_map.
      rewrite (flat_map_zrange_only _ minY maxY
                 (V3.y (selectedTilePosition this))); [|lia|].
      * rewrite filter_flat_map.
        rewrite (flat_map_zrange_only _ minX maxX
                   (V3.x (selectedTilePosition this))); [exact Hsel|lia|].
        intros x Hne. unfold tileCalls, isSelTile. rewrite Htile.
        cbn [V3.x V3.y V3.z].
        replace (V3.x (selectedTilePosition this) =? x) with false by lia.
        cbn [andb]. now apply filter_objectCalls_nil.
      * intros y Hne. apply filter_flat_map_nil. intros x.
        unfold tileCalls, isSelTile. rewrite Htile. cbn [V3.x V3.y V3.z].
        replace (V3.y (selectedTilePosition this) =? y) with false by lia.
        rewrite andb_false_r. cbn [andb]. now apply filter_objectCalls_nil.
    + intros layer Hne. apply filter_flat_map_nil. intros y.
      apply filter_flat_map_nil. intros x. unfold tileCalls.
      replace (layer =? 0) with false by lia. rewrite andb_false_r.
      now apply filter_objectCalls_nil.
  - apply Z.leb_gt in Hz.
    pose proof (renderSelection_above this minX maxX minY maxY z Hz) as Hnone.
    unfold levelCalls.
    apply filter_flat_map_nil. intros layer.
    apply filter_flat_map_nil. intros y.
    apply filter_flat_map_nil. intros x.
    unfold tileCalls, isSelTile. rewrite Hnone. cbn [andb].
    now apply filter_objectCalls_nil.
Qed.

(** X9: in a battle drawn in isometric view, with the selected tile inside
    the visible rectangle, at least one layer, and no object listed twice
    on the selected column, the images of a frame are exactly one bracket
    per drawn level at or below the selected tile's level: the back image
    and then the front image chosen for that level, both over the tile of
    that level in the selected column.  Levels above draw none. *)
Theorem bracket_drawn_once_per_level (this : TileView) (fw : Framework) :
  let view := fst (render this fw) in
  let sel := selectedTilePosition this in
  let bracket z :=
    renderSelection view (frameMinX view) (frameMaxX view)
      (frameMinY view) (frameMaxY view) z in
  let at_tile z :=
    vec2_to_float
      (vec2_sub_i
         (tileToOffsetScreenCoordsInt view (V3.mk (V3.x sel) (V3.y sel) z))
         (selectedTileImageOffset this)) in
  mode this = Battle -> viewMode this = Isometric ->
  frameMinX view <= V3.x sel < frameMaxX view ->
  frameMinY view <= V3.y sel < frameMaxY view ->
  1 <= getLayerCount (map this) ->
  (forall z,
      NoDup
        (List.map objId
           (nth 0 (drawnObjects (getTile (map this) (V3.x sel) (V3.y sel) z))
              []))) ->
  filter isImageDraw (frameCalls this fw)
  = flat_map
      (fun z =>
         if z <=? V3.z sel
         then [RDrawImage (selectionImageBack (bracket z)) (at_tile z);
               RDrawImage (selectionImageFront (bracket z)) (at_tile z)]
         else [])
      (frameLevels this).
Proof.
  cbn zeta. intros Hm Hv Hx Hy Hl Hnd.
  rewrite frame_images. cbn zeta.
  rewrite <- (frameLevels_render this fw).
  assert (Hview : fst (render this fw)
                  = set_centerPos (centerPos (fst (render this fw))) this).
  { rewrite render_view. reflexivity. }
  set (view := fst (render this fw)) in *.
  assert (Hm' : mode view = Battle) by (rewrite Hview; exact Hm).
  assert (Hv' : viewMode view = Isometric) by (rewrite Hview; exact Hv).
  assert (Hsel : selectedTilePosition view = selectedTilePosition this)
    by (rewrite Hview; reflexivity).
  assert (Hmap : map view = map this) by (rewrite Hview; reflexivity).
  assert (Hoff : selectedTileImageOffset view = selectedTileImageOffset this)
    by (rewrite Hview; reflexivity).
  apply flat_map_ext. intros z.
  rewrite (filter_level_images view); rewrite ?Hsel, ?Hmap; trivial.
  destruct (z <=? V3.z (selectedTilePosition this)) eqn:Hz; [|reflexivity].
  apply Z.leb_le in Hz.
  destruct (renderSelection_visible view (frameMinX view) (frameMaxX view)
              (frameMinY view) (frameMaxY view) z) as (_ & Hpos & _);
    rewrite ?Hsel; trivial.
  cbn zeta in Hpos. unfold selectionCall.
  rewrite Hpos, Hsel, Hoff. reflexivity.
Qed.

End BracketOrder.

(** ** Ticks, keys and setters *)

Section Composition.

Context {hdr : TileViewHeader}.

Lemma set_centerPos_same (this : TileView) :
  set_centerPos (centerPos this) this = this.
Proof. now destruct this. Qed.

Lemma set_selectedTilePosition_same (this : TileView) :
  set_selectedTilePosition (selectedTilePosition this) this = this.
Proof. now destruct this. Qed.

Lemma setScreenCenterTile_in_bounds_same (this : TileView) (fw : Framework) :
  center_in_bounds this ->
  fst (setScreenCenterTile (centerPos this) this fw) = this.
Proof.
  intros (Hx & Hy & Hz). rewrite setScreenCenterTile_view.
  rewrite !clampedAxis_fixes_bounds by assumption.
  destruct this as [? ? ? ? ? ? ? ? ? ? ? ? ? ? ? ? c]. now destruct c.
Qed.

Lemma idle_render_same (this : TileView) (fw : Framework) :
  idle this -> center_in_bounds this -> fst (render this fw) = this.
Proof.
  intros (Hl & Hr & Hu & Hd) Hc. rewrite render_view.
  assert (Ht : fst (renderScroll this fw) = centerPos this).
  { unfold renderScroll. rewrite Hl, Hr, Hu, Hd.
    now destruct (viewMode this). }
  rewrite Ht. now apply setScreenCenterTile_in_bounds_same.
Qed.

(** X10: a render tick changes nothing of the view but the camera center,
    and with no scroll key held and the center within bounds it leaves the
    whole view exactly as it was, in every view mode. *)
Theorem idle_tick_keeps_view (this : TileView) (fw : Framework) :
  fst (render this fw)
  = set_centerPos (centerPos (fst (render this fw))) this
  /\ (idle this -> center_in_bounds this -> fst (render this fw) = this).
Proof.
  split.
  - rewrite render_view, setScreenCenterTile_view. reflexivity.
  - apply idle_render_same.
Qed.

Lemma selection_key_press (k : KeyCode) (step : Vec3 Z) (this : TileView)
    (fw : Framework) :
  selectionStep k = Some step ->
  selected_in_bounds this ->
  let target := vec3_add_i (selectedTilePosition this) step in
  (tile_in_map (map this) target ->
   eventOccurred (EVENT_KEY_DOWN k) this fw
   = (set_selectedTilePosition target this, fw))
  /\ (~ tile_in_map (map this) target ->
      eventOccurred (EVENT_KEY_DOWN k) this fw = (this, fw)).
Proof.
  intros Hstep Hsel. cbn zeta.
  unfold selected_in_bounds, tile_in_map, vec3_add_i in *.
  destruct (selectedTilePosition this) as [sx sy sz] eqn:Hpos.
  cbn [V3.x V3.y V3.z] in *.
  destruct k; try discriminate; injection Hstep as <-;
    cbn [eventOccurred V3.x V3.y V3.z]; rewrite Hpos;
    cbn [V3.x V3.y V3.z];
    match goal with
    | |- context [if ?c then _ else _] => destruct c eqn:Hc
    end;
    (split; intros Hin; [|try reflexivity; exfalso; lia]);
    try (exfalso; lia); do 3 f_equal; lia.
Qed.

Lemma selectionStep_opposite (k : KeyCode) (step : Vec3 Z) :
  selectionStep k = Some step ->
  selectionStep (oppositeKey k)
  = Some (V3.mk (- V3.x step) (- V3.y step) (- V3.z step)).
Proof. destruct k; try discriminate; intros H; injection H as <-; reflexivity. Qed.

(** X11: a selection key asks for a step of one tile along one axis.  From
    a selection inside the map the step is taken when the tile it leads to
    is inside the map, and only the selection changes; the opposite key
    then brings the view back exactly.  When the step would leave the map
    the key changes nothing. *)
Theorem selection_keys_step_within_map (k : KeyCode) (step : Vec3 Z)
    (this : TileView) (fw : Framework) :
  selectionStep k = Some step ->
  selected_in_bounds this ->
  let target := vec3_add_i (selectedTilePosition this) step in
  let pressed := fst (eventOccurred (EVENT_KEY_DOWN k) this fw) in
  (tile_in_map (map this) target ->
   pressed = set_selectedTilePosition target this
   /\ fst (eventOccurred (EVENT_KEY_DOWN (oppositeKey k)) pressed fw) = this)
  /\ (~ tile_in_map (map this) target -> pressed = this)
  /\ snd (eventOccurred (EVENT_KEY_DOWN k) this fw) = fw.
Proof.
  intros Hstep Hsel. cbn zeta.
  destruct (selection_key_press k step this fw Hstep Hsel) as [Hin Hout].
  cbn zeta in *. split; [|split].
  - intros Htarget. rewrite (Hin Htarget). cbn [fst]. split; [reflexivity|].
    set (target := vec3_add_i (selectedTilePosition this) step) in *.
    assert (Hsel' : selected_in_bounds (set_selectedTilePosition target this))
      by exact Htarget.
    destruct (selection_key_press (oppositeKey k) _
                (set_selectedTilePosition target this) fw
                (selectionStep_opposite k step Hstep) Hsel') as [Hback _].
    cbn zeta in Hback. rewrite Hback.
    + cbn [fst selectedTilePosition set_selectedTilePosition].
      change (set_selectedTilePosition ?p (set_selectedTilePosition ?q this))
        with (set_selectedTilePosition p this).
      rewrite <- (set_selectedTilePosition_same this) at 2. f_equal.
      unfold target, vec3_add_i. cbn [V3.x V3.y V3.z].
      destruct (selectedTilePosition this). cbn [V3.x V3.y V3.z].
      f_equal; lia.
    + unfold tile_in_map, target, vec3_add_i.
      cbn [selectedTilePosition set_selectedTilePosition map V3.x V3.y V3.z].
      unfold selected_in_bounds in Hsel. lia.
  - intros Hnot. now rewrite (Hout Hnot).
  - destruct (selectionStep k) eqn:E; [|discriminate].
    destruct k; try discriminate; cbn [eventOccurred];
      match goal with
      | |- context [if ?c then _ else _] => destruct c
      end; reflexivity.
Qed.

(** X12: pressing a scroll key and releasing it, with no tick in between,
    leaves a view that had that key up exactly as it was; the camera itself
    never moves on a key event, only on the ticks while the key is held. *)
Theorem scroll_key_press_release (k : KeyCode) (this : TileView)
    (fw : Framework) :
  isScrollKey k = true ->
  let pressed := fst (eventOccurred (EVENT_KEY_DOWN k) this fw) in
  let released := fst (eventOccurred (EVENT_KEY_UP k) pressed fw) in
  centerPos pressed = centerPos this
  /\ centerPos released = centerPos this
  /\ (idle this -> released = this)
  /\ (idle this -> center_in_bounds this ->
      fst (render released fw) = this)
  /\ ~ idle pressed.
Proof.
  intros Hk. cbn zeta.
  destruct k; try discriminate; cbn [eventOccurred fst];
    (split; [reflexivity|]); (split; [reflexivity|]);
    match goal with
    | |- (idle this -> ?r = this) /\ _ =>
        assert (Hidle : idle this -> r = this)
          by (intros (Hl & Hr & Hu & Hd); destruct this; cbn in *; subst;
              reflexivity)
    end;
    (split; [exact Hidle|]);
    (split;
     [ intros Hi Hc; rewrite (Hidle Hi); now apply idle_render_same
     | intros (Hl & Hr & Hu & Hd); cbn in *; discriminate ]).
Qed.

Lemma clampedAxis_idempotent (c : float) (m : Z) :
  0 <= m -> clampedAxis (clampedAxis c m) m = clampedAxis c m.
Proof.
  intros Hm. pose proof (F32Facts.of_int_nonneg m Hm) as Hpos.
  pose proof (F32Facts.leb_refl _ (F32Facts.of_int_not_nan m)) as Hrefl.
  unfold clampedAxis at 2 3.
  destruct (F32.ltb c F32.zero) eqn:Hlo.
  - unfold clampedAxis, F32.gtb.
    now rewrite (leb_not_gtb _ _ Hpos).
  - destruct (F32.gtb c (F32.of_int m)) eqn:Hhi.
    + unfold clampedAxis, F32.gtb.
      now rewrite (leb_not_gtb _ _ Hpos), (leb_not_gtb _ _ Hrefl).
    + unfold clampedAxis. now rewrite Hlo, Hhi.
Qed.

(** X13: [setScreenCenterTile] stores a center that is within bounds as it
    is, and storing the stored center again changes nothing: on a map
    without negative sizes the clamp reaches its result in one call, for
    every input. *)
Theorem setScreenCenterTile_settles (center : Vec3 float) (this : TileView)
    (fw fw' : Framework) :
  map_sizes_nonneg (map this) ->
  let stored := fst (setScreenCenterTile center this fw) in
  fst (setScreenCenterTile (centerPos stored) stored fw') = stored
  /\ (axis_in_bounds (V3.x center) (V3.x (size (map this))) ->
      axis_in_bounds (V3.y center) (V3.y (size (map this))) ->
      axis_in_bounds (V3.z center) (V3.z (size (map this))) ->
      centerPos stored = center).
Proof.
  intros (Hx & Hy & Hz). cbn zeta. rewrite !setScreenCenterTile_view.
  split.
  - cbn [centerPos set_centerPos map V3.x V3.y V3.z].
    now rewrite !clampedAxis_idempotent.
  - intros Bx By Bz. cbn [centerPos set_centerPos].
    rewrite !clampedAxis_fixes_bounds by assumption. now destruct center.
Qed.

(** X14: [setSelectedTilePosition] stores a position inside the map as it
    is, stores for any other the nearest tile of the map on each axis, and
    changes nothing when given the selection it has just stored. *)
Theorem setSelectedTilePosition_settles (p : Vec3 Z) (this : TileView) :
  map_nonempty (map this) ->
  let stored := setSelectedTilePosition p this in
  (tile_in_map (map this) p -> getSelectedTilePosition stored = p)
  /\ setSelectedTilePosition (getSelectedTilePosition stored) stored = stored
  /\ (forall q,
         tile_in_map (map this) q ->
         Z.abs (V3.x (getSelectedTilePosition stored) - V3.x p)
         <= Z.abs (V3.x q - V3.x p)
         /\ Z.abs (V3.y (getSelectedTilePosition stored) - V3.y p)
            <= Z.abs (V3.y q - V3.y p)
         /\ Z.abs (V3.z (getSelectedTilePosition stored) - V3.z p)
            <= Z.abs (V3.z q - V3.z p)).
Proof.
  intros (Hx & Hy & Hz). cbn zeta. unfold getSelectedTilePosition, tile_in_map.
  rewrite !setSelectedTilePosition_view.
  cbn [selectedTilePosition set_selectedTilePosition map].
  unfold clampToMap. cbn [V3.x V3.y V3.z].
  split; [|split].
  - intros Hin. destruct p as [px py pz]. cbn [V3.x V3.y V3.z] in *.
    f_equal; lia.
  - change (set_selectedTilePosition ?a (set_selectedTilePosition ?b this))
      with (set_selectedTilePosition a this).
    f_equal. f_equal; lia.
  - intros q (Qx & Qy & Qz). split; [|split].
    + clear - Hx Qx. lia.
    + clear - Hy Qy. lia.
    + clear - Hz Qz. lia.
Qed.

(** X15: [setZLevel] keeps the camera where it is in x and y when the
    center is within bounds, puts its z on a number within the map's depth,
    and leaves the selection and both drawing modes alone. *)
Theorem setZLevel_keeps_camera_column (v : Z) (this : TileView)
    (fw : Framework) :
  map_sizes_nonneg (map this) -> center_in_bounds this ->
  let view := fst (setZLevel v this fw) in
  V3.x (centerPos view) = V3.x (centerPos this)
  /\ V3.y (centerPos view) = V3.y (centerPos this)
  /\ center_in_bounds view
  /\ selectedTilePosition view = selectedTilePosition this
  /\ viewMode view = viewMode this
  /\ layerDrawingMode view = layerDrawingMode this.
Proof.
  intros Hmap Hc. cbn zeta. pose proof Hc as (Hx & Hy & Hz).
  pose proof Hmap as (Mx & My & Mz).
  unfold setZLevel. rewrite setScreenCenterTile_view.
  cbn [centerPos set_centerPos set_currentZLevel map V3.x V3.y V3.z
         selectedTilePosition viewMode layerDrawingMode].
  rewrite !clampedAxis_fixes_bounds by assumption.
  repeat split; trivial; cbn; try apply Hx; try apply Hy;
    apply clampedAxis_in_bounds; trivial; apply F32Facts.of_int_not_nan.
Qed.

(** X16: the sound listener is given the position the camera was asked to
    take, before clamping, at half the map's depth: after a tick it is at
    the scroll target, so it leaves the map when the target does although
    the center stored for the camera does not. *)
Theorem listener_follows_unclamped_target (this : TileView)
    (fw : Framework) :
  let target := fst (renderScroll this fw) in
  listenerPosition (snd (render this fw))
  = V3.mk (V3.x target) (V3.y target)
      (F32.of_int (Z.quot (V3.z (size (map this))) 2))
  /\ (forall center fw',
         listenerPosition (snd (setScreenCenterTile center this fw'))
         = V3.mk (V3.x center) (V3.y center)
             (F32.of_int (Z.quot (V3.z (size (map this))) 2)))
  /\ (F32.ltb (V3.x target) F32.zero = true ->
      V3.x (centerPos (fst (render this fw))) = F32.zero
      /\ F32.ltb (V3.x (listenerPosition (snd (render this fw)))) F32.zero
         = true).
Proof.
  cbn zeta.
  assert (Hl : listenerPosition (snd (render this fw))
               = V3.mk (V3.x (fst (renderScroll this fw)))
                   (V3.y (fst (renderScroll this fw)))
                   (F32.of_int (Z.quot (V3.z (size (map this))) 2))).
  { pose proof (render_framework this fw) as Hfw. cbn zeta in Hfw.
    destruct (renderBounds (fst (render this fw)))
      as [[[minX maxX] minY] maxY].
    destruct (renderZRange (fst (render this fw))) as [zFrom zTo].
    rewrite Hfw, renderStrategyBox_calls. reflexivity. }
  split; [exact Hl|]. split; [reflexivity|].
  intros Hneg. rewrite Hl. cbn [V3.x]. split; [|exact Hneg].
  rewrite render_view, setScreenCenterTile_view.
  cbn [centerPos set_centerPos V3.x]. unfold clampedAxis. now rewrite Hneg.
Qed.

(** X17: in isometric view a tick moves the scroll target along the screen
    diagonals by the isometric scroll speed: left by (-x, +y), right by
    (+x, -y), up by (-x, -y), down by (+x, +y), applied in that order for
    the keys held; the center stored is that target, clamped. *)
Theorem isometric_view_scrolls_diagonally (this : TileView)
    (fw : Framework) :
  getViewMode this = Isometric ->
  let c := centerPos this in
  let s := isoScrollSpeed this in
  let x1 := if scrollLeft this then F32.sub (V3.x c) (V2.x s) else V3.x c in
  let y1 := if scrollLeft this then F32.add (V3.y c) (V2.y s) else V3.y c in
  let x2 := if scrollRight this then F32.add x1 (V2.x s) else x1 in
  let y2 := if scrollRight this then F32.sub y1 (V2.y s) else y1 in
  let x3 := if scrollUp this then F32.sub x2 (V2.x s) else x2 in
  let y3 := if scrollUp this then F32.sub y2 (V2.y s) else y2 in
  let x4 := if scrollDown this then F32.add x3 (V2.x s) else x3 in
  let y4 := if scrollDown this then F32.add y3 (V2.y s) else y3 in
  fst (render this fw)
  = fst (setScreenCenterTile (V3.mk x4 y4 (V3.z c)) this fw)
  /\ log (snd (render this fw)) = log fw.
Proof.
  unfold getViewMode. intros Hv. cbn zeta. split.
  - rewrite render_view. unfold renderScroll. rewrite Hv.
    destruct (scrollLeft this), (scrollRight this), (scrollUp this),
      (scrollDown this); destruct (centerPos this); reflexivity.
  - rewrite render_log, Hv. apply app_nil_r.
Qed.

(** X18: no event other than F6 reaches the renderer, the log or the image
    writer, and none but a primary finger drag moves the sound listener.
    F6 logs one warning and then writes one image,
    "tileviewvoxels.png". *)
Theorem events_leave_framework_alone (e : Event) (this : TileView)
    (fw : Framework) :
  let fw' := snd (eventOccurred e this fw) in
  (e <> EVENT_KEY_DOWN SDLK_F6 ->
   rendered fw' = rendered fw
   /\ log fw' = log fw /\ writtenImages fw' = writtenImages fw)
  /\ (e = EVENT_KEY_DOWN SDLK_F6 ->
      log fw'
      = log fw
        ++ [mkLogEntry LogLevelWarning
              "Writing voxel view to tileviewvoxels.png"]
      /\ writtenImages fw' = writtenImages fw ++ ["tileviewvoxels.png"%string])
  /\ ((forall dx dy, e <> EVENT_FINGER_MOVE true dx dy) ->
      listenerPosition fw' = listenerPosition fw).
Proof.
  cbn zeta.
  destruct e as [k|k|X Y|prim dx dy|ty]; cbn [eventOccurred].
  - destruct k;
      try match goal with
          | |- context [if ?c then _ else _] => destruct c
          end;
      cbn [snd fst]; repeat split; trivial; try discriminate; congruence.
  - destruct k; cbn [snd]; repeat split; trivial; discriminate.
  - cbn [snd]. repeat split; trivial; discriminate.
  - destruct prim; cbn [snd setScreenCenterTile setListenerPosition
                           rendered log writtenImages listenerPosition];
      repeat split; trivial; try discriminate.
    intros Hno. now destruct (Hno dx dy).
  - cbn [snd]. repeat split; trivial; discriminate.
Qed.

Lemma perform_keeps_mode (a : Action) (s : TileView * Framework) :
  mode (fst (perform a s)) = mode (fst s)
  /\ maxZDraw (fst (perform a s)) = maxZDraw (fst s)
  /\ (mode (fst s) <> Battle ->
      layerDrawingMode (fst (perform a s)) = layerDrawingMode (fst s)).
Proof.
  destruct s as [this fw]. cbn [fst snd].
  destruct a as [e| |zLevel|lm|vm|center|center|p]; cbn [perform fst snd].
  - destruct e as [k|k|X Y|prim dx dy|ty]; cbn [eventOccurred].
    + destruct k; cbn [fst]; auto;
        match goal with
        | |- context [if ?c then _ else _] => destruct c
        end; auto.
    + destruct k; cbn [fst]; auto.
    + auto.
    + destruct prim; auto.
    + auto.
  - rewrite render_view. auto.
  - auto.
  - unfold setLayerDrawingMode. destruct (mode this) eqn:Hm; auto.
    split; [exact Hm|]. split; [reflexivity|]. intros H. now destruct H.
  - auto.
  - auto.
  - auto.
  - auto.
Qed.

(** X19: a view constructed in city mode stays one under every sequence of
    calls: [setLayerDrawingMode] never takes effect, every frame goes
    through all the levels from 0 up to [maxZDraw], and no frame draws a
    selection bracket. *)
Theorem city_view_draws_all_levels (m : TileMap) (iso : Vec3 Z)
    (strat : Vec2 Z) (v : TileViewMode) (ind : LayerDrawingMode)
    (fw fw' : Framework) (l : list Action) :
  let view := fst (run l (TileView_new m iso strat v City ind fw)) in
  mode view = City
  /\ layerDrawingMode view = AllLevels
  /\ frameLevels view = zrange 0 (V3.z (size m))
  /\ filter isImageDraw (frameCalls view fw') = [].
Proof.
  cbn zeta.
  assert (H0 : mode (fst (TileView_new m iso strat v City ind fw)) = City
               /\ layerDrawingMode
                    (fst (TileView_new m iso strat v City ind fw)) = AllLevels
               /\ maxZDraw (fst (TileView_new m iso strat v City ind fw))
                  = V3.z (size m)) by (repeat split).
  revert H0. generalize (TileView_new m iso strat v City ind fw).
  induction l as [|a l IH]; intros s (Hm & Hl & Hd).
  - cbn [run fold_left]. split; [exact Hm|]. split; [exact Hl|]. split.
    + unfold frameLevels, renderZRange. now rewrite Hl, Hd.
    + rewrite frame_images. cbn zeta.
      destruct (render_keeps_members (fst s) fw') as (_ & _ & Hmd & _).
      cbn zeta in Hmd.
      apply flat_map_nil_on. intros z _.
      apply level_without_bracket. left. congruence.
  - cbn [run fold_left]. apply IH.
    destruct (perform_keeps_mode a s) as (Hm' & Hd' & Hl').
    split; [congruence|]. split; [rewrite Hl' by congruence; exact Hl|].
    congruence.
Qed.

End Composition.

(** ** The properties above on the sample views *)

Lemma render_draws_map_tiles_only_witness :
  exists x y z layer obj pos relativeLevel,
    hd RClear (objectDraws (frameCalls (hdr := SpecHeader.header)
                              Sample.corner Sample.fw))
    = RDrawObject obj pos Isometric relativeLevel
    /\ 0 <= x < 2 /\ 0 <= y < 2 /\ 0 <= z < 5 /\ 0 <= layer < 2
    /\ In obj (nth (Z.to_nat layer) (drawnObjects (Sample.tiles x y z)) []).
Proof.
  apply (render_draws_map_tiles_only (hdr := SpecHeader.header)
           Sample.corner Sample.fw).
  - vm_compute. reflexivity.
  - vm_compute. split; discriminate.
  - vm_compute. left. reflexivity.
Defined.

Lemma relative_level_below_current_witness :
  - 1 <= -1 < 0.
Proof.
  destruct (relative_level_below_current (hdr := SpecHeader.header)
              Sample.corner Sample.fw (Sample.floor 0)
              (V2.mk (F32.of_int 320) (F32.of_int 240)) Isometric (-1))
    as (Hupto & _ & _).
  - vm_compute. right. right. left. reflexivity.
  - apply Hupto. vm_compute. reflexivity.
Defined.

Lemma no_bracket_outside_battle_isometric_witness :
  filter isImageDraw
    (frameCalls (hdr := SpecHeader.header)
       (setSelectedTilePosition (V3.mk 1 1 2) Sample.city) Sample.fw) = []
  /\ filter isImageDraw
       (frameCalls (hdr := SpecHeader.header)
          (setViewMode Strategy
             (setSelectedTilePosition (V3.mk 1 1 0) Sample.battle))
          Sample.fw) = [].
Proof.
  split.
  - apply (no_bracket_outside_battle_isometric (hdr := SpecHeader.header)).
    left. vm_compute. discriminate.
  - apply (no_bracket_outside_battle_isometric (hdr := SpecHeader.header)).
    right. vm_compute. discriminate.
Defined.

Lemma strategy_box_closes_witness :
  filter isLineDraw
    (frameCalls (hdr := SpecHeader.header) Sample.battle Sample.fw) = []
  /\ exists before p1 p2 p3 p4,
       let line a b := RDrawLine a b (mkColour 212 176 172 255) F32.two in
       frameCalls (hdr := SpecHeader.header)
         (setViewMode Strategy Sample.battle) Sample.fw
       = before ++ [line p1 p2; line p2 p3; line p3 p4; line p4 p1]
       /\ filter isLineDraw before = [].
Proof.
  destruct (strategy_box_closes (hdr := SpecHeader.header)
              Sample.battle Sample.fw) as (Hnone & _).
  destruct (strategy_box_closes (hdr := SpecHeader.header)
              (setViewMode Strategy Sample.battle) Sample.fw) as (_ & Hbox).
  split.
  - apply Hnone. vm_compute. discriminate.
  - apply Hbox. vm_compute. reflexivity.
Defined.

Lemma bracket_wraps_tile_objects_witness :
  let view := setSelectedTilePosition (V3.mk 1 1 2) Sample.battle in
  List.map
    (fun c =>
       match c with
       | RDrawObject obj _ _ _ => inl (objId obj)
       | RDrawImage img _ => inr img
       | _ => inl 0
       end)
    (rendered
       (renderTile (hdr := SpecHeader.header) view
          (renderSelection view 0 10 0 10 2) 1 2 0 1 1 Sample.fw))
  = [inl 311;
     inr (Some "battle/selected-battletile-filled-back.png"%string);
     inl 411;
     inr (Some "battle/selected-battletile-filled-front.png"%string)].
Proof.
  cbn zeta.
  assert (Hview : mode (setSelectedTilePosition (V3.mk 1 1 2) Sample.battle)
                  = Battle) by (vm_compute; reflexivity).
  pose proof (bracket_wraps_tile_objects (hdr := SpecHeader.header)
                (setSelectedTilePosition (V3.mk 1 1 2) Sample.battle)
                0 10 0 10 2 Sample.fw Hview) as Hdraw.
  cbn zeta in Hdraw.
  etransitivity.
  - apply f_equal. apply Hdraw.
    + vm_compute. reflexivity.
    + vm_compute. split; [discriminate | reflexivity].
    + vm_compute. split; [discriminate | reflexivity].
    + vm_compute. discriminate.
    + vm_compute.
      apply NoDup_cons;
        [ intros [H|[]]; discriminate H
        | apply NoDup_cons; [intros [] | apply NoDup_nil] ].
  - vm_compute. reflexivity.
Defined.

Lemma bracket_drawn_once_per_level_witness :
  let view :=
    fst (setZLevel (hdr := SpecHeader.header) 3
           (setSelectedTilePosition (V3.mk 1 1 1) Sample.battle) Sample.fw) in
  List.map
    (fun c => match c with RDrawImage img _ => img | _ => None end)
    (filter isImageDraw
       (frameCalls (hdr := SpecHeader.header) view Sample.fw))
  = [Some "battle/selected-battletile-background-back.png"%string;
     Some "battle/selected-battletile-background-front.png"%string;
     Some "battle/selected-battletile-empty-back.png"%string;
     Some "battle/selected-battletile-empty-front.png"%string].
Proof.
  cbn zeta.
  rewrite (bracket_drawn_once_per_level (hdr := SpecHeader.header)).
  - vm_compute. reflexivity.
  - vm_compute. reflexivity.
  - vm_compute. reflexivity.
  - vm_compute. split; [discriminate | reflexivity].
  - vm_compute. split; [discriminate | reflexivity].
  - vm_compute. discriminate.
  - intros z.
    change (NoDup
              (List.map objId
                 (nth 0 (drawnObjects (Sample.tiles 1 1 z)) []))).
    unfold Sample.tiles. cbn [Z.eqb Pos.eqb andb].
    destruct (z =? 2); cbn [drawnObjects nth List.map objId Sample.floor
                              Sample.wall];
      (apply NoDup_cons;
       [ cbn [In]; intros [H|[]]; lia
       | apply NoDup_cons; [intros [] | apply NoDup_nil] ]).
Defined.

Lemma idle_tick_keeps_view_witness :
  fst (render (hdr := SpecHeader.header) Sample.battle Sample.fw)
  = Sample.battle.
Proof.
  destruct (idle_tick_keeps_view (hdr := SpecHeader.header)
              Sample.battle Sample.fw) as (_ & Hidle).
  apply Hidle.
  - vm_compute. repeat split; reflexivity.
  - vm_compute. repeat split; reflexivity.
Defined.

Lemma selection_keys_step_within_map_witness :
  selectedTilePosition
    (fst (eventOccurred (hdr := SpecHeader.header) (EVENT_KEY_DOWN SDLK_d)
            Sample.battle Sample.fw)) = V3.mk 1 0 0
  /\ fst (eventOccurred (hdr := SpecHeader.header) (EVENT_KEY_DOWN SDLK_a)
            (fst (eventOccurred (hdr := SpecHeader.header)
                    (EVENT_KEY_DOWN SDLK_d) Sample.battle Sample.fw))
            Sample.fw) = Sample.battle
  /\ fst (eventOccurred (hdr := SpecHeader.header) (EVENT_KEY_DOWN SDLK_a)
            Sample.battle Sample.fw) = Sample.battle.
Proof.
  assert (Hsel : selected_in_bounds Sample.battle).
  { vm_compute. repeat split; discriminate. }
  destruct (selection_keys_step_within_map (hdr := SpecHeader.header)
              SDLK_d (V3.mk 1 0 0) Sample.battle Sample.fw eq_refl Hsel)
    as (Hstep & _ & _).
  destruct (selection_keys_step_within_map (hdr := SpecHeader.header)
              SDLK_a (V3.mk (-1) 0 0) Sample.battle Sample.fw eq_refl Hsel)
    as (_ & Hedge & _).
  cbn zeta in *.
  destruct Hstep as [Hd Hback].
  { vm_compute. repeat split; discriminate. }
  split; [|split].
  - rewrite Hd. vm_compute. reflexivity.
  - exact Hback.
  - apply Hedge. vm_compute. intros ((H & _) & _). apply H. reflexivity.
Defined.

Lemma scroll_key_press_release_witness :
  fst (eventOccurred (hdr := SpecHeader.header) (EVENT_KEY_UP SDLK_LEFT)
         (fst (eventOccurred (hdr := SpecHeader.header)
                 (EVENT_KEY_DOWN SDLK_LEFT) Sample.battle Sample.fw))
         Sample.fw) = Sample.battle.
Proof.
  destruct (scroll_key_press_release (hdr := SpecHeader.header) SDLK_LEFT
              Sample.battle Sample.fw eq_refl) as (_ & _ & Hsame & _ & _).
  apply Hsame. vm_compute. repeat split; reflexivity.
Defined.

Lemma setScreenCenterTile_settles_witness :
  let stored :=
    fst (setScreenCenterTile
           (V3.mk (F32.of_int 99) (F32.of_int (-3)) (F32.of_int 2))
           Sample.battle Sample.fw) in
  fst (setScreenCenterTile (centerPos stored) stored Sample.fw) = stored
  /\ centerPos
       (fst (setScreenCenterTile
               (V3.mk (F32.of_int 3) (F32.of_int 4) (F32.of_int 2))
               Sample.battle Sample.fw))
     = V3.mk (F32.of_int 3) (F32.of_int 4) (F32.of_int 2).
Proof.
  assert (Hmap : map_sizes_nonneg (map Sample.battle)).
  { vm_compute. repeat split; discriminate. }
  destruct (setScreenCenterTile_settles
              (V3.mk (F32.of_int 99) (F32.of_int (-3)) (F32.of_int 2))
              Sample.battle Sample.fw Sample.fw Hmap) as (Hidem & _).
  destruct (setScreenCenterTile_settles
              (V3.mk (F32.of_int 3) (F32.of_int 4) (F32.of_int 2))
              Sample.battle Sample.fw Sample.fw Hmap) as (_ & Hsame).
  split; [exact Hidem|].
  apply Hsame; vm_compute; split; reflexivity.
Defined.

Lemma setSelectedTilePosition_settles_witness :
  getSelectedTilePosition (setSelectedTilePosition (V3.mk 3 4 2) Sample.battle)
  = V3.mk 3 4 2
  /\ Z.abs (V3.x (getSelectedTilePosition
                    (setSelectedTilePosition (V3.mk 20 4 2) Sample.battle))
            - 20)
     <= Z.abs (5 - 20).
Proof.
  assert (Hmap : map_nonempty (map Sample.battle)).
  { vm_compute. repeat split; discriminate. }
  destruct (setSelectedTilePosition_settles (V3.mk 3 4 2) Sample.battle Hmap)
    as (Hin & _ & _).
  destruct (setSelectedTilePosition_settles (V3.mk 20 4 2) Sample.battle Hmap)
    as (_ & _ & Hnear).
  split.
  - apply Hin. vm_compute. repeat split; discriminate.
  - apply (Hnear (V3.mk 5 0 0)). vm_compute. repeat split; discriminate.
Defined.

Lemma setZLevel_keeps_camera_column_witness :
  let moved :=
    fst (setScreenCenterTile
           (V3.mk (F32.of_int 3) (F32.of_int 4) F32.zero)
           Sample.battle Sample.fw) in
  V3.x (centerPos (fst (setZLevel (hdr := SpecHeader.header) 4 moved
                          Sample.fw))) = F32.of_int 3
  /\ center_in_bounds
       (fst (setZLevel (hdr := SpecHeader.header) 4 moved Sample.fw)).
Proof.
  cbn zeta.
  destruct (setZLevel_keeps_camera_column (hdr := SpecHeader.header) 4
              (fst (setScreenCenterTile
                      (V3.mk (F32.of_int 3) (F32.of_int 4) F32.zero)
                      Sample.battle Sample.fw)) Sample.fw)
    as (Hx & _ & Hc & _).
  - vm_compute. repeat split; discriminate.
  - vm_compute. repeat split; reflexivity.
  - split; [|exact Hc]. rewrite Hx. vm_compute. reflexivity.
Defined.

Lemma listener_follows_unclamped_target_witness :
  let view := set_scrollLeft true (setViewMode Strategy Sample.battle) in
  V3.x (centerPos (fst (render (hdr := SpecHeader.header) view Sample.fw)))
  = F32.zero
  /\ F32.ltb
       (V3.x (listenerPosition
                (snd (render (hdr := SpecHeader.header) view Sample.fw))))
       F32.zero = true.
Proof.
  cbn zeta.
  destruct (listener_follows_unclamped_target (hdr := SpecHeader.header)
              (set_scrollLeft true (setViewMode Strategy Sample.battle))
              Sample.fw) as (_ & _ & Hout).
  apply Hout. vm_compute. reflexivity.
Defined.

Lemma isometric_view_scrolls_diagonally_witness :
  centerPos
    (fst (render (hdr := SpecHeader.header)
            (set_scrollDown true Sample.battle) Sample.fw))
  = V3.mk F32.half F32.half F32.zero.
Proof.
  destruct (isometric_view_scrolls_diagonally (hdr := SpecHeader.header)
              (set_scrollDown true Sample.battle) Sample.fw) as (Hc & _).
  - vm_compute. reflexivity.
  - rewrite Hc. vm_compute. reflexivity.
Defined.

Lemma events_leave_framework_alone_witness :
  rendered
    (snd (eventOccurred (hdr := SpecHeader.header) (EVENT_MOUSE_MOVE 10 10)
            Sample.battle Sample.fw)) = []
  /\ writtenImages
       (snd (eventOccurred (hdr := SpecHeader.header)
               (EVENT_KEY_DOWN SDLK_F6) Sample.battle Sample.fw))
     = ["tileviewvoxels.png"%string]
  /\ listenerPosition
       (snd (eventOccurred (hdr := SpecHeader.header)
               (EVENT_KEY_DOWN SDLK_UP) Sample.battle Sample.fw))
     = V3.mk F32.zero F32.zero F32.zero.
Proof.
  destruct (events_leave_framework_alone (hdr := SpecHeader.header)
              (EVENT_MOUSE_MOVE 10 10) Sample.battle Sample.fw)
    as (Hquiet & _ & _).
  destruct (events_leave_framework_alone (hdr := SpecHeader.header)
              (EVENT_KEY_DOWN SDLK_F6) Sample.battle Sample.fw)
    as (_ & Hf6 & _).
  destruct (events_leave_framework_alone (hdr := SpecHeader.header)
              (EVENT_KEY_DOWN SDLK_UP) Sample.battle Sample.fw)
    as (_ & _ & Hlistener).
  cbn zeta in *. split; [|split].
  - destruct Hquiet as (Hr & _ & _); [discriminate|]. exact Hr.
  - destruct Hf6 as (_ & Hw); [reflexivity|]. exact Hw.
  - apply Hlistener. intros dx dy. discriminate.
Defined.
